(** * Agentic factory workflow: a shallow embedding and its properties

    The development embeds the parts of the repository that carry control
    flow: the A2A executors, the work-order id parser, the edge condition and
    the workflow construction of [challenge-4/agent-workflow/app/agents.py],
    the work-order and chat-history operations of
    [challenge-3/agents/services/cosmos_db_service.py] and the history
    bookkeeping of [challenge-3/agents/maintenance_scheduler_agent.py].

    Part I holds the definitions, one module per source file; Part II holds
    the lemmas and theorems.

    Conventions.  Python [str] values are modelled by [string]; the case
    mapping [str.lower] and the regular-expression classes act on the ASCII
    range only.  An [exn] stands for an instance of Python's [Exception]
    class (what [except Exception] catches); fallible code returns a
    [result], stateful fallible code lives in the monad [M]. *)

From Stdlib Require Import ZArith Ascii String List Lia Bool.
From stdpp Require Import base option list strings gmap.

Open Scope string_scope.
Set Warnings "-register-all".

(* ===================================================================== *)
(** * Part I: the embedding *)
(* ===================================================================== *)

(** ** Python values and control flow *)
Module Py.

(** An instance of [Exception]: its class name and what [str(e)] shows. *)
Record exn := Exn { exc_class : string; exc_str : string }.

Inductive result (A : Type) : Type :=
| Ok (a : A)
| Raise (e : exn).
Arguments Ok {A} a.
Arguments Raise {A} e.

(** State that survives a raised exception, as in Python. *)
Definition M (S A : Type) : Type := S -> result A * S.

Definition ret {S A} (a : A) : M S A := fun s => (Ok a, s).

Definition raise {S A} (e : exn) : M S A := fun s => (Raise e, s).

Definition bind {S A B} (m : M S A) (k : A -> M S B) : M S B :=
  fun s => match m s with
           | (Ok a, s') => k a s'
           | (Raise e, s') => (Raise e, s')
           end.

(** [try: body  except Exception as e: handler e] *)
Definition try_except {S A} (body : M S A) (handler : exn -> M S A) : M S A :=
  fun s => match body s with
           | (Ok a, s') => (Ok a, s')
           | (Raise e, s') => handler e s'
           end.

(** A pure fallible computation run inside [M]. *)
Definition lift {S A} (r : result A) : M S A := fun s => (r, s).

Definition modify {S} (f : S -> S) : M S unit := fun s => (Ok tt, f s).

Declare Scope py_scope.
Delimit Scope py_scope with py.
Notation "x <- c ;; k" := (bind c (fun x => k))
  (at level 100, c at next level, right associativity) : py_scope.
Notation "c ;;; k" := (bind c (fun _ => k))
  (at level 100, right associativity) : py_scope.

(** *** Strings *)

Definition is_upper (c : ascii) : bool :=
  (65 <=? nat_of_ascii c)%nat && (nat_of_ascii c <=? 90)%nat.

Definition lower_char (c : ascii) : ascii :=
  if is_upper c then ascii_of_nat (nat_of_ascii c + 32) else c.

(** [s.lower()] *)
Fixpoint lower (s : string) : string :=
  match s with
  | "" => ""
  | String c r => String (lower_char c) (lower r)
  end.

(** [needle in hay] on strings: some position of [hay] starts with
    [needle]. *)
Fixpoint str_in (needle hay : string) : bool :=
  String.prefix needle hay ||
  match hay with
  | "" => false
  | String _ r => str_in needle r
  end.

(** Truth value of a string: only the empty string is falsy. *)
Definition truthy (s : string) : bool :=
  match s with "" => false | _ => true end.

(** Truth value of [os.getenv(..)] and the like: [None] and [""] are
    falsy. *)
Definition truthy_opt (o : option string) : bool :=
  match o with Some s => truthy s | None => false end.

(** [any(p(x) for x in xs)] *)
Definition any {A} (p : A -> bool) (xs : list A) : bool := existsb p xs.

(** [all(xs)] over truth values. *)
Definition all (xs : list bool) : bool := forallb (fun b => b) xs.

(** [a or b] on optional strings. *)
Definition or_else (a b : option string) : option string :=
  if truthy_opt a then a else b.

End Py.

(** ** [challenge-3/agents/services/cosmos_db_service.py] *)
Module Cosmos.
Import Py.
Local Open Scope py_scope.

(** JSON values as the SDK hands them to Python: [None], [bool], [int],
    [str], [list] and [dict] (insertion-ordered, looked up by key). *)
Inductive json : Type :=
| JNull
| JBool (b : bool)
| JNum (n : Z)
| JStr (s : string)
| JArr (xs : list json)
| JObj (fields : list (string * json)).

(** A stored document is a [dict]. *)
Definition item : Type := list (string * json).

(** [d.get(k)] without a default: [None] when the key is absent. *)
Fixpoint lookup_key (d : item) (k : string) : option json :=
  match d with
  | [] => None
  | (k', v) :: d' => if String.eqb k' k then Some v else lookup_key d' k
  end.

(** [d.get(k, default)] *)
Definition get (d : item) (k : string) (default : json) : json :=
  match lookup_key d k with Some v => v | None => default end.

(** Python truth value of a decoded JSON value. *)
Definition json_truthy (v : json) : bool :=
  match v with
  | JNull => false
  | JBool b => b
  | JNum n => negb (n =? 0)%Z
  | JStr s => truthy s
  | JArr xs => match xs with [] => false | _ => true end
  | JObj fs => match fs with [] => false | _ => true end
  end.

(** What the standard library contributes: the [datetime] type with its ISO
    parser and printer, and [str()] of a JSON value that is not a string. *)
Class Runtime : Type := {
  datetime : Type;
  fromisoformat : string -> option datetime;   (* [None]: ValueError *)
  isoformat : datetime -> string;
  py_repr : json -> string
}.

(** [s.replace("Z", "+00:00")] *)
Fixpoint replace_Z (s : string) : string :=
  match s with
  | "" => ""
  | String c r =>
      if Ascii.eqb c "Z" then "+00:00" ++ replace_Z r
      else String c (replace_Z r)
  end.

(** [str(v)] *)
Definition str `{Runtime} (v : json) : string :=
  match v with JStr s => s | _ => py_repr v end.

(** A JSON document kept as text ([historyJson]) is represented by the value
    it decodes to; text that does not decode is [Malformed].  [json.dumps]
    and [json.loads] are then the two directions of this representation. *)
Inductive json_text : Type :=
| Encoded (v : json)
| Malformed (raw : string).

Definition json_dumps (v : json) : json_text := Encoded v.

Definition json_loads (t : json_text) : result json :=
  match t with
  | Encoded v => Ok v
  | Malformed raw => Raise (Exn "JSONDecodeError" "Expecting value")
  end.

(** Truth value of a text: only the empty text is falsy, and the empty text
    encodes nothing. *)
Definition text_truthy (t : json_text) : bool :=
  match t with
  | Encoded _ => true
  | Malformed raw => truthy raw
  end.

Section Models.
Context `{Runtime}.

Record RequiredPart : Type := {
  part_number : json;
  part_name : json;
  quantity : json;
  is_available : json
}.

Record WorkOrder : Type := {
  wo_id : json;
  machine_id : json;
  fault_type : json;
  priority : json;
  assigned_technician : json;
  required_parts : list RequiredPart;
  estimated_duration : json;
  created_at : option datetime;
  status : json
}.

(** A document of the [ChatHistories] container, as
    [save_machine_chat_history] writes it. *)
Record ChatHistoryDoc : Type := {
  ch_id : string;
  entityId : string;
  entityType : string;
  historyJson : option json_text;
  purpose : string;
  updatedAt : string
}.

(** A container of JSON documents.  [pk_path] is the property that holds the
    partition key; a document is identified by its id within a partition. *)
Record Container : Type := {
  pk_path : string;
  docs : list item
}.

(** The database account.  [available = false] models a service that answers
    every request with an error status; a container that is [None] does not
    exist.  [ChatHistories] is partitioned by [entityId]. *)
Record Database : Type := {
  available : bool;
  WorkOrders : option Container;
  ChatHistories : option (list ChatHistoryDoc)
}.

Definition CosmosHttpResponseError (msg : string) : exn :=
  Exn "CosmosHttpResponseError" msg.

Definition CosmosResourceNotFoundError (msg : string) : exn :=
  Exn "CosmosResourceNotFoundError" msg.

(** [except exceptions.CosmosHttpResponseError]: the class itself and its
    subclass [CosmosResourceNotFoundError]. *)
Definition is_CosmosHttpResponseError (e : exn) : bool :=
  String.eqb (exc_class e) "CosmosHttpResponseError" ||
  String.eqb (exc_class e) "CosmosResourceNotFoundError".

Definition is_CosmosResourceNotFoundError (e : exn) : bool :=
  String.eqb (exc_class e) "CosmosResourceNotFoundError".

(** [try: body  except <class>: handler]; other exceptions pass through. *)
Definition try_except_class {S A} (body : M S A) (cls : exn -> bool)
    (handler : exn -> M S A) : M S A :=
  fun s => match body s with
           | (Ok a, s') => (Ok a, s')
           | (Raise e, s') => if cls e then handler e s' else (Raise e, s')
           end.

Definition json_eqb_str (v : json) (s : string) : bool :=
  match v with JStr s' => String.eqb s' s | _ => false end.

Fixpoint json_eqb (a b : json) : bool :=
  match a, b with
  | JNull, JNull => true
  | JBool x, JBool y => Bool.eqb x y
  | JNum x, JNum y => (x =? y)%Z
  | JStr x, JStr y => String.eqb x y
  | JArr xs, JArr ys =>
      (fix go (xs ys : list json) : bool :=
         match xs, ys with
         | [], [] => true
         | x :: xs', y :: ys' => json_eqb x y && go xs' ys'
         | _, _ => false
         end) xs ys
  | JObj xs, JObj ys =>
      (fix go (xs ys : list (string * json)) : bool :=
         match xs, ys with
         | [], [] => true
         | (k, x) :: xs', (k', y) :: ys' =>
             String.eqb k k' && json_eqb x y && go xs' ys'
         | _, _ => false
         end) xs ys
  | _, _ => false
  end.

(** The document [d] has id [i] and lies in partition [pk]. *)
Definition doc_at (path : string) (i : json) (pk : json) (d : item) : bool :=
  match lookup_key d "id", lookup_key d path with
  | Some i', Some pk' => json_eqb i' i && json_eqb pk' pk
  | _, _ => false
  end.

(** Remove the first document that satisfies [p]; [None] when there is
    none. *)
Fixpoint remove_first (p : item -> bool) (ds : list item) : option (list item) :=
  match ds with
  | [] => None
  | d :: ds' =>
      if p d then Some ds'
      else match remove_first p ds' with
           | Some r => Some (d :: r)
           | None => None
           end
  end.

(** Replace the first document that satisfies [p] by [body], or append
    [body] when there is none. *)
Fixpoint replace_or_append (p : item -> bool) (body : item) (ds : list item)
    : list item :=
  match ds with
  | [] => [body]
  | d :: ds' => if p d then body :: ds' else d :: replace_or_append p body ds'
  end.

(** [self.database.get_container_client("WorkOrders")] followed by a call on
    the container: fails when the service is down or the container is
    missing. *)
Definition work_orders : M Database Container :=
  fun db =>
    if negb (available db) then
      (Raise (CosmosHttpResponseError "Service Unavailable"), db)
    else match WorkOrders db with
         | None => (Raise (CosmosResourceNotFoundError "Resource Not Found"), db)
         | Some c => (Ok c, db)
         end.

Definition set_work_orders (c : Container) : M Database unit :=
  modify (fun db => {| available := available db;
                       WorkOrders := Some c;
                       ChatHistories := ChatHistories db |}).

(** [container.query_items("SELECT * FROM c WHERE c.id = @id",
    enable_cross_partition_query=True)] *)
Definition query_items_by_id (work_order_id : string) : M Database (list item) :=
  c <- work_orders ;;
  ret (List.filter (fun d => match lookup_key d "id" with
                             | Some v => json_eqb_str v work_order_id
                             | None => false
                             end) (docs c)).

(** [container.delete_item(item=.., partition_key=..)] *)
Definition delete_item (item_id : string) (partition_key : json) : M Database unit :=
  c <- work_orders ;;
  match remove_first (doc_at (pk_path c) (JStr item_id) partition_key) (docs c) with
  | None => raise (CosmosResourceNotFoundError "Resource Not Found")
  | Some ds => set_work_orders {| pk_path := pk_path c; docs := ds |}
  end.

(** [container.upsert_item(body=..)]: the body needs an id and a partition
    key value. *)
Definition upsert_item (body : item) : M Database unit :=
  c <- work_orders ;;
  match lookup_key body "id", lookup_key body (pk_path c) with
  | Some i, Some pk =>
      set_work_orders
        {| pk_path := pk_path c;
           docs := replace_or_append (doc_at (pk_path c) i pk) body (docs c) |}
  | _, _ => raise (CosmosHttpResponseError "Bad Request")
  end.

(** [_parse_datetime]: the [isinstance(dt_value, datetime)] branch is dead
    for decoded JSON. *)
Definition _parse_datetime (dt_value : json) : option datetime :=
  if negb (json_truthy dt_value) then None
  else fromisoformat (replace_Z (str dt_value)).

(** [for p in v]: what iterating a decoded JSON value yields. *)
Definition iterate (v : json) : result (list json) :=
  match v with
  | JArr xs => Ok xs
  | JObj fs => Ok (map (fun kv => JStr (fst kv)) fs)
  | JStr s => Ok (map (fun c => JStr (String c "")) (list_ascii_of_string s))
  | _ => Raise (Exn "TypeError" "object is not iterable")
  end.

(** One element of the [required_parts] comprehension. *)
Definition required_part_of (p : json) : result RequiredPart :=
  match p with
  | JObj d =>
      Ok {| part_number := get d "partNumber" (JStr "");
            part_name := get d "partName" (JStr "");
            quantity := get d "quantity" (JNum 0);
            is_available := get d "isAvailable" (JBool false) |}
  | _ => Raise (Exn "AttributeError" "object has no attribute 'get'")
  end.

Fixpoint required_parts_of (ps : list json) : result (list RequiredPart) :=
  match ps with
  | [] => Ok []
  | p :: ps' =>
      match required_part_of p with
      | Raise e => Raise e
      | Ok r => match required_parts_of ps' with
                | Raise e => Raise e
                | Ok rs => Ok (r :: rs)
                end
      end
  end.

(** The [WorkOrder(...)] constructor call of [get_work_order]. *)
Definition work_order_of_item (it : item) : result WorkOrder :=
  match iterate (get it "requiredParts" (JArr [])) with
  | Raise e => Raise e
  | Ok ps =>
      match required_parts_of ps with
      | Raise e => Raise e
      | Ok parts =>
          Ok {| wo_id := get it "id" (JStr "");
                machine_id := get it "machineId" (JStr "");
                fault_type := get it "faultType" (JStr "");
                priority := get it "priority" (JStr "");
                assigned_technician := get it "assignedTechnician" (JStr "");
                required_parts := parts;
                estimated_duration := get it "estimatedDuration" (JNum 0);
                created_at := _parse_datetime (get it "createdAt" JNull);
                status := get it "status" (JStr "Created") |}
      end
  end.

Definition get_work_order (work_order_id : string) : M Database WorkOrder :=
  try_except_class
    (items <- query_items_by_id work_order_id ;;
     match items with
     | [] => raise (Exn "Exception" ("Work order " ++ work_order_id ++ " not found"))
     | it :: _ => lift (work_order_of_item it)
     end)
    is_CosmosHttpResponseError
    (fun e => raise (Exn "Exception"
                       ("Work order " ++ work_order_id ++ " not found: " ++ exc_str e))).

Definition required_part_item (p : RequiredPart) : json :=
  JObj [("partNumber", part_number p);
        ("partName", part_name p);
        ("quantity", quantity p);
        ("isAvailable", is_available p)].

(** The [item = {...}] literal of [update_work_order_status]. *)
Definition work_order_item (work_order : WorkOrder) (new_status : string) : item :=
  [("id", wo_id work_order);
   ("machineId", machine_id work_order);
   ("faultType", fault_type work_order);
   ("priority", priority work_order);
   ("assignedTechnician", assigned_technician work_order);
   ("requiredParts", JArr (map required_part_item (required_parts work_order)));
   ("estimatedDuration", estimated_duration work_order);
   ("createdAt", match created_at work_order with
                 | Some d => JStr (isoformat d)
                 | None => JNull
                 end);
   ("status", JStr new_status)].

Definition update_work_order_status (work_order_id : string) (new_status : string)
    : M Database unit :=
  work_order <- get_work_order work_order_id ;;
  let old_status := status work_order in
  delete_item work_order_id old_status ;;;
  upsert_item (work_order_item work_order new_status).

(** *** Chat histories *)

Definition set_chat_histories (ds : list ChatHistoryDoc) : M Database unit :=
  modify (fun db => {| available := available db;
                       WorkOrders := WorkOrders db;
                       ChatHistories := Some ds |}).

(** [container.read_item(item=i, partition_key=pk)] on [ChatHistories]. *)
Definition read_chat_item (i pk : string) : M Database ChatHistoryDoc :=
  fun db =>
    if negb (available db) then
      (Raise (CosmosHttpResponseError "Service Unavailable"), db)
    else match ChatHistories db with
         | None => (Raise (CosmosResourceNotFoundError "Resource Not Found"), db)
         | Some ds =>
             match List.find (fun d => String.eqb (ch_id d) i &&
                                       String.eqb (entityId d) pk) ds with
             | Some d => (Ok d, db)
             | None => (Raise (CosmosResourceNotFoundError "Resource Not Found"), db)
             end
         end.

(** Both [except] clauses return [None]. *)
Definition get_machine_chat_history (machine_id : string)
    : M Database (option json_text) :=
  try_except
    (it <- read_chat_item machine_id machine_id ;;
     ret (historyJson it))
    (fun _ => ret None).

(** [_ensure_container("ChatHistories", "/entityId")]: [container.read()]
    validates the container, which is created when it is not found. *)
Definition _ensure_chat_histories : M Database (list ChatHistoryDoc) :=
  try_except_class
    (fun db =>
       if negb (available db) then
         (Raise (CosmosHttpResponseError "Service Unavailable"), db)
       else match ChatHistories db with
            | None => (Raise (CosmosResourceNotFoundError "Resource Not Found"), db)
            | Some ds => (Ok ds, db)
            end)
    is_CosmosResourceNotFoundError
    (fun _ => set_chat_histories [] ;;; ret []).

Fixpoint upsert_chat (d : ChatHistoryDoc) (ds : list ChatHistoryDoc)
    : list ChatHistoryDoc :=
  match ds with
  | [] => [d]
  | d' :: ds' =>
      if String.eqb (ch_id d') (ch_id d) && String.eqb (entityId d') (entityId d)
      then d :: ds'
      else d' :: upsert_chat d ds'
  end.

(** [utcnow] is the reading of [datetime.utcnow().isoformat()] at the
    call. *)
Definition save_machine_chat_history (utcnow : string) (machine_id : string)
    (history_json : json_text) : M Database unit :=
  ds <- _ensure_chat_histories ;;
  let it := {| ch_id := machine_id;
               entityId := machine_id;
               entityType := "machine";
               historyJson := Some history_json;
               purpose := "predictive_maintenance";
               updatedAt := utcnow |} in
  set_chat_histories (upsert_chat it ds).

(** The database with the documents of [WorkOrders] replaced. *)
Definition put_docs (db : Database) (path : string) (ds : list item) : Database :=
  {| available := available db;
     WorkOrders := Some {| pk_path := path; docs := ds |};
     ChatHistories := ChatHistories db |}.

(** [d] is selected by the id query. *)
Definition has_id (work_order_id : string) (d : item) : bool :=
  match lookup_key d "id" with
  | Some v => json_eqb_str v work_order_id
  | None => false
  end.

(** The work order [w] with its status replaced. *)
Definition with_status (w : WorkOrder) (s : json) : WorkOrder :=
  {| wo_id := wo_id w;
     machine_id := machine_id w;
     fault_type := fault_type w;
     priority := priority w;
     assigned_technician := assigned_technician w;
     required_parts := required_parts w;
     estimated_duration := estimated_duration w;
     created_at := created_at w;
     status := s |}.

(** The stored item for an id: the first document of the container that the
    id query selects. *)
Definition stored_item (db : Database) (work_order_id : string) : option item :=
  match WorkOrders db with
  | Some c => List.find (has_id work_order_id) (docs c)
  | None => None
  end.

(** The fields that are to keep their stored values across a change of
    status. *)
Definition kept_fields : list string :=
  ["machineId"; "faultType"; "priority"; "assignedTechnician";
   "requiredParts"; "estimatedDuration"; "createdAt"].

(** The statement that between [db] and [db'] only the status of the stored
    item changed: it is the new status, and every other field has the value
    it had. *)
Definition only_status_changed (db db' : Database)
    (work_order_id new_status : string) : Prop :=
  exists it it',
    stored_item db work_order_id = Some it /\
    stored_item db' work_order_id = Some it' /\
    lookup_key it' "status" = Some (JStr new_status) /\
    forall k, In k kept_fields -> lookup_key it' k = lookup_key it k.

(** The keys of the document that [update_work_order_status] writes, in the
    order of its literal. *)
Definition work_order_keys : list string :=
  ["id"; "machineId"; "faultType"; "priority"; "assignedTechnician";
   "requiredParts"; "estimatedDuration"; "createdAt"; "status"].

(** The fields copied as they are read, and what is read when the stored
    item lacks them. *)
Definition scalar_fields : list string :=
  ["machineId"; "faultType"; "priority"; "assignedTechnician";
   "estimatedDuration"].

Definition field_default (k : string) : json :=
  if String.eqb k "estimatedDuration" then JNum 0 else JStr "".

(** A required part written back: the four known keys of the stored part
    [d], with the defaults of [get_work_order] for those it lacks. *)
Definition four_keys_of (d : item) : json :=
  JObj [("partNumber", get d "partNumber" (JStr ""));
        ("partName", get d "partName" (JStr ""));
        ("quantity", get d "quantity" (JNum 0));
        ("isAvailable", get d "isAvailable" (JBool false))].

(** A stored part that has exactly the four known keys, in that order. *)
Definition canonical_part (p : json) : Prop :=
  exists number name qty avail,
    p = JObj [("partNumber", number); ("partName", name);
              ("quantity", qty); ("isAvailable", avail)].

End Models.

(** A runtime with a single instant, for running the model on examples. *)
Definition one_instant_runtime : Runtime :=
  {| datetime := unit;
     fromisoformat := fun s =>
       if String.eqb s "2024-03-01T08:00:00+00:00" then Some tt else None;
     isoformat := fun _ => "2024-03-01T08:00:00+00:00";
     py_repr := fun _ => "" |}.

(** A [WorkOrders] container partitioned by status, holding one order. *)
Definition db_one_order : Database :=
  {| available := true;
     WorkOrders :=
       Some {| pk_path := "status";
               docs := [ [("id", JStr "wo-2024-468");
                          ("machineId", JStr "machine-001");
                          ("faultType", JStr "bearing_wear");
                          ("priority", JStr "high");
                          ("assignedTechnician", JStr "tech-7");
                          ("requiredParts",
                           JArr [JObj [("partNumber", JStr "P-1");
                                       ("partName", JStr "Bearing");
                                       ("quantity", JNum 2);
                                       ("isAvailable", JBool true)]]);
                          ("estimatedDuration", JNum 90);
                          ("createdAt", JStr "2024-03-01T08:00:00Z");
                          ("status", JStr "Created")] ] |};
     ChatHistories := None |}.

(** A container whose order has a creation time that is not an ISO text, a
    key the work order has no field for, and a part with a fifth key. *)
Definition db_annotated_order : Database :=
  {| available := true;
     WorkOrders :=
       Some {| pk_path := "status";
               docs := [ [("id", JStr "wo-2024-468");
                          ("machineId", JStr "machine-001");
                          ("requiredParts",
                           JArr [JObj [("partNumber", JStr "P-1");
                                       ("partName", JStr "Bearing");
                                       ("quantity", JNum 2);
                                       ("isAvailable", JBool true);
                                       ("bin", JStr "A-17")]]);
                          ("createdAt", JStr "yesterday");
                          ("notes", JStr "customer is waiting");
                          ("status", JStr "Created")] ] |};
     ChatHistories := None |}.

End Cosmos.

(** ** [challenge-3/agents/maintenance_scheduler_agent.py] *)
Module Scheduler.
Import Py Cosmos.
Local Open Scope py_scope.

Section Agent.
Context `{Runtime}.

Definition chat_message (role content : string) : json :=
  JObj [("role", JStr role); ("content", JStr content)].

(** [messages.append(x)]: only a list has [append]. *)
Definition append (messages : json) (x : json) : result json :=
  match messages with
  | JArr xs => Ok (JArr (xs ++ [x]))
  | _ => Raise (Exn "AttributeError" "object has no attribute 'append'")
  end.

(** [xs[-n:]] on a list *)
Definition last_n {A} (n : nat) (xs : list A) : list A :=
  drop (length xs - n) xs.

(** [messages[-10:]] once [messages] is a list. *)
Definition keep_last_10 (messages : json) : json :=
  match messages with
  | JArr xs => JArr (last_n 10 xs)
  | other => other
  end.

(** [_save_interaction_history]; the warning printed by the handler is not
    part of the state. *)
Definition _save_interaction_history (utcnow : string) (machine_id : string)
    (user_prompt assistant_response : string) : M Database unit :=
  try_except
    (existing_json <- get_machine_chat_history machine_id ;;
     messages <- lift (match existing_json with
                       | Some t => if text_truthy t then json_loads t else Ok (JArr [])
                       | None => Ok (JArr [])
                       end) ;;
     messages <- lift (append messages (chat_message "user" user_prompt)) ;;
     messages <- lift (append messages (chat_message "assistant" assistant_response)) ;;
     let messages := keep_last_10 messages in
     save_machine_chat_history utcnow machine_id (json_dumps messages))
    (fun _ => ret tt).

(** What the store holds for a machine, read off the state directly. *)
Definition stored_history (db : Database) (machine_id : string) : option json_text :=
  match ChatHistories db with
  | None => None
  | Some ds =>
      match List.find (fun d => String.eqb (ch_id d) machine_id &&
                                String.eqb (entityId d) machine_id) ds with
      | Some d => historyJson d
      | None => None
      end
  end.

(** The persisted message list, when the stored text encodes a list. *)
Definition persisted_messages (db : Database) (machine_id : string)
    : option (list json) :=
  match stored_history db machine_id with
  | Some (Encoded (JArr xs)) => Some xs
  | _ => None
  end.

(** The messages a call starts from: none when nothing usable is stored,
    the stored list when the text encodes one; [None] when the stored text
    is anything else. *)
Definition prior_messages (db : Database) (machine_id : string)
    : option (list json) :=
  match stored_history db machine_id with
  | None => Some []
  | Some t =>
      if text_truthy t then
        match t with
        | Encoded (JArr xs) => Some xs
        | _ => None
        end
      else Some []
  end.

(** The bound on the persisted history, read on the state a call leaves
    behind: a list of at most ten messages that ends with the two new ones. *)
Definition history_bounded_after (db' : Database)
    (machine_id user_prompt assistant_response : string) : Prop :=
  exists msgs front,
    persisted_messages db' machine_id = Some msgs /\
    length msgs <= 10 /\
    msgs = (front ++ [chat_message "user" user_prompt;
                      chat_message "assistant" assistant_response])%list.

(** A store whose history text for ["machine-001"] encodes an object, not a
    list. *)
Definition db_object_history : Database :=
  {| available := true;
     WorkOrders := None;
     ChatHistories :=
       Some [ {| ch_id := "machine-001";
                 entityId := "machine-001";
                 entityType := "machine";
                 historyJson := Some (Encoded (JObj [("note", JStr "reset")]));
                 purpose := "predictive_maintenance";
                 updatedAt := "2025-01-01T00:00:00" |} ] |}.

(** A store that already holds ten messages for ["machine-001"]. *)
Definition ten_messages : list json :=
  map (fun n => chat_message "user" (String (ascii_of_nat (48 + n)) "")) (seq 0 10).

Definition db_full_history : Database :=
  {| available := true;
     WorkOrders := None;
     ChatHistories :=
       Some [ {| ch_id := "machine-001";
                 entityId := "machine-001";
                 entityType := "machine";
                 historyJson := Some (Encoded (JArr ten_messages));
                 purpose := "predictive_maintenance";
                 updatedAt := "2025-01-01T00:00:00" |} ] |}.

End Agent.
End Scheduler.

(** ** The workflow engine

    [WorkflowBuilder] and the runtime behind [workflow.run] come from the
    [agent_framework] package, whose code is not part of the repository.
    The module follows sections 3, 4.1 and 4.4 of the specification. *)
Module Framework.
Import Py.

Section Engine.
Context {Msg : Type}.

(** Modelled from the spec: the [NodeId] of section 3, an opaque string. *)
Definition NodeId : Type := string.

(** Modelled from the spec: the two kinds of node of section 3. *)
Inductive Kind : Type := Local | RemoteAgent.

(** Modelled from the spec: the [Node] of section 3, whose [invoke] never
    raises because the invoker of section 4.2 turns a failure into a
    message. *)
Record Node : Type := {
  node_id : NodeId;
  kind : Kind;
  invoke : Msg -> Msg
}.

(** Modelled from the spec: the [Edge] of section 3, with its optional
    predicate over the producer's output. *)
Record Edge : Type := {
  edge_from : NodeId;
  edge_to : NodeId;
  condition : option (Msg -> bool)
}.

(** Modelled from the spec: the [Graph] of section 3. *)
Record Graph : Type := {
  nodes : gmap NodeId Node;
  edges : list Edge;
  start : NodeId
}.

(** Modelled from the spec: the builder of section 4.1, which keeps the
    registered factories, the edges in registration order and the start
    designations. *)
Record Builder : Type := {
  factories : list (NodeId * (unit -> Node));
  added_edges : list Edge;
  starts : list NodeId
}.

(** Modelled from the spec: the builder before any call. *)
Definition new_builder : Builder :=
  {| factories := []; added_edges := []; starts := [] |}.

(** Modelled from the spec: [register(id, factory)] of section 4.1. *)
Definition register (id : NodeId) (factory : unit -> Node) (b : Builder) : Builder :=
  {| factories := factories b ++ [(id, factory)];
     added_edges := added_edges b;
     starts := starts b |}.

(** Modelled from the spec: [addEdge(fromId, toId, condition?)] of section
    4.1, which appends an edge. *)
Definition add_edge (from to : NodeId) (cond : option (Msg -> bool)) (b : Builder)
    : Builder :=
  {| factories := factories b;
     added_edges := added_edges b ++
       [ {| edge_from := from; edge_to := to; condition := cond |} ];
     starts := starts b |}.

(** Modelled from the spec: [setStart(id)] of section 4.1. *)
Definition set_start (id : NodeId) (b : Builder) : Builder :=
  {| factories := factories b;
     added_edges := added_edges b;
     starts := starts b ++ [id] |}.

(** Modelled from the spec: an id refers to an existing node when a factory
    was registered under it. *)
Definition is_registered (b : Builder) (id : NodeId) : bool :=
  existsb (String.eqb id) (map fst (factories b)).

(** Modelled from the spec: the ids that edges and start designations refer
    to, and those among them that [build] lists as missing. *)
Definition referenced (b : Builder) : list NodeId :=
  flat_map (fun e => [edge_from e; edge_to e]) (added_edges b) ++ starts b.

Definition missing_ids (b : Builder) : list NodeId :=
  List.filter (fun id => negb (is_registered b id)) (referenced b).

(** Modelled from the spec: the error of section 7 for a dangling edge
    reference or a missing or duplicate start node. *)
Definition GraphConstructionError (msg : string) : exn :=
  Exn "GraphConstructionError" msg.

(** Modelled from the spec: [build()] of section 4.1, which validates
    referential integrity and reports missing node ids, a duplicate start or
    the absence of a start; it calls the factories and no [invoke]. *)
Definition build (b : Builder) : result Graph :=
  match missing_ids b with
  | _ :: _ =>
      Raise (GraphConstructionError
               ("missing node ids: " ++ String.concat ", " (missing_ids b)))
  | [] =>
      match starts b with
      | [] => Raise (GraphConstructionError "no start node")
      | [s] =>
          Ok {| nodes := list_to_map (map (fun f => (fst f, snd f tt)) (factories b));
                edges := added_edges b;
                start := s |}
      | _ => Raise (GraphConstructionError "duplicate start node")
      end
  end.

(** Modelled from the spec: step 3 of section 4.4, an edge with no
    condition is always satisfied. *)
Definition satisfied (e : Edge) (result : Msg) : bool :=
  match condition e with
  | None => true
  | Some c => c result
  end.

(** Modelled from the spec: the outgoing edges of a node, in registration
    order. *)
Definition outgoing (g : Graph) (n : NodeId) : list Edge :=
  List.filter (fun e => String.eqb (edge_from e) n) (edges g).

(** Modelled from the spec: the work-queue algorithm of section 4.4.  Each
    dequeued pair is invoked, its result recorded, and the targets of its
    satisfied edges enqueued in registration order.  [None] is a run that
    needs more than [fuel] invocations (or meets an unknown node, which
    [build] excludes). *)
Fixpoint run_queue (fuel : nat) (g : Graph) (pending outputs : list (NodeId * Msg))
    : option (list (NodeId * Msg)) :=
  match fuel with
  | 0 => None
  | S fuel' =>
      match pending with
      | [] => Some outputs
      | (n, message) :: rest =>
          match nodes g !! n with
          | None => None
          | Some node =>
              let result := invoke node message in
              let next :=
                map (fun e => (edge_to e, result))
                    (List.filter (fun e => satisfied e result) (outgoing g n)) in
              run_queue fuel' g (rest ++ next) (outputs ++ [(n, result)])
          end
      end
  end.

(** Modelled from the spec: steps 1 to 3 of section 4.4 for one pending
    entry on its own, the output it records and the entries it schedules. *)
Definition invoke_entry (g : Graph) (p : NodeId * Msg)
    : option ((NodeId * Msg) * list (NodeId * Msg)) :=
  match nodes g !! fst p with
  | None => None
  | Some node =>
      let result := invoke node (snd p) in
      Some ((fst p, result),
            map (fun e => (edge_to e, result))
                (List.filter (fun e => satisfied e result) (outgoing g (fst p))))
  end.

(** Modelled from the spec: the same steps for a whole level of pending
    entries, in queue order, with their outputs and the entries of the next
    level. *)
Fixpoint invoke_level (g : Graph) (level : list (NodeId * Msg))
    : option (list (NodeId * Msg) * list (NodeId * Msg)) :=
  match level with
  | [] => Some ([], [])
  | p :: ps =>
      match invoke_entry g p, invoke_level g ps with
      | Some (o, kids), Some (os, kids') => Some (o :: os, (kids ++ kids')%list)
      | _, _ => None
      end
  end.

(** Modelled from the spec: a run, seeded with the start node and the
    initial message; the outputs are those of all invocations, in the order
    of invocation (section 4.4). *)
Definition run (fuel : nat) (g : Graph) (initial : Msg)
    : option (list (NodeId * Msg)) :=
  run_queue fuel g [(start g, initial)] [].

(** Modelled from the spec: step 4 of section 4.4, an output none of whose
    outgoing edges is satisfied is terminal. *)
Definition is_terminal (g : Graph) (o : NodeId * Msg) : bool :=
  forallb (fun e => negb (satisfied e (snd o))) (outgoing g (fst o)).

(** Modelled from the spec: the terminal outputs, in the order of
    invocation (section 4.4). *)
Definition terminal_outputs (g : Graph) (outs : list (NodeId * Msg))
    : list (NodeId * Msg) :=
  List.filter (is_terminal g) outs.

(** Modelled from the spec: the position in registration order of the first
    edge that leads to [n]; the start node of a tree has none. *)
Fixpoint registration_rank (es : list Edge) (n : NodeId) : option nat :=
  match es with
  | [] => None
  | e :: es' =>
      if String.eqb (edge_to e) n then Some 0
      else option_map S (registration_rank es' n)
  end.

Definition rank_eqb (a b : option nat) : bool :=
  match a, b with
  | None, None => true
  | Some x, Some y => Nat.eqb x y
  | _, _ => false
  end.

(** Modelled from the spec: "in edge-registration order" of section 2, read
    as the outputs arranged by the registration position of the edge that
    leads to their node, a node without inbound edge first. *)
Definition in_edge_registration_order (g : Graph) (outs : list (NodeId * Msg))
    : list (NodeId * Msg) :=
  flat_map
    (fun r => List.filter
                (fun o => rank_eqb (registration_rank (edges g) (fst o)) r) outs)
    (None :: map Some (seq 0 (length (edges g)))).

(** Modelled from the spec: the two orders that sections 2 and 4.4 state
    for the terminal outputs of a run agree. *)
Definition orders_coincide (fuel : nat) (g : Graph) (initial : Msg) : Prop :=
  forall outs, run fuel g initial = Some outs ->
    terminal_outputs g outs = in_edge_registration_order g (terminal_outputs g outs).

End Engine.

(** A graph over text messages whose edges are registered against the
    direction of the run: B->D first, then A->B and A->C, with A the start.
    Each node appends its name to the text. *)
Definition tag (name : string) : Node :=
  {| node_id := name; kind := Local; invoke := fun m : string => m ++ name |}.

Definition crossed_builder : @Builder string :=
  add_edge "A" "C" None
    (add_edge "A" "B" None
       (add_edge "B" "D" None
          (set_start "A"
             (register "D" (fun _ => tag "D")
                (register "C" (fun _ => tag "C")
                   (register "B" (fun _ => tag "B")
                      (register "A" (fun _ => tag "A") new_builder))))))).

(** A builder with an edge to a node that was never registered. *)
Definition dangling_builder : @Builder string :=
  add_edge "A" "Z" None
    (set_start "A" (register "A" (fun _ => tag "A") new_builder)).

End Framework.

(** ** [challenge-4/agent-workflow/app/agents.py] *)
Module Agents.
Import Py.
Local Open Scope py_scope.

(** *** The regular expression of [extract_work_order_id]

    The fragment of [re] that the pattern needs: a sequence of items, each a
    character class matched once or, greedily, one or more times. *)
Inductive re_item : Type :=
| One (cls : ascii -> bool)
| Many1 (cls : ascii -> bool).

(** Match [items] at the start of [s]; the result is the matched text.  A
    repetition takes as much as it can and gives back one character at a
    time while the rest of the pattern fails. *)
Fixpoint match_items (items : list re_item) (s : string) : option string :=
  match items with
  | [] => Some ""
  | One cls :: items' =>
      match s with
      | String c r =>
          if cls c then
            match match_items items' r with
            | Some m => Some (String c m)
            | None => None
            end
          else None
      | "" => None
      end
  | Many1 cls :: items' =>
      (fix many (s : string) : option string :=
         match s with
         | String c r =>
             if cls c then
               match many r with
               | Some m => Some (String c m)
               | None =>
                   match match_items items' r with
                   | Some m => Some (String c m)
                   | None => None
                   end
               end
             else None
         | "" => None
         end) s
  end.

(** [re.search]: the match at the leftmost position that has one. *)
Fixpoint re_search (items : list re_item) (s : string) : option string :=
  match match_items items s with
  | Some m => Some m
  | None =>
      match s with
      | "" => None
      | String _ r => re_search items r
      end
  end.

(** A literal under [re.IGNORECASE]. *)
Definition lit_i (x : ascii) (c : ascii) : bool :=
  Ascii.eqb (lower_char c) (lower_char x).

(** [\d] *)
Definition digit (c : ascii) : bool :=
  (48 <=? nat_of_ascii c)%nat && (nat_of_ascii c <=? 57)%nat.

(** [[a-f0-9]] under [re.IGNORECASE]. *)
Definition hex_i (c : ascii) : bool :=
  let l := lower_char c in
  digit l || ((97 <=? nat_of_ascii l)%nat && (nat_of_ascii l <=? 102)%nat).

(** [r'wo-\d{4}-[a-f0-9]+'] with [re.IGNORECASE] *)
Definition work_order_pattern : list re_item :=
  [One (lit_i "w"); One (lit_i "o"); One (lit_i "-");
   One digit; One digit; One digit; One digit;
   One (lit_i "-"); Many1 hex_i].

Definition extract_work_order_id (text : string) : option string :=
  re_search work_order_pattern text.

(** The shape the pattern describes, read off the docstring: [wo-], four
    digits, [-], and at least one hexadecimal digit, in either case. *)
Fixpoint all_chars (cls : ascii -> bool) (s : string) : bool :=
  match s with
  | "" => true
  | String c r => cls c && all_chars cls r
  end.

(** The longest prefix of [s] made of characters of the class, and what it
    means for the rest to begin outside the class. *)
Fixpoint span_of (cls : ascii -> bool) (s : string) : string :=
  match s with
  | "" => ""
  | String c r => if cls c then String c (span_of cls r) else ""
  end.

Definition stops (cls : ascii -> bool) (rest : string) : Prop :=
  match rest with
  | "" => True
  | String c _ => cls c = false
  end.

Definition is_work_order_id (m : string) : bool :=
  match m with
  | String w (String o (String h1 (String d1 (String d2 (String d3
      (String d4 (String h2 (String x xs)))))))) =>
      lit_i "w" w && lit_i "o" o && lit_i "-" h1 &&
      digit d1 && digit d2 && digit d3 && digit d4 &&
      lit_i "-" h2 && all_chars hex_i (String x xs)
  | _ => false
  end.

(** The work order id the executors go on with: the parsed id, or the
    default when the text is empty or holds none. *)
Definition resolve_work_order_id (input_text : string) : string :=
  let work_order_id :=
    if truthy input_text then extract_work_order_id input_text else None in
  if truthy_opt work_order_id then default "" work_order_id
  else "wo-2024-468".

(** *** A2A messages *)

(** [Part(root=TextPart | FilePart | DataPart)]; only a [TextPart] has the
    attribute [text]. *)
Inductive PartRoot : Type :=
| TextPart (text : string)
| FilePart (file : string)
| DataPart (data : string).

Record Part : Type := { root : PartRoot }.

Record Message : Type := {
  messageId : string;
  role : string;
  parts : list Part
}.

(** The [for p in reversed(message.parts)] loop: the text of the first part
    in the given order that has one. *)
Fixpoint first_text (ps : list Part) : option string :=
  match ps with
  | [] => None
  | p :: ps' =>
      match root p with
      | TextPart t => Some t
      | _ => first_text ps'
      end
  end.

(** Lines 85-94 and 203-210: [input_text] starts empty and is set by the
    loop. *)
Definition extract_input_text (message : option Message) : string :=
  match message with
  | Some m =>
      match parts m with
      | [] => ""
      | ps => default "" (first_text (rev ps))
      end
  | None => ""
  end.

(** *** The A2A executors *)

Section Executors.
Context `{Cosmos.Runtime}.

(** What the executors call and do not define: the Cosmos service of
    challenge-3, the two agents (whose answers come from a hosted model) and
    [uuid.uuid4].  Every call acts on a world [W] and may raise.  The two
    reports are the f-strings that render a schedule and an order; they can
    raise on a value the format does not accept. *)
Class Collaborators (W : Type) : Type := {
  History : Type;
  Windows : Type;
  Schedule : Type;
  Inventory : Type;
  Supplier : Type;
  Order : Type;
  uuid4 : nat -> string;
  CosmosDbService : string -> string -> string -> M W unit;
  get_work_order : string -> M W Cosmos.WorkOrder;
  get_maintenance_history : Cosmos.json -> M W History;
  get_available_maintenance_windows : nat -> M W Windows;
  predict_schedule :
    string -> string -> Cosmos.WorkOrder -> History -> Windows -> M W Schedule;
  schedule_report : Schedule -> result string;
  save_maintenance_schedule : Schedule -> M W unit;
  get_inventory_items : list Cosmos.json -> M W Inventory;
  get_suppliers_for_parts : list Cosmos.json -> M W (list Supplier);
  generate_order :
    string -> string -> Cosmos.WorkOrder -> Inventory -> list Supplier -> M W Order;
  order_report : Order -> result string;
  save_parts_order : Order -> M W unit;
  update_work_order_status : Cosmos.json -> string -> M W unit
}.

Context {W : Type} `{Collaborators W}.

(** The state an invocation acts on: the collaborators' world, the event
    queue of the request, and how many ids [uuid.uuid4] has handed out. *)
Record ExecState : Type := {
  world : W;
  event_queue : list Message;
  uuids_drawn : nat
}.

(** A collaborator call inside an executor. *)
Definition call {A} (m : M W A) : M ExecState A :=
  fun st =>
    let (r, w') := m (world st) in
    (r, {| world := w'; event_queue := event_queue st;
           uuids_drawn := uuids_drawn st |}).

(** [str(uuid.uuid4())] *)
Definition new_uuid : M ExecState string :=
  fun st =>
    (Ok (uuid4 (uuids_drawn st)),
     {| world := world st; event_queue := event_queue st;
        uuids_drawn := S (uuids_drawn st) |}).

(** [await event_queue.enqueue_event(message)] *)
Definition enqueue_event (message : Message) : M ExecState unit :=
  modify (fun st => {| world := world st;
                       event_queue := event_queue st ++ [message];
                       uuids_drawn := uuids_drawn st |}).

(** [os.getenv(name)] and [os.getenv(name, default)] *)
Definition getenv (environ : gmap string string) (name : string) : option string :=
  environ !! name.

Definition getenv_default (environ : gmap string string) (name fallback : string)
    : string :=
  default fallback (environ !! name).

(** Lines 142-149 and 266-273: the response message. *)
Definition response_message (message_id response_text : string) : Message :=
  {| messageId := message_id;
     role := "agent";
     parts := [ {| root := TextPart response_text |} ] |}.

Definition send_response (response_text : string) : M ExecState unit :=
  message_id <- new_uuid ;;
  enqueue_event (response_message message_id response_text).

(** **** [MaintenanceSchedulerExecutor] *)

Definition maintenance_error_text (e : exn) : string :=
  "Error processing maintenance schedule request: " ++ exc_str e.

(** The body of the [try] statement, lines 82-136; its value is
    [response_text]. *)
Definition maintenance_try (environ : gmap string string) (message : option Message)
    : M ExecState string :=
  let input_text := extract_input_text message in
  let cosmos_endpoint := getenv environ "COSMOS_ENDPOINT" in
  let cosmos_key := getenv environ "COSMOS_KEY" in
  let database_name :=
    or_else (getenv environ "COSMOS_DATABASE_NAME") (getenv environ "COSMOS_DATABASE") in
  let project_endpoint :=
    or_else (getenv environ "AI_FOUNDRY_PROJECT_ENDPOINT")
            (getenv environ "AZURE_AI_PROJECT_ENDPOINT") in
  let deployment_name := getenv_default environ "MODEL_DEPLOYMENT_NAME" "gpt-4o" in
  if negb (all [truthy_opt cosmos_endpoint; truthy_opt cosmos_key;
                truthy_opt database_name; truthy_opt project_endpoint])
  then ret "Error: Missing required environment variables for MaintenanceSchedulerAgent"
  else
    call (CosmosDbService (default "" cosmos_endpoint) (default "" cosmos_key)
            (default "" database_name)) ;;;
    let work_order_id := resolve_work_order_id input_text in
    work_order <- call (get_work_order work_order_id) ;;
    history <- call (get_maintenance_history (Cosmos.machine_id work_order)) ;;
    windows <- call (get_available_maintenance_windows 14) ;;
    schedule <- call (predict_schedule (default "" project_endpoint) deployment_name
                        work_order history windows) ;;
    response_text <- lift (schedule_report schedule) ;;
    call (save_maintenance_schedule schedule) ;;;
    ret response_text.

Definition maintenance_execute (environ : gmap string string)
    (message : option Message) : M ExecState unit :=
  response_text <- try_except (maintenance_try environ message)
                     (fun e => ret (maintenance_error_text e)) ;;
  send_response response_text.

(** **** [PartsOrderingExecutor] *)

Definition parts_error_text (e : exn) : string :=
  "Error processing parts order request: " ++ exc_str e.

Definition parts_try (environ : gmap string string) (message : option Message)
    : M ExecState string :=
  let input_text := extract_input_text message in
  let cosmos_endpoint := getenv environ "COSMOS_ENDPOINT" in
  let cosmos_key := getenv environ "COSMOS_KEY" in
  let database_name :=
    or_else (getenv environ "COSMOS_DATABASE_NAME") (getenv environ "COSMOS_DATABASE") in
  let project_endpoint :=
    or_else (getenv environ "AI_FOUNDRY_PROJECT_ENDPOINT")
            (getenv environ "AZURE_AI_PROJECT_ENDPOINT") in
  let deployment_name := getenv_default environ "MODEL_DEPLOYMENT_NAME" "gpt-4o" in
  if negb (all [truthy_opt cosmos_endpoint; truthy_opt cosmos_key;
                truthy_opt database_name; truthy_opt project_endpoint])
  then ret "Error: Missing required environment variables for PartsOrderingAgent"
  else
    call (CosmosDbService (default "" cosmos_endpoint) (default "" cosmos_key)
            (default "" database_name)) ;;;
    let work_order_id := resolve_work_order_id input_text in
    work_order <- call (get_work_order work_order_id) ;;
    let part_numbers := map Cosmos.part_number (Cosmos.required_parts work_order) in
    inventory <- call (get_inventory_items part_numbers) ;;
    let parts_needing_order :=
      List.filter (fun p => negb (Cosmos.json_truthy (Cosmos.is_available p)))
        (Cosmos.required_parts work_order) in
    match parts_needing_order with
    | [] =>
        call (update_work_order_status (Cosmos.wo_id work_order) "Ready") ;;;
        ret "All required parts are available in stock. No parts order needed."
    | _ =>
        let needed_part_numbers := map Cosmos.part_number parts_needing_order in
        suppliers <- call (get_suppliers_for_parts needed_part_numbers) ;;
        match suppliers with
        | [] => ret "Error: No suppliers found for required parts."
        | _ =>
            order <- call (generate_order (default "" project_endpoint) deployment_name
                             work_order inventory suppliers) ;;
            response_text <- lift (order_report order) ;;
            call (save_parts_order order) ;;;
            call (update_work_order_status (Cosmos.wo_id work_order) "PartsOrdered") ;;;
            ret response_text
        end
    end.

Definition parts_execute (environ : gmap string string)
    (message : option Message) : M ExecState unit :=
  response_text <- try_except (parts_try environ message)
                     (fun e => ret (parts_error_text e)) ;;
  send_response response_text.

(** The two executors side by side. *)
Inductive executor : Type :=
| MaintenanceSchedulerExecutor
| PartsOrderingExecutor.

Definition try_body (ex : executor) : gmap string string -> option Message ->
    M ExecState string :=
  match ex with
  | MaintenanceSchedulerExecutor => maintenance_try
  | PartsOrderingExecutor => parts_try
  end.

Definition error_text (ex : executor) : exn -> string :=
  match ex with
  | MaintenanceSchedulerExecutor => maintenance_error_text
  | PartsOrderingExecutor => parts_error_text
  end.

Definition execute (ex : executor) : gmap string string -> option Message ->
    M ExecState unit :=
  match ex with
  | MaintenanceSchedulerExecutor => maintenance_execute
  | PartsOrderingExecutor => parts_execute
  end.

(** A computation that leaves the event queue and the uuid count alone. *)
Definition keeps_queue {A} (m : M ExecState A) : Prop :=
  forall st r st1, m st = (r, st1) ->
    event_queue st1 = event_queue st /\ uuids_drawn st1 = uuids_drawn st.

End Executors.

(** A request whose only part is the text of the default work order id. *)
Definition default_request : Message :=
  {| messageId := "default";
     role := "user";
     parts := [ {| root := TextPart "wo-2024-468" |} ] |}.

(** A deployment to run the executors on: the one-instant runtime, the
    store model of [Cosmos] as the world, and agents that either answer with
    a fixed schedule or order, or fail with a timeout. *)
Definition example_collaborators (agent_fails : bool)
    : @Collaborators Cosmos.one_instant_runtime Cosmos.Database :=
  {| History := unit;
     Windows := unit;
     Schedule := string;
     Inventory := unit;
     Supplier := string;
     Order := string;
     uuid4 := fun n => String (ascii_of_nat (97 + n)) "-uuid";
     CosmosDbService := fun _ _ _ => ret tt;
     get_work_order := @Cosmos.get_work_order Cosmos.one_instant_runtime;
     get_maintenance_history := fun _ => ret tt;
     get_available_maintenance_windows := fun _ => ret tt;
     predict_schedule := fun _ _ _ _ _ =>
       if agent_fails
       then raise (Exn "TimeoutError" "model call timed out, critical section left")
       else ret "sched-1";
     schedule_report := fun sch =>
       Ok ("Maintenance Schedule Created:" ++ sch);
     save_maintenance_schedule := fun _ => ret tt;
     get_inventory_items := fun _ => ret tt;
     get_suppliers_for_parts := fun _ => ret ["supplier-1"];
     generate_order := fun _ _ _ _ _ =>
       if agent_fails
       then raise (Exn "TimeoutError" "model call timed out, critical section left")
       else ret "order-1";
     order_report := fun o => Ok ("Parts Order Generated:" ++ o);
     save_parts_order := fun _ => ret tt;
     update_work_order_status := fun i st =>
       @Cosmos.update_work_order_status Cosmos.one_instant_runtime
         (@Cosmos.str Cosmos.one_instant_runtime i) st |}.

Definition example_environ : gmap string string :=
  list_to_map [("COSMOS_ENDPOINT", "https://cosmos.example");
               ("COSMOS_KEY", "key");
               ("COSMOS_DATABASE", "factory");
               ("AZURE_AI_PROJECT_ENDPOINT", "https://foundry.example")].

(** A request with two text parts and a file part in between. *)
Definition example_request : Message :=
  {| messageId := "m-1";
     role := "user";
     parts := [ {| root := TextPart "user: check machine-001" |};
                {| root := FilePart "report.pdf" |};
                {| root := TextPart "planner: created wo-2024-468 for machine-001" |};
                {| root := DataPart "{}" |} ] |}.

(** A store whose only order needs a part that is not in stock. *)
Definition db_missing_part : Cosmos.Database :=
  {| Cosmos.available := true;
     Cosmos.WorkOrders :=
       Some {| Cosmos.pk_path := "status";
               Cosmos.docs :=
                 [ [("id", Cosmos.JStr "wo-2024-468");
                    ("machineId", Cosmos.JStr "machine-001");
                    ("requiredParts",
                     Cosmos.JArr [Cosmos.JObj [("partNumber", Cosmos.JStr "P-1");
                                               ("isAvailable", Cosmos.JBool false)]]);
                    ("status", Cosmos.JStr "Created")] ] |};
     Cosmos.ChatHistories := None |}.

Definition example_state (db : Cosmos.Database)
    : @ExecState Cosmos.Database :=
  {| world := db; event_queue := []; uuids_drawn := 0 |}.

(** *** Messages on the workflow edges *)

(** [msg.params]: a [dict] or an object that may have a [text]. *)
Inductive params_value : Type :=
| ParamsDict (d : list (string * string)) (repr : string)
| ParamsObject (text : option string) (repr : string).

(** The attributes [extract_text_from_message] probes.  [Some None] for
    [agent_run_response] and [response] is an object without [text]. *)
Record msg_object : Type := {
  agent_run_response : option (option string);
  msg_text : option string;
  response : option (option string);
  params : option params_value;
  msg_repr : string
}.

(** What travels along the edges: the run payload (a [dict]), a prompt (a
    [str]) or a response object. *)
Inductive WorkflowMsg : Type :=
| Payload (data : list (string * string)) (repr : string)
| Text (s : string)
| Object (o : msg_object).

Fixpoint dict_get (d : list (string * string)) (k : string) : option string :=
  match d with
  | [] => None
  | (k', v) :: d' => if String.eqb k' k then Some v else dict_get d' k
  end.

Definition params_truthy (p : params_value) : bool :=
  match p with
  | ParamsDict d _ => match d with [] => false | _ => true end
  | ParamsObject _ _ => true
  end.

Definition extract_text_from_message (msg : WorkflowMsg) : string :=
  match msg with
  | Payload _ repr => repr
  | Text s => s
  | Object o =>
      match agent_run_response o with
      | Some (Some t) => t
      | _ =>
          if truthy_opt (msg_text o) then default "" (msg_text o)
          else if match response o with
                  | Some r => truthy_opt r
                  | None => false
                  end
               then match response o with
                    | Some (Some t) => t
                    | _ => ""
                    end
          else match params o with
               | Some p =>
                   if params_truthy p then
                     match p with
                     | ParamsDict d repr =>
                         if truthy_opt (dict_get d "text")
                         then default "" (dict_get d "text") else repr
                     | ParamsObject (Some t) _ => t
                     | ParamsObject None repr => repr
                     end
                   else msg_repr o
               | None => msg_repr o
               end
      end
  end.

Definition keywords : list string := ["critical"; "warning"; "high"; "alert"].

Definition diagnosis_condition (msg : WorkflowMsg) : bool :=
  let text := extract_text_from_message msg in
  let should_run := any (fun keyword => str_in keyword (lower text)) keywords in
  should_run.

(** [keyword] occurs in [text] when case is ignored: a stretch of [text]
    equals it up to case. *)
Definition occurs_ignoring_case (keyword text : string) : Prop :=
  exists pre mid suf,
    text = pre ++ mid ++ suf /\ lower mid = lower keyword.

(** *** Remote agent discovery *)

Record AgentCard : Type := {
  card_name : string;
  card_description : option string;
  card_url : string
}.

(** An [A2AAgent] as the keyword arguments of its constructor leave it. *)
Record A2AAgent : Type := {
  agent_name : option string;
  agent_description : option string;
  agent_card : option AgentCard;
  agent_url : string
}.

(** The installed [agent_framework_a2a] package: it may or may not ship
    [A2ACardResolver], whose [get_agent_card] takes the base url and the
    relative card path and fetches the card over HTTP, and its [A2AAgent]
    constructor accepts a set of keyword arguments or raises ([TypeError]
    for a shape it does not know). *)
Record A2APackage : Type := {
  A2ACardResolver : option (string -> string -> result AgentCard);
  A2AAgent_new : A2AAgent -> result unit
}.

(** What a run of the workflow function does that can be seen from outside:
    a request for an agent card, the construction of the graph, the
    invocation of a node. *)
Inductive Event : Type :=
| CardRequested (base_url relative_card_path : string)
| GraphBuilt
| NodeInvoked (id : string).

Definition emit (e : Event) : M (list Event) unit :=
  modify (fun log : list Event => (log ++ [e])%list).

Definition emit_all (es : list Event) : M (list Event) unit :=
  modify (fun log : list Event => (log ++ es)%list).

Definition well_known_card_path : string := ".well-known/agent-card.json".

Definition is_TypeError (e : exn) : bool := String.eqb (exc_class e) "TypeError".

(** The [for kwargs in (...)] loop of the fallback: the first shape the
    constructor accepts; a [TypeError] moves on to the next, any other
    exception leaves the function. *)
Fixpoint first_accepted (a2a : A2APackage) (shapes : list A2AAgent)
    : result (option A2AAgent) :=
  match shapes with
  | [] => Ok None
  | kwargs :: shapes' =>
      match A2AAgent_new a2a kwargs with
      | Ok _ => Ok (Some kwargs)
      | Raise e => if is_TypeError e then first_accepted a2a shapes' else Raise e
      end
  end.

(** [imported] is the outcome of the two imports at the top of the
    function. *)
Definition get_a2a_agent (imported : result A2APackage) (server_url : string)
    : M (list Event) A2AAgent :=
  match imported with
  | Raise e =>
      if String.eqb (exc_class e) "ModuleNotFoundError" then
        raise (Exn "RuntimeError"
                 "A2A support requires the 'agent-framework-a2a' package. If you're using uv, run `uv sync` in this directory.")
      else raise e
  | Ok a2a =>
      match A2ACardResolver a2a with
      | Some get_agent_card =>
          emit (CardRequested server_url well_known_card_path) ;;;
          agent_card <- lift (get_agent_card server_url well_known_card_path) ;;
          let kwargs :=
            {| agent_name := Some (card_name agent_card);
               agent_description := Some (default "" (card_description agent_card));
               agent_card := Some agent_card;
               agent_url := server_url |} in
          lift (A2AAgent_new a2a kwargs) ;;;
          ret kwargs
      | None =>
          found <- lift (first_accepted a2a
                     [ {| agent_name := None; agent_description := None;
                          agent_card := None; agent_url := server_url |};
                       {| agent_name := Some "RepairPlannerAgent";
                          agent_description := Some "A2A agent";
                          agent_card := None; agent_url := server_url |} ]) ;;
          match found with
          | Some agent => ret agent
          | None =>
              raise (Exn "RuntimeError"
                       "Unable to construct A2A agent from 'agent-framework-a2a'. Please ensure the package version matches the workflow sample.")
          end
      end
  end.

(** The statement that whenever an agent comes back, its card was requested at
    the well-known path and gave the agent its name. *)
Definition discovery_resolves_card (imported : result A2APackage)
    (server_url : string) : Prop :=
  match get_a2a_agent imported server_url [] with
  | (Ok agent, log) =>
      In (CardRequested server_url well_known_card_path) log /\
      exists card, agent_card agent = Some card /\
                   agent_name agent = Some (card_name card)
  | (Raise _, _) => True
  end.

(** A package without card resolver whose constructor takes a bare url. *)
Definition package_without_resolver : A2APackage :=
  {| A2ACardResolver := None;
     A2AAgent_new := fun _ => Ok tt |}.

(** A package with a resolver that serves one card, at one url. *)
Definition planner_card : AgentCard :=
  {| card_name := "RepairPlannerAgent";
     card_description := Some "Plans repairs";
     card_url := "https://planner.example/" |}.

Definition package_with_resolver : A2APackage :=
  {| A2ACardResolver :=
       Some (fun base path =>
               if String.eqb base "https://planner.example" &&
                  String.eqb path ".well-known/agent-card.json"
               then Ok planner_card
               else Raise (Exn "A2AClientHTTPError" "404 Not Found"));
     A2AAgent_new := fun _ => Ok tt |}.

(** *** The workflow *)

Definition _require_env (environ : gmap string string) (name : string)
    : result string :=
  if truthy_opt (getenv environ name) then Ok (default "" (getenv environ name))
  else Raise (Exn "RuntimeError"
                ("Missing required environment variable: " ++ name ++
                 ". This workflow expects Anomaly/Fault agents to be hosted in Foundry Agent Service and referenced by ID.")).

(** [f'{x}'] of a value that may be [None]. *)
Definition show (o : option string) : string := default "None" o.

(** [RequestProcessor.process]; a message that is not the payload has no
    [get], and the failure becomes a message as section 4.2 of the
    specification prescribes for an invoker. *)
Definition request_processor (data : WorkflowMsg) : WorkflowMsg :=
  match data with
  | Payload d _ =>
      let machine_id := dict_get d "machine_id" in
      let telemetry := dict_get d "telemetry" in
      Text ("Classify the following anomalies for machine " ++ show machine_id ++
            ": " ++ show telemetry)
  | _ => Text "Error processing request: object has no attribute 'get'"
  end.

(** Where a run happens: the environment variables, the outcome of importing
    the A2A package, and what the hosted agents and the remote agent answer
    (an invoker turns their failures into messages). *)
Record Deployment : Type := {
  environ : gmap string string;
  a2a_import : result A2APackage;
  anomaly_agent : WorkflowMsg -> WorkflowMsg;
  fault_agent : WorkflowMsg -> WorkflowMsg;
  remote_agent : A2AAgent -> WorkflowMsg -> WorkflowMsg
}.

Definition agent_node (name : string) (k : Framework.Kind)
    (f : WorkflowMsg -> WorkflowMsg) : unit -> Framework.Node :=
  fun _ => {| Framework.node_id := name; Framework.kind := k; Framework.invoke := f |}.

(** Lines 428-445: the builder as the function configures it;
    [repair_planner_agent] is there when [REPAIR_PLANNER_AGENT_URL] is
    set. *)
Definition factory_builder (d : Deployment) (repair_planner_agent : option A2AAgent)
    : @Framework.Builder WorkflowMsg :=
  let builder := Framework.new_builder in
  let builder :=
    Framework.register "RequestProcessor"
      (agent_node "init" Framework.Local request_processor) builder in
  let builder :=
    Framework.register "AnomalyAgent"
      (agent_node "AnomalyClassificationAgent" Framework.RemoteAgent (anomaly_agent d))
      builder in
  let builder :=
    Framework.register "FaultAgent"
      (agent_node "FaultDiagnosisAgent" Framework.RemoteAgent (fault_agent d))
      builder in
  let builder :=
    match repair_planner_agent with
    | Some agent =>
        Framework.register "RepairPlannerAgent"
          (agent_node "RepairPlannerAgent" Framework.RemoteAgent (remote_agent d agent))
          builder
    | None => builder
    end in
  let builder := Framework.set_start "RequestProcessor" builder in
  let builder := Framework.add_edge "RequestProcessor" "AnomalyAgent" None builder in
  let builder :=
    Framework.add_edge "AnomalyAgent" "FaultAgent" (Some diagnosis_condition) builder in
  match repair_planner_agent with
  | Some _ => Framework.add_edge "FaultAgent" "RepairPlannerAgent" None builder
  | None => builder
  end.

(** The graph that [build] makes of this builder. *)
Definition factory_graph (d : Deployment) (repair_planner_agent : option A2AAgent)
    : @Framework.Graph WorkflowMsg :=
  let b := factory_builder d repair_planner_agent in
  {| Framework.nodes :=
       list_to_map (map (fun f => (fst f, snd f tt)) (Framework.factories b));
     Framework.edges := Framework.added_edges b;
     Framework.start := "RequestProcessor" |}.

(** The outputs of a run of that graph: the prompt, the anomaly answer, and
    when the condition holds the diagnosis and, with a repair planner, its
    answer. *)
Definition factory_outputs (d : Deployment) (repair_planner_agent : option A2AAgent)
    (initial : WorkflowMsg) : list (string * WorkflowMsg) :=
  let o1 := request_processor initial in
  let o2 := anomaly_agent d o1 in
  let o3 := fault_agent d o2 in
  [("RequestProcessor", o1); ("AnomalyAgent", o2)] ++
  (if diagnosis_condition o2 then
     ("FaultAgent", o3) ::
     match repair_planner_agent with
     | Some agent => [("RepairPlannerAgent", remote_agent d agent o3)]
     | None => []
     end
   else []).

(** The [dict] handed to [workflow.run]; [telemetry] is the text of the
    telemetry list. *)
Definition payload (machine_id telemetry : string) : WorkflowMsg :=
  Payload [("machine_id", machine_id); ("telemetry", telemetry)]
          ("{'machine_id': '" ++ machine_id ++ "', 'telemetry': " ++ telemetry ++ "}").

(** [run_factory_workflow]; [fuel] bounds the invocations of the run. *)
Definition run_factory_workflow (d : Deployment) (fuel : nat)
    (machine_id telemetry : string)
    : M (list Event) (list (string * WorkflowMsg)) :=
  project_endpoint <- lift (_require_env (environ d) "AZURE_AI_PROJECT_ENDPOINT") ;;
  let repair_planner_url := getenv (environ d) "REPAIR_PLANNER_AGENT_URL" in
  repair_planner_agent <-
    (if truthy_opt repair_planner_url then
       agent <- get_a2a_agent (a2a_import d) (default "" repair_planner_url) ;;
       ret (Some agent)
     else ret None) ;;
  workflow <- lift (Framework.build (factory_builder d repair_planner_agent)) ;;
  emit GraphBuilt ;;;
  match Framework.run fuel workflow (payload machine_id telemetry) with
  | Some outputs =>
      emit_all (map (fun o => NodeInvoked (fst o)) outputs) ;;;
      ret outputs
  | None => raise (Exn "RuntimeError" "the run needs more invocations than the bound")
  end.

(** The statement that the graph is constructed whatever the environment holds,
    and without a request on the network. *)
Definition construction_is_pure (d : Deployment) (fuel : nat)
    (machine_id telemetry : string) : Prop :=
  let log := snd (run_factory_workflow d fuel machine_id telemetry []) in
  In GraphBuilt log /\
  forall base path, ~ In (CardRequested base path) log.

(** Hosted agents that answer with fixed texts. *)
Definition reply (answer : string) (_ : WorkflowMsg) : WorkflowMsg :=
  Object {| agent_run_response := Some (Some answer);
            msg_text := None; response := None; params := None;
            msg_repr := "AgentExecutorResponse" |}.

Definition example_deployment (env : list (string * string)) : Deployment :=
  {| environ := list_to_map env;
     a2a_import := Ok package_with_resolver;
     anomaly_agent := reply "ALERT: temperature exceeds threshold";
     fault_agent := reply "Bearing wear on the curing press";
     remote_agent := fun _ => reply "Work order wo-2024-468 created" |}.

End Agents.

(** ** Python [str] methods used by the challenge-3 agents *)
Module PyText.
Import Py.

(** [s.find(sub)]: the index of the first occurrence, [None] for -1. *)
Fixpoint find (sub s : string) : option nat :=
  if String.prefix sub s then Some 0
  else match s with
       | "" => None
       | String _ r => option_map S (find sub r)
       end.

(** [s.rfind(sub)]: the index of the last occurrence, [None] for -1. *)
Fixpoint rfind (sub s : string) : option nat :=
  match s with
  | "" => if String.prefix sub "" then Some 0 else None
  | String _ r =>
      match rfind sub r with
      | Some i => Some (S i)
      | None => if String.prefix sub s then Some 0 else None
      end
  end.

(** [s[n:]] for [0 <= n]. *)
Fixpoint drop_chars (n : nat) (s : string) : string :=
  match n, s with
  | 0, _ => s
  | S n', String _ r => drop_chars n' r
  | S _, "" => ""
  end.

(** [s.index(sub, start)]: the first occurrence at or after [start], as an
    index into [s]; it raises [ValueError] when there is none. *)
Definition index_from (sub s : string) (start : nat) : result nat :=
  match find sub (drop_chars start s) with
  | Some i => Ok (start + i)
  | None => Raise (Exn "ValueError" "substring not found")
  end.

(** [s[a:b]] for [0 <= a] and [0 <= b]; an end before the start gives the
    empty string. *)
Definition slice (s : string) (a b : nat) : string :=
  String.substring a (b - a) s.

(** ASCII whitespace as [str.isspace] has it. *)
Definition is_space (c : ascii) : bool :=
  let n := nat_of_ascii c in
  ((9 <=? n)%nat && (n <=? 13)%nat) || ((28 <=? n)%nat && (n <=? 32)%nat).

Fixpoint lstrip (s : string) : string :=
  match s with
  | "" => ""
  | String c r => if is_space c then lstrip r else s
  end.

Fixpoint rstrip (s : string) : string :=
  match s with
  | "" => ""
  | String c r =>
      match rstrip r with
      | "" => if is_space c then "" else String c ""
      | r' => String c r'
      end
  end.

(** [s.strip()] *)
Definition strip (s : string) : string := rstrip (lstrip s).

(** No character of [s] is [c]. *)
Fixpoint lacks (c : ascii) (s : string) : bool :=
  match s with
  | "" => true
  | String x r => negb (Ascii.eqb x c) && lacks c r
  end.

End PyText.

(** ** [_extract_json] of [maintenance_scheduler_agent.py] and
    [parts_ordering_agent.py]

    The two agents carry the same method, line for line. *)
Module AgentResponse.
Import Py PyText.

Definition fence_open : string := "```json".
Definition fence : string := "```".

Definition could_not_extract : exn :=
  Exn "Exception" "Could not extract JSON from agent response".

Definition _extract_json (response : string) : result string :=
  if str_in fence_open response then
    match index_from fence_open response 0 with
    | Raise e => Raise e
    | Ok i =>
        let start := i + 7 in
        match index_from fence response start with
        | Raise e => Raise e
        | Ok stop => Ok (strip (slice response start stop))
        end
    end
  else
    match find "{" response with
    | Some start =>
        let stop := match rfind "}" response with
                    | Some e => e + 1
                    | None => 0
                    end in
        Ok (slice response start stop)
    | None => Raise could_not_extract
    end.

End AgentResponse.

(** ** More of [cosmos_db_service.py]: work-order histories, inventory,
    suppliers and parts orders *)
Module CosmosMore.
Import Py Cosmos.
Local Open Scope py_scope.

(** *** Chat histories of work orders (lines 564-592) *)

Definition get_work_order_chat_history (work_order_id : string)
    : M Database (option json_text) :=
  try_except
    (it <- read_chat_item work_order_id work_order_id ;;
     ret (historyJson it))
    (fun _ => ret None).

Definition save_work_order_chat_history (utcnow : string) (work_order_id : string)
    (history_json : json_text) : M Database unit :=
  ds <- _ensure_chat_histories ;;
  let it := {| ch_id := work_order_id;
               entityId := work_order_id;
               entityType := "workorder";
               historyJson := Some history_json;
               purpose := "parts_ordering";
               updatedAt := utcnow |} in
  set_chat_histories (upsert_chat it ds).

(** The store after a write of the history document [d] went through. *)
Definition with_history (db : Database) (d : ChatHistoryDoc) : Database :=
  {| available := available db;
     WorkOrders := WorkOrders db;
     ChatHistories := Some (upsert_chat d (default [] (ChatHistories db))) |}.

(** *** The other containers *)

(** The account with the containers of the parts side; [core] holds the
    availability of the service, the work orders and the chat histories.  A
    container that is [None] does not exist. *)
Record Account : Type := {
  core : Database;
  PartsInventory : option (list item);
  Suppliers : option (list item);
  PartsOrders : option (list item)
}.

(** A call on a container client: it fails when the service answers with
    an error status or the container does not exist. *)
Definition container_docs (which : Account -> option (list item))
    : M Account (list item) :=
  fun acct =>
    if negb (available (core acct)) then
      (Raise (CosmosHttpResponseError "Service Unavailable"), acct)
    else match which acct with
         | None => (Raise (CosmosResourceNotFoundError "Resource Not Found"), acct)
         | Some ds => (Ok ds, acct)
         end.

(** **** Inventory (lines 445-481) *)

Record InventoryItem : Type := {
  inv_id : json;
  inv_part_number : json;
  inv_part_name : json;
  current_stock : json;
  min_stock : json;
  reorder_point : json;
  location : json
}.

Definition inventory_item_of (it : item) : InventoryItem :=
  {| inv_id := get it "id" (JStr "");
     inv_part_number := get it "partNumber" (JStr "");
     inv_part_name := get it "partName" (JStr "");
     current_stock := get it "currentStock" (JNum 0);
     min_stock := get it "minStock" (JNum 0);
     reorder_point := get it "reorderPoint" (JNum 0);
     location := get it "location" (JStr "") |}.

(** [c.partNumber = @partNumber OR c.id = @partNumber]; a comparison with
    a property the document lacks does not hold. *)
Definition inventory_match (part_number : json) (d : item) : bool :=
  match lookup_key d "partNumber" with
  | Some v => json_eqb v part_number
  | None => false
  end ||
  match lookup_key d "id" with
  | Some v => json_eqb v part_number
  | None => false
  end.

(** The [for part_number in part_numbers] loop, one query for each. *)
Fixpoint inventory_loop (part_numbers : list json) : M Account (list InventoryItem) :=
  match part_numbers with
  | [] => ret []
  | part_number :: rest =>
      ds <- container_docs PartsInventory ;;
      let items := List.filter (inventory_match part_number) ds in
      more <- inventory_loop rest ;;
      ret (map inventory_item_of items ++ more)%list
  end.

Definition get_inventory_items (part_numbers : list json)
    : M Account (list InventoryItem) :=
  try_except (inventory_loop part_numbers) (fun _ => ret []).

(** **** Suppliers (lines 483-531) *)

Record Supplier : Type := {
  sup_id : json;
  sup_name : json;
  sup_parts : json;
  lead_time_days : json;
  reliability : json;
  contact_email : json
}.

(** Python's [==] on decoded JSON values: [True == 1] and [False == 0]
    hold; lists compare element by element, dicts key by key. *)
Fixpoint py_equal (a b : json) : bool :=
  match a, b with
  | JNull, JNull => true
  | JBool x, JBool y => Bool.eqb x y
  | JBool x, JNum n => (n =? (if x then 1 else 0))%Z
  | JNum n, JBool x => (n =? (if x then 1 else 0))%Z
  | JNum x, JNum y => (x =? y)%Z
  | JStr x, JStr y => String.eqb x y
  | JArr xs, JArr ys =>
      (fix go (xs ys : list json) : bool :=
         match xs, ys with
         | [], [] => true
         | x :: xs', y :: ys' => py_equal x y && go xs' ys'
         | _, _ => false
         end) xs ys
  | JObj fs, JObj gs =>
      Nat.eqb (length fs) (length gs) &&
      (fix every (fs : list (string * json)) : bool :=
         match fs with
         | [] => true
         | (k, v) :: fs' =>
             match lookup_key gs k with
             | Some w => py_equal v w
             | None => false
             end && every fs'
         end) fs
  | _, _ => false
  end.

(** [x in container] *)
Definition py_in (x container : json) : result bool :=
  match container with
  | JArr xs => Ok (existsb (py_equal x) xs)
  | JStr s =>
      match x with
      | JStr sub => Ok (str_in sub s)
      | _ => Raise (Exn "TypeError" "'in <string>' requires string as left operand")
      end
  | JObj d =>
      match x with
      | JArr _ | JObj _ => Raise (Exn "TypeError" "unhashable type")
      | JStr k => Ok (match lookup_key d k with Some _ => true | None => false end)
      | _ => Ok false
      end
  | _ => Raise (Exn "TypeError" "argument is not iterable")
  end.

(** [any(part in supplier_parts for part in part_numbers)]: it stops at the
    first part that is found. *)
Fixpoint any_part_in (supplier_parts : json) (part_numbers : list json)
    : result bool :=
  match part_numbers with
  | [] => Ok false
  | part :: rest =>
      match py_in part supplier_parts with
      | Raise e => Raise e
      | Ok true => Ok true
      | Ok false => any_part_in supplier_parts rest
      end
  end.

Definition supplier_of (it : item) : Supplier :=
  {| sup_id := get it "id" (JStr "");
     sup_name := get it "name" (JStr "");
     sup_parts := get it "parts" (JArr []);
     lead_time_days := get it "leadTimeDays" (JNum 0);
     reliability := get it "reliability" (JStr "");
     contact_email := get it "contactEmail" (JStr "") |}.

(** The [for item in items] loop. *)
Fixpoint suppliers_loop (part_numbers : list json) (items : list item)
    : result (list Supplier) :=
  match items with
  | [] => Ok []
  | it :: rest =>
      match any_part_in (get it "parts" (JArr [])) part_numbers with
      | Raise e => Raise e
      | Ok hit =>
          match suppliers_loop part_numbers rest with
          | Raise e => Raise e
          | Ok more => Ok (if hit then supplier_of it :: more else more)
          end
      end
  end.

Definition _generate_mock_suppliers : list Supplier :=
  [ {| sup_id := JStr "supplier-001";
       sup_name := JStr "Industrial Parts Supply Co.";
       sup_parts := JArr [];
       lead_time_days := JNum 3;
       reliability := JStr "High";
       contact_email := JStr "orders@industrialparts.com" |};
    {| sup_id := JStr "supplier-002";
       sup_name := JStr "Quick Parts Ltd.";
       sup_parts := JArr [];
       lead_time_days := JNum 1;
       reliability := JStr "Medium";
       contact_email := JStr "sales@quickparts.com" |} ].

(** The supplier document lists one of the parts, for a [parts] field that
    is a list. *)
Definition lists_requested_part (part_numbers : list json) (it : item) : bool :=
  match get it "parts" (JArr []) with
  | JArr xs => existsb (fun part => existsb (py_equal part) xs) part_numbers
  | _ => false
  end.

Definition get_suppliers_for_parts (part_numbers : list json)
    : M Account (list Supplier) :=
  try_except
    (items <- container_docs Suppliers ;;
     results <- lift (suppliers_loop part_numbers items) ;;
     ret (match results with
          | [] => _generate_mock_suppliers
          | _ => results
          end))
    (fun _ => ret _generate_mock_suppliers).

(** **** Parts orders (lines 533-562) *)

Section Orders.
Context `{Runtime}.

Record OrderItem : Type := {
  oi_part_number : json;
  oi_part_name : json;
  oi_quantity : json;
  unit_cost : json;
  oi_total_cost : json
}.

Record PartsOrder : Type := {
  order_id : json;
  order_work_order_id : json;
  order_items : list OrderItem;
  supplier_id : json;
  supplier_name : json;
  total_cost : json;
  expected_delivery_date : option datetime;
  order_status : json;
  order_created_at : option datetime
}.

Definition iso_or_none (d : option datetime) : json :=
  match d with
  | Some t => JStr (isoformat t)
  | None => JNull
  end.

(** One element of the ["orderItems"] comprehension. *)
Definition order_item_json (oi : OrderItem) : json :=
  JObj [("partNumber", oi_part_number oi);
        ("partName", oi_part_name oi);
        ("quantity", oi_quantity oi);
        ("unitCost", unit_cost oi);
        ("totalCost", oi_total_cost oi)].

(** The [item = {...}] literal of [save_parts_order]. *)
Definition parts_order_item (order : PartsOrder) : item :=
  [("id", order_id order);
   ("workOrderId", order_work_order_id order);
   ("orderItems", JArr (map order_item_json (order_items order)));
   ("supplierId", supplier_id order);
   ("supplierName", supplier_name order);
   ("totalCost", total_cost order);
   ("expectedDeliveryDate", iso_or_none (expected_delivery_date order));
   ("orderStatus", order_status order);
   ("createdAt", iso_or_none (order_created_at order))].

Definition set_parts_orders (ds : list item) : M Account unit :=
  modify (fun acct => {| core := core acct;
                         PartsInventory := PartsInventory acct;
                         Suppliers := Suppliers acct;
                         PartsOrders := Some ds |}).

(** [_ensure_container("PartsOrders", "/id")] *)
Definition _ensure_parts_orders : M Account (list item) :=
  try_except_class (container_docs PartsOrders)
    is_CosmosResourceNotFoundError
    (fun _ => set_parts_orders [] ;;; ret []).

(** The document has the id [i]; the container is partitioned by id. *)
Definition order_doc_has_id (i : string) (d : item) : bool :=
  match lookup_key d "id" with
  | Some v => json_eqb_str v i
  | None => false
  end.

(** [container.upsert_item(body=item)]: the service takes a document whose
    id is a string, and replaces the stored document of that id. *)
Definition upsert_parts_order (body : item) : list item -> M Account unit :=
  fun ds =>
    match lookup_key body "id" with
    | Some (JStr i) =>
        set_parts_orders (replace_or_append (order_doc_has_id i) body ds)
    | _ => raise (CosmosHttpResponseError "Bad Request")
    end.

Definition save_parts_order (order : PartsOrder) : M Account PartsOrder :=
  ds <- _ensure_parts_orders ;;
  upsert_parts_order (parts_order_item order) ds ;;;
  ret order.

End Orders.

(** An account whose supplier container holds two suppliers, one of them
    with a [parts] field that is [null]. *)
Definition acct_two_suppliers (second_parts : json) : Account :=
  {| core := db_one_order;
     PartsInventory :=
       Some [ [("id", JStr "inv-1"); ("partNumber", JStr "P-1");
               ("partName", JStr "Bearing"); ("currentStock", JNum 4)];
              [("id", JStr "P-2"); ("partNumber", JStr "P-2");
               ("partName", JStr "Seal"); ("currentStock", JNum 0)] ];
     Suppliers :=
       Some [ [("id", JStr "sup-1"); ("name", JStr "Bearings Inc.");
               ("parts", JArr [JStr "P-1"; JStr "P-7"])];
              [("id", JStr "sup-2"); ("name", JStr "Seals Ltd.");
               ("parts", second_parts)] ];
     PartsOrders := None |}.

Definition example_order : @PartsOrder one_instant_runtime :=
  {| order_id := JStr "PO-1a2b3c4d";
     order_work_order_id := JStr "wo-2024-468";
     order_items := [ {| oi_part_number := JStr "P-1";
                         oi_part_name := JStr "Bearing";
                         oi_quantity := JNum 2;
                         unit_cost := JNum 40;
                         oi_total_cost := JNum 80 |} ];
     supplier_id := JStr "sup-1";
     supplier_name := JStr "Bearings Inc.";
     total_cost := JNum 80;
     expected_delivery_date := Some (tt : @datetime one_instant_runtime);
     order_status := JStr "Pending";
     order_created_at := Some (tt : @datetime one_instant_runtime) |}.

End CosmosMore.

(** ** More of [parts_ordering_agent.py] and [maintenance_scheduler_agent.py]:
    what the agents keep of a conversation and how they use it *)
Module Conversations.
Import Py Cosmos CosmosMore.
Local Open Scope py_scope.

(** [PartsOrderingAgent._save_interaction_history] (lines 124-134); the
    warning printed by the handler is not part of the state. *)
Definition parts_save_interaction_history (utcnow : string) (work_order_id : string)
    (user_context assistant_response : string) : M Database unit :=
  try_except
    (let messages := JArr [Scheduler.chat_message "user" user_context;
                           Scheduler.chat_message "assistant" assistant_response] in
     save_work_order_chat_history utcnow work_order_id (json_dumps messages))
    (fun _ => ret tt).

(** The scheduler's [_save_interaction_history], once for each interaction
    of a list, oldest first. *)
Fixpoint save_interactions (utcnow : string) (machine_id : string)
    (interactions : list (string * string)) : M Database unit :=
  match interactions with
  | [] => ret tt
  | (user_prompt, assistant_response) :: rest =>
      Scheduler._save_interaction_history utcnow machine_id
        user_prompt assistant_response ;;;
      save_interactions utcnow machine_id rest
  end.

(** The messages of a list of interactions, in order. *)
Definition interaction_messages (interactions : list (string * string)) : list json :=
  flat_map (fun ia => [Scheduler.chat_message "user" (fst ia);
                       Scheduler.chat_message "assistant" (snd ia)])
           interactions.

(** *** The prompt and the model call *)

Section Prompts.
Context `{Runtime}.

Definition nl : string := String (ascii_of_nat 10) "".

(** [msg[key]] on a decoded JSON value: only a [dict] takes a string. *)
Definition subscript (msg : json) (key : string) : result json :=
  match msg with
  | JObj d =>
      match lookup_key d key with
      | Some v => Ok v
      | None => Raise (Exn "KeyError" ("'" ++ key ++ "'"))
      end
  | _ => Raise (Exn "TypeError" "indices must be integers, or the object is not subscriptable")
  end.

(** [f"{msg['role']}: {msg['content']}"] *)
Definition history_line (msg : json) : result string :=
  match subscript msg "role" with
  | Raise e => Raise e
  | Ok role =>
      match subscript msg "content" with
      | Raise e => Raise e
      | Ok content => Ok (str role ++ ": " ++ str content)
      end
  end.

Fixpoint history_lines (msgs : list json) : result (list string) :=
  match msgs with
  | [] => Ok []
  | msg :: rest =>
      match history_line msg with
      | Raise e => Raise e
      | Ok line =>
          match history_lines rest with
          | Raise e => Raise e
          | Ok lines => Ok (line :: lines)
          end
      end
  end.

(** ["\n".join(lines)] *)
Fixpoint join_lines (lines : list string) : string :=
  match lines with
  | [] => ""
  | [line] => line
  | line :: rest => line ++ nl ++ join_lines rest
  end.

(** [history_msgs[-5:]]: a list gives its last five elements and a string
    its last five characters; a [dict] raises [TypeError] or [KeyError]
    according to the interpreter, both caught by the caller. *)
Definition last_five (history_msgs : json) : result (list json) :=
  match history_msgs with
  | JArr xs => Ok (Scheduler.last_n 5 xs)
  | JStr s =>
      Ok (map (fun c => JStr (String c ""))
              (Scheduler.last_n 5 (list_ascii_of_string s)))
  | _ => Raise (Exn "TypeError" "object is not subscriptable")
  end.

(** [predict_schedule], lines 73-82: [full_prompt]. *)
Definition scheduler_full_prompt (context : string)
    (chat_history_json : option json_text) : string :=
  match chat_history_json with
  | Some t =>
      if text_truthy t then
        match (match json_loads t with
               | Raise e => Raise e
               | Ok history_msgs =>
                   match last_five history_msgs with
                   | Raise e => Raise e
                   | Ok recent => history_lines recent
                   end
               end) with
        | Ok lines =>
            "Previous conversation context:" ++ nl ++ join_lines lines ++
            nl ++ nl ++ context
        | Raise _ => context
        end
      else context
  | None => context
  end.

(** [generate_order], lines 75-84: [full_context]. *)
Definition parts_full_context (context : string)
    (chat_history_json : option json_text) : string :=
  match chat_history_json with
  | Some t =>
      if text_truthy t then
        match (match json_loads t with
               | Raise e => Raise e
               | Ok history_messages =>
                   match iterate history_messages with
                   | Raise e => Raise e
                   | Ok msgs => history_lines msgs
                   end
               end) with
        | Ok lines =>
            "Previous conversation:" ++ nl ++ join_lines lines ++
            nl ++ nl ++ context
        | Raise _ => context
        end
      else context
  | None => context
  end.

(** [predict_schedule], lines 57-96: from the read of the history to the
    save of the interaction; [context] is what [_build_context] returned.
    [agent_run] is the hosted model behind [create_agent] and [agent.run]:
    the text it answers with, or the exception raised on the way there.
    Leaving the [async with] blocks after the save is taken to succeed. *)
Definition scheduler_converse (agent_run : string -> result string)
    (utcnow : string) (machine_id context : string) : M Database string :=
  chat_history_json <- get_machine_chat_history machine_id ;;
  let full_prompt := scheduler_full_prompt context chat_history_json in
  response_text <- lift (agent_run full_prompt) ;;
  Scheduler._save_interaction_history utcnow machine_id context response_text ;;;
  ret response_text.

(** [generate_order], lines 59-97. *)
Definition parts_converse (agent_run : string -> result string)
    (utcnow : string) (work_order_id context : string) : M Database string :=
  chat_history_json <- get_work_order_chat_history work_order_id ;;
  let full_context := parts_full_context context chat_history_json in
  response_text <- lift (agent_run full_context) ;;
  parts_save_interaction_history utcnow work_order_id full_context response_text ;;;
  ret response_text.

(** *** The order made of the answer *)

(** [r] and then [k], for computations that may raise. *)
Definition and_then {A B} (r : result A) (k : A -> result B) : result B :=
  match r with
  | Ok a => k a
  | Raise e => Raise e
  end.

(** One [OrderItem(...)] of the comprehension, lines 106-112. *)
Definition order_item_of (it : json) : result OrderItem :=
  and_then (subscript it "partNumber") (fun pn =>
  and_then (subscript it "partName") (fun name =>
  and_then (subscript it "quantity") (fun qty =>
  and_then (subscript it "unitCost") (fun cost =>
  and_then (subscript it "totalCost") (fun total =>
  Ok {| oi_part_number := pn; oi_part_name := name; oi_quantity := qty;
        unit_cost := cost; oi_total_cost := total |}))))).

Fixpoint order_items_of (its : list json) : result (list OrderItem) :=
  match its with
  | [] => Ok []
  | it :: rest =>
      and_then (order_item_of it) (fun oi =>
      and_then (order_items_of rest) (fun ois => Ok (oi :: ois)))
  end.

(** [v.replace("Z", "+00:00")]: only a string has the method. *)
Definition replace_method (v : json) : result string :=
  match v with
  | JStr s => Ok (replace_Z s)
  | _ => Raise (Exn "AttributeError" "object has no attribute 'replace'")
  end.

(** [datetime.fromisoformat(text)] *)
Definition parse_iso (text : string) : result datetime :=
  match fromisoformat text with
  | Some t => Ok t
  | None => Raise (Exn "ValueError" ("Invalid isoformat string: '" ++ text ++ "'"))
  end.

(** [generate_order], lines 102-122: the [PartsOrder] built from the decoded
    answer [data], its arguments evaluated in the order they are written.
    [uuid] is [str(uuid.uuid4())], [utcnow] the reading of
    [datetime.utcnow()], [work_order_id] is [work_order.id]. *)
Definition order_of_answer (uuid : string) (utcnow : datetime)
    (work_order_id : json) (data : json) : result PartsOrder :=
  let id := JStr ("PO-" ++ String.substring 0 8 uuid) in
  and_then (subscript data "orderItems") (fun items =>
  and_then (iterate items) (fun its =>
  and_then (order_items_of its) (fun ois =>
  and_then (subscript data "supplierId") (fun sid =>
  and_then (subscript data "supplierName") (fun sname =>
  and_then (subscript data "totalCost") (fun total =>
  and_then (subscript data "expectedDeliveryDate") (fun expected =>
  and_then (replace_method expected) (fun text =>
  and_then (parse_iso text) (fun delivery =>
  Ok {| order_id := id;
        order_work_order_id := work_order_id;
        order_items := ois;
        supplier_id := sid;
        supplier_name := sname;
        total_cost := total;
        expected_delivery_date := Some delivery;
        order_status := JStr "Pending";
        order_created_at := Some utcnow |}))))))))).

(** The keys of an order item. *)
Definition order_item_keys : list string :=
  ["partNumber"; "partName"; "quantity"; "unitCost"; "totalCost"].

End Prompts.

(** An answer of the model, decoded: one item, with a note the order has no
    place for. *)
Definition example_answer : json :=
  JObj [("orderItems",
         JArr [JObj [("partNumber", JStr "P-1"); ("partName", JStr "Bearing");
                     ("quantity", JNum 2); ("unitCost", JNum 40);
                     ("totalCost", JNum 85); ("note", JStr "express")]]);
        ("supplierId", JStr "sup-1");
        ("supplierName", JStr "Bearings Inc.");
        ("totalCost", JNum 80);
        ("expectedDeliveryDate", JStr "2024-03-01T08:00:00Z")].

(** A store with one exchange kept for the work order ["wo-2024-468"]. *)
Definition db_one_exchange : Database :=
  {| available := true;
     WorkOrders := None;
     ChatHistories :=
       Some [ {| ch_id := "wo-2024-468";
                 entityId := "wo-2024-468";
                 entityType := "workorder";
                 historyJson :=
                   Some (Encoded (JArr [Scheduler.chat_message "user" "order a bearing";
                                        Scheduler.chat_message "assistant" "ordered"]));
                 purpose := "parts_ordering";
                 updatedAt := "2025-01-01T00:00:00" |} ] |}.

End Conversations.

(* ===================================================================== *)
(** * Part II: properties *)
(* ===================================================================== *)

Import Py.

(** ** Strings *)
Section Strings.

Lemma sapp_cons (x : ascii) (a b : string) : String x a ++ b = String x (a ++ b).
Proof. reflexivity. Qed.

Lemma sapp_nil_l (a : string) : "" ++ a = a.
Proof. reflexivity. Qed.

Lemma sapp_assoc (a b c : string) : (a ++ b) ++ c = a ++ (b ++ c).
Proof.
  induction a as [|x a IH]; [reflexivity|].
  rewrite !sapp_cons, IH. reflexivity.
Qed.

Lemma sapp_nil_r (a : string) : a ++ "" = a.
Proof.
  induction a as [|x a IH]; [reflexivity|]. rewrite sapp_cons, IH. reflexivity.
Qed.

Lemma sapp_length (a b : string) :
  String.length (a ++ b) = String.length a + String.length b.
Proof.
  induction a as [|x a IH]; [reflexivity|].
  rewrite sapp_cons. simpl. rewrite IH. reflexivity.
Qed.

(** Two splits of one string at the same position are the same split. *)
Lemma sapp_inv_length (a b a' b' : string) :
  a ++ b = a' ++ b' -> String.length a = String.length a' -> a = a' /\ b = b'.
Proof.
  revert a'. induction a as [|x a IH]; intros [|x' a']; intros E L;
    try discriminate L.
  - auto.
  - rewrite !sapp_cons in E. injection E as -> E. injection L as L.
    destruct (IH a' E L) as [-> ->]. auto.
Qed.

Lemma prefix_spec (p s : string) :
  String.prefix p s = true <-> exists suf, s = p ++ suf.
Proof.
  revert s. induction p as [|x p IH]; intros s.
  - split; [intros _; exists s; reflexivity|intros _; destruct s; reflexivity].
  - destruct s as [|y s]; simpl.
    + split; [discriminate|intros [suf E]; discriminate].
    + destruct (ascii_dec x y) as [->|Hne].
      * rewrite IH. split; intros [suf E]; exists suf;
          rewrite ?sapp_cons in *; congruence.
      * split; [discriminate|intros [suf E]; rewrite sapp_cons in E; congruence].
Qed.

(** [needle in hay] holds exactly when [hay] splits around [needle]. *)
Lemma str_in_spec (needle hay : string) :
  str_in needle hay = true <-> exists pre suf, hay = pre ++ needle ++ suf.
Proof.
  induction hay as [|c hay IH].
  - unfold str_in. rewrite orb_false_r, prefix_spec. split.
    + intros [suf E]. exists "", suf. exact E.
    + intros (pre & suf & E). destruct pre; [exists suf; exact E|discriminate].
  - change (str_in needle (String c hay))
      with (String.prefix needle (String c hay) || str_in needle hay).
    rewrite orb_true_iff, prefix_spec, IH. split.
    + intros [[suf E]|(pre & suf & E)].
      * exists "", suf. exact E.
      * exists (String c pre), suf. rewrite sapp_cons. congruence.
    + intros (pre & suf & E). destruct pre as [|x pre].
      * left. exists suf. exact E.
      * right. rewrite sapp_cons in E. injection E as _ E. exists pre, suf. exact E.
Qed.

Lemma lower_app (a b : string) : lower (a ++ b) = lower a ++ lower b.
Proof.
  induction a as [|x a IH]; [reflexivity|].
  rewrite sapp_cons. simpl. rewrite IH. reflexivity.
Qed.

Lemma lower_length (a : string) : String.length (lower a) = String.length a.
Proof. induction a as [|x a IH]; simpl; [reflexivity|]. rewrite IH. reflexivity. Qed.

(** A split of the lowered text comes from a split of the text. *)
Lemma lower_app_inv (t a b : string) :
  lower t = a ++ b -> exists t1 t2, t = t1 ++ t2 /\ lower t1 = a /\ lower t2 = b.
Proof.
  revert t. induction a as [|x a IH]; intros t E.
  - exists "", t. auto.
  - destruct t as [|y t]; [discriminate|].
    rewrite sapp_cons in E. simpl in E.
    injection E as Ex E. destruct (IH t E) as (t1 & t2 & -> & <- & <-).
    exists (String y t1), t2. simpl. rewrite Ex. auto.
Qed.

End Strings.

(** ** The work-order id pattern *)
Section WorkOrderIdPattern.
Import Agents.

Lemma match_one (cls : ascii -> bool) (items : list re_item) (c : ascii) (r : string) :
  match_items (One cls :: items) (String c r)
  = if cls c then
      match match_items items r with
      | Some m => Some (String c m)
      | None => None
      end
    else None.
Proof. reflexivity. Qed.

Lemma match_many1_cons (cls : ascii -> bool) (items : list re_item)
    (c : ascii) (r : string) :
  match_items (Many1 cls :: items) (String c r)
  = if cls c then
      match match_items (Many1 cls :: items) r with
      | Some m => Some (String c m)
      | None =>
          match match_items items r with
          | Some m => Some (String c m)
          | None => None
          end
      end
    else None.
Proof. reflexivity. Qed.

Lemma match_many1_run (cls : ascii -> bool) (s : string) :
  match_items [Many1 cls] s
  = match span_of cls s with "" => None | m => Some m end.
Proof.
  induction s as [|c r IH]; [reflexivity|].
  rewrite match_many1_cons, IH. simpl.
  destruct (cls c); [|reflexivity].
  destruct (span_of cls r); reflexivity.
Qed.

Lemma run_app (cls : ascii -> bool) (m rest : string) :
  all_chars cls m = true -> stops cls rest -> span_of cls (m ++ rest) = m.
Proof.
  induction m as [|x m IH]; intros Hall Hst.
  - rewrite sapp_nil_l. destruct rest as [|c r]; [reflexivity|].
    simpl in *. rewrite Hst. reflexivity.
  - simpl in Hall. apply andb_true_iff in Hall as [Hx Hall].
    rewrite sapp_cons. simpl. rewrite Hx, IH by assumption. reflexivity.
Qed.

Lemma run_split (cls : ascii -> bool) (s : string) :
  exists rest, s = span_of cls s ++ rest /\ stops cls rest /\
               all_chars cls (span_of cls s) = true.
Proof.
  induction s as [|c r (rest & E & Hst & Hall)].
  - exists "". simpl. auto.
  - simpl. destruct (cls c) eqn:Ec.
    + exists rest. rewrite sapp_cons, <- E. simpl. rewrite Ec. auto.
    + exists (String c r). simpl. auto.
Qed.

(** A trailing repetition matches the longest non-empty run. *)
Lemma match_many1_last (cls : ascii -> bool) (s m : string) :
  match_items [Many1 cls] s = Some m <->
  m <> "" /\ all_chars cls m = true /\ exists rest, s = m ++ rest /\ stops cls rest.
Proof.
  rewrite match_many1_run. split.
  - intros E. destruct (run_split cls s) as (rest & Es & Hst & Hall).
    destruct (span_of cls s) as [|x xs] eqn:Er; [discriminate|].
    injection E as <-. split; [discriminate|]. split; [exact Hall|].
    exists rest. auto.
  - intros (Hne & Hall & rest & -> & Hst). rewrite run_app by assumption.
    destruct m; [congruence|reflexivity].
Qed.

Lemma all_chars_app (cls : ascii -> bool) (a b : string) :
  all_chars cls (a ++ b) = all_chars cls a && all_chars cls b.
Proof.
  induction a as [|x a IH]; [reflexivity|].
  rewrite sapp_cons. simpl. rewrite IH, andb_assoc. reflexivity.
Qed.

Lemma match_one_inv (cls : ascii -> bool) (items : list re_item) (s m : string) :
  match_items (One cls :: items) s = Some m ->
  exists c r m', s = String c r /\ cls c = true /\ m = String c m' /\
                 match_items items r = Some m'.
Proof.
  destruct s as [|c r]; [discriminate|]. rewrite match_one.
  destruct (cls c) eqn:Ec; [|discriminate].
  destruct (match_items items r) as [m'|] eqn:Em; [|discriminate].
  intros E. injection E as <-. exists c, r, m'. repeat split; auto.
Qed.

Lemma match_one_intro (cls : ascii -> bool) (items : list re_item)
    (c : ascii) (r m' : string) :
  cls c = true -> match_items items r = Some m' ->
  match_items (One cls :: items) (String c r) = Some (String c m').
Proof. intros Ec Em. rewrite match_one, Ec, Em. reflexivity. Qed.

(** The pattern matches at the start of [s] exactly the work-order ids that
    begin [s] and take every hexadecimal digit that follows. *)
Lemma match_pattern_spec (s m : string) :
  match_items work_order_pattern s = Some m <->
  exists rest, s = m ++ rest /\ is_work_order_id m = true /\ stops hex_i rest.
Proof.
  unfold work_order_pattern. split.
  - intros Hm.
    repeat match goal with
    | Hx : match_items (One _ :: _) _ = Some _ |- _ =>
        apply match_one_inv in Hx as (? & ? & ? & -> & ? & -> & Hx)
    end.
    apply match_many1_last in Hm as (Hne & Hall & rest & -> & Hst).
    exists rest. split; [reflexivity|]. split; [|exact Hst].
    match type of Hne with
    | ?t <> "" => destruct t as [|y ys]; [congruence|]
    end.
    unfold is_work_order_id.
    repeat match goal with
    | Hx : _ = true |- _ => rewrite Hx; clear Hx
    end.
    reflexivity.
  - intros (rest & -> & Hid & Hst).
    destruct m as [|w [|o [|h1 [|d1 [|d2 [|d3 [|d4 [|h2 [|x xs]]]]]]]]];
      try discriminate Hid.
    unfold is_work_order_id in Hid.
    repeat match goal with
    | Hx : _ && _ = true |- _ => apply andb_true_iff in Hx as [Hx ?]
    end.
    rewrite !sapp_cons.
    repeat (apply match_one_intro; [assumption|]).
    apply match_many1_last. split; [discriminate|]. split; [assumption|].
    exists rest. rewrite !sapp_cons. auto.
Qed.

Lemma re_search_unfold (items : list re_item) (s : string) :
  re_search items s
  = match match_items items s with
    | Some m => Some m
    | None => match s with "" => None | String _ r => re_search items r end
    end.
Proof. destruct s; reflexivity. Qed.

(** [re.search] returns the match at the first position that has one. *)
Lemma re_search_some (items : list re_item) (s m : string) :
  re_search items s = Some m ->
  exists pre rest,
    s = pre ++ rest /\ match_items items rest = Some m /\
    forall pre' rest', s = pre' ++ rest' ->
      String.length pre' < String.length pre -> match_items items rest' = None.
Proof.
  induction s as [|c r IH]; rewrite re_search_unfold.
  - destruct (match_items items "") as [m0|] eqn:E0; [|discriminate].
    intros E. injection E as <-. exists "", "". split; [reflexivity|].
    split; [exact E0|]. intros pre' rest' _ Hlt. simpl in Hlt. lia.
  - destruct (match_items items (String c r)) as [m0|] eqn:E0.
    + intros E. injection E as <-. exists "", (String c r).
      split; [reflexivity|]. split; [exact E0|].
      intros pre' rest' _ Hlt. simpl in Hlt. lia.
    + intros E. destruct (IH E) as (pre & rest & -> & Hm & Hfirst).
      exists (String c pre), rest. split; [reflexivity|]. split; [exact Hm|].
      intros pre' rest' Es Hlt. destruct pre' as [|x pre'].
      * rewrite sapp_nil_l in Es. subst rest'. exact E0.
      * rewrite !sapp_cons in Es. injection Es as _ Es.
        apply (Hfirst pre' rest' Es). simpl in Hlt. lia.
Qed.

Lemma re_search_none (items : list re_item) (s : string) :
  re_search items s = None ->
  forall pre rest, s = pre ++ rest -> match_items items rest = None.
Proof.
  induction s as [|c r IH]; rewrite re_search_unfold.
  - destruct (match_items items "") eqn:E0; [discriminate|].
    intros _ pre rest Es. destruct pre; [|discriminate].
    rewrite sapp_nil_l in Es. subst rest. exact E0.
  - destruct (match_items items (String c r)) eqn:E0; [discriminate|].
    intros E pre rest Es. destruct pre as [|x pre].
    + rewrite sapp_nil_l in Es. subst rest. exact E0.
    + rewrite sapp_cons in Es. injection Es as _ Es. exact (IH E pre rest Es).
Qed.

(** A work-order id that begins [s] makes the pattern match there, with a
    match at least as long. *)
Lemma match_pattern_complete (m suf : string) :
  is_work_order_id m = true ->
  exists m', match_items work_order_pattern (m ++ suf) = Some m' /\
             String.length m <= String.length m'.
Proof.
  intros Hid.
  destruct (run_split hex_i suf) as (rest & Es & Hst & Hall).
  exists (m ++ span_of hex_i suf). split.
  - apply match_pattern_spec. exists rest. split.
    + rewrite sapp_assoc, <- Es. reflexivity.
    + split; [|exact Hst].
      destruct m as [|w [|o [|h1 [|d1 [|d2 [|d3 [|d4 [|h2 [|x xs]]]]]]]]];
        try discriminate Hid.
      unfold is_work_order_id in Hid |- *. rewrite !sapp_cons.
      change (String x (xs ++ span_of hex_i suf)) with (String x xs ++ span_of hex_i suf).
      rewrite all_chars_app, Hall, andb_true_r. exact Hid.
  - rewrite sapp_length. lia.
Qed.

(** What [extract_work_order_id] returns: the leftmost substring that is a
    work-order id, taken as long as possible; nothing when the text holds no
    such substring. *)
Lemma extract_work_order_id_spec (text : string) :
  match extract_work_order_id text with
  | Some m =>
      exists pre suf,
        text = pre ++ m ++ suf /\ is_work_order_id m = true /\
        forall pre' m' suf',
          text = pre' ++ m' ++ suf' -> is_work_order_id m' = true ->
          String.length pre <= String.length pre' /\
          (String.length pre' = String.length pre ->
           String.length m' <= String.length m)
  | None =>
      forall pre m suf, text = pre ++ m ++ suf -> is_work_order_id m = false
  end.
Proof.
  unfold extract_work_order_id.
  destruct (re_search work_order_pattern text) as [m|] eqn:Es.
  - destruct (re_search_some _ _ _ Es) as (pre & rest & -> & Hm & Hfirst).
    pose proof Hm as Hm0.
    apply match_pattern_spec in Hm as (suf & -> & Hid & Hst).
    exists pre, suf. split; [reflexivity|]. split; [exact Hid|].
    intros pre' m' suf' E Hid'.
    destruct (match_pattern_complete m' suf' Hid') as (m2 & Hm2 & Hlen).
    split.
    + destruct (le_lt_dec (String.length pre) (String.length pre')) as [Hle|Hlt];
        [exact Hle|].
      rewrite (Hfirst pre' (m' ++ suf') E Hlt) in Hm2. discriminate.
    + intros Hl. destruct (sapp_inv_length _ _ _ _ E (eq_sym Hl)) as [_ E2].
      rewrite E2 in Hm0. assert (m2 = m) by congruence. subst m2. exact Hlen.
  - intros pre m suf E.
    destruct (is_work_order_id m) eqn:Hid; [|reflexivity].
    destruct (match_pattern_complete m suf Hid) as (m2 & Hm2 & _).
    rewrite (re_search_none _ _ Es pre (m ++ suf) E) in Hm2. discriminate.
Qed.

Example extract_leftmost_greedy :
  extract_work_order_id "see WO-2024-4a8z, then wo-2025-1" = Some "WO-2024-4a8".
Proof. reflexivity. Qed.

Example extract_needs_four_digits :
  extract_work_order_id "order parts for wo-24-468" = None.
Proof. reflexivity. Qed.

Example resolve_default_on_empty : resolve_work_order_id "" = "wo-2024-468".
Proof. reflexivity. Qed.

End WorkOrderIdPattern.

(** ** Chat history of the maintenance scheduler *)
Section ChatHistory.
Import Cosmos Scheduler.

Lemma last_n_length {A} (n : nat) (xs : list A) : length (last_n n xs) <= n.
Proof. unfold last_n. rewrite length_drop. lia. Qed.

Lemma last_n_suffix {A} (n : nat) (xs : list A) :
  exists front, xs = (front ++ last_n n xs)%list.
Proof.
  exists (take (length xs - n) xs). unfold last_n.
  symmetry. apply take_drop.
Qed.

(** Dropping from the front keeps a tail of two when at least two are
    kept. *)
Lemma last_n_app_two {A} (n : nat) (xs : list A) (a b : A) :
  2 <= n -> exists mid, last_n n (xs ++ [a; b]) = (mid ++ [a; b])%list.
Proof.
  intros Hn. unfold last_n. rewrite length_app. simpl.
  destruct (decide (length xs + 2 - n <= length xs)) as [Hle|Hgt].
  - exists (drop (length xs + 2 - n) xs).
    rewrite drop_app_le by exact Hle. reflexivity.
  - lia.
Qed.

Lemma find_upsert_chat (d : ChatHistoryDoc) (ds : list ChatHistoryDoc) :
  List.find (fun x => String.eqb (ch_id x) (ch_id d) &&
                      String.eqb (entityId x) (entityId d)) (upsert_chat d ds)
  = Some d.
Proof.
  induction ds as [|d' ds IH]; simpl.
  - rewrite !String.eqb_refl. reflexivity.
  - destruct (String.eqb (ch_id d') (ch_id d) &&
              String.eqb (entityId d') (entityId d)) eqn:E; simpl.
    + rewrite !String.eqb_refl. reflexivity.
    + rewrite E. exact IH.
Qed.

Lemma get_machine_chat_history_available (db : Database) (m : string) :
  available db = true ->
  get_machine_chat_history m db = (Ok (stored_history db m), db).
Proof.
  intros Hav. unfold get_machine_chat_history, try_except, bind, read_chat_item,
    stored_history, ret.
  rewrite Hav. simpl.
  destruct (ChatHistories db) as [ds|]; [|reflexivity].
  destruct (List.find _ ds); reflexivity.
Qed.

Lemma save_machine_chat_history_available (now m : string) (t : json_text)
    (db : Database) :
  available db = true ->
  exists db', save_machine_chat_history now m t db = (Ok tt, db') /\
              available db' = true /\
              stored_history db' m = Some t.
Proof.
  intros Hav.
  unfold save_machine_chat_history, bind, _ensure_chat_histories,
    try_except_class, set_chat_histories, modify, ret.
  rewrite Hav. simpl.
  destruct (ChatHistories db) as [ds|]; simpl.
  - eexists. split; [reflexivity|]. split; [exact Hav|].
    unfold stored_history. simpl.
    pose proof (find_upsert_chat
      {| ch_id := m; entityId := m; entityType := "machine";
         historyJson := Some t; purpose := "predictive_maintenance";
         updatedAt := now |} ds) as Hf.
    simpl in Hf. rewrite Hf. reflexivity.
  - eexists. split; [reflexivity|]. split; [exact Hav|].
    unfold stored_history. simpl. rewrite !String.eqb_refl. reflexivity.
Qed.

(** With the service down nothing is written: the failure of the write is
    swallowed by the handler and the store is left as it was. *)
Lemma save_interaction_history_unavailable (now m u a : string) (db : Database) :
  available db = false ->
  _save_interaction_history now m u a db = (Ok tt, db).
Proof.
  intros Hav.
  unfold _save_interaction_history, try_except, bind, get_machine_chat_history,
    try_except, read_chat_item, lift, ret, save_machine_chat_history, bind,
    _ensure_chat_histories, try_except_class.
  repeat (rewrite Hav; simpl). reflexivity.
Qed.

(** C9, as stated, fails: when the stored history text does not encode a
    list, the call returns normally and leaves the store unchanged, so the
    persisted history does not end with the new prompt and response. *)
Lemma save_interaction_history_not_always_bounded :
  ~ history_bounded_after
      (snd (_save_interaction_history "2025-01-02T00:00:00" "machine-001"
              "prompt" "response" db_object_history))
      "machine-001" "prompt" "response".
Proof.
  intros (msgs & front & Hp & _).
  vm_compute in Hp. discriminate Hp.
Qed.

(** C9 (amended): when the service is available and the stored history is
    absent, empty or encodes a list [old], the call persists the last ten
    entries of [old] followed by the new user prompt and assistant response:
    at most ten messages, ending with the two new ones in that order, older
    messages dropped from the front. *)
Theorem save_interaction_history_bounded
    (now m u a : string) (db : Database) (old : list json) :
  available db = true ->
  prior_messages db m = Some old ->
  let new := [chat_message "user" u; chat_message "assistant" a] in
  exists db' msgs,
    _save_interaction_history now m u a db = (Ok tt, db') /\
    persisted_messages db' m = Some msgs /\
    msgs = last_n 10 (old ++ new) /\
    length msgs <= 10 /\
    (exists mid, msgs = (mid ++ new)%list) /\
    (exists front, (old ++ new)%list = (front ++ msgs)%list).
Proof.
  intros Hav Hprior new.
  destruct (save_machine_chat_history_available now m
              (json_dumps (JArr (last_n 10 (old ++ new)))) db Hav)
    as (db' & Hsave & _ & Hstored).
  exists db', (last_n 10 (old ++ new)).
  split.
  - unfold _save_interaction_history, try_except, bind.
    rewrite (get_machine_chat_history_available db m Hav).
    unfold prior_messages in Hprior.
    assert (Hload :
      (match stored_history db m with
       | Some t => if text_truthy t then json_loads t else Ok (JArr [])
       | None => Ok (JArr [])
       end) = Ok (JArr old) \/
      ((match stored_history db m with
       | Some t => if text_truthy t then json_loads t else Ok (JArr [])
       | None => Ok (JArr [])
       end) = Ok (JArr []) /\ old = [])).
    { destruct (stored_history db m) as [t|].
      - destruct (text_truthy t) eqn:Et.
        + destruct t as [v|raw]; [|discriminate].
          destruct v; try discriminate. injection Hprior as <-. left. reflexivity.
        + injection Hprior as <-. left. reflexivity.
      - injection Hprior as <-. left. reflexivity. }
    destruct Hload as [Hload|[Hload ->]]; unfold lift; rewrite Hload; simpl.
    all: subst new; rewrite <- ?app_assoc; cbn [app] in Hsave |- *;
      rewrite Hsave; reflexivity.
  - split.
    + unfold persisted_messages. rewrite Hstored. reflexivity.
    + split; [reflexivity|]. split; [apply last_n_length|]. split.
      * apply last_n_app_two. lia.
      * apply last_n_suffix.
Qed.

(** The theorem at a store that already holds ten messages. *)
Lemma save_interaction_history_bounded_witness :
  exists db' msgs,
    _save_interaction_history "2025-01-02T00:00:00" "machine-001"
      "prompt" "response" db_full_history = (Ok tt, db') /\
    persisted_messages db' "machine-001" = Some msgs /\
    msgs = last_n 10 (ten_messages ++
             [chat_message "user" "prompt"; chat_message "assistant" "response"]) /\
    length msgs <= 10 /\
    (exists mid, msgs = (mid ++ [chat_message "user" "prompt";
                                 chat_message "assistant" "response"])%list) /\
    (exists front, (ten_messages ++ [chat_message "user" "prompt";
                                     chat_message "assistant" "response"])%list
                   = (front ++ msgs)%list).
Proof.
  apply (save_interaction_history_bounded "2025-01-02T00:00:00" "machine-001"
           "prompt" "response" db_full_history ten_messages).
  - reflexivity.
  - reflexivity.
Defined.

End ChatHistory.

(** ** Work orders in the store *)
Section WorkOrderStore.
Import Cosmos.
Context `{Runtime}.

Lemma json_eqb_str_eq (v : json) (s : string) :
  json_eqb v (JStr s) = true -> v = JStr s.
Proof.
  destruct v; simpl; try discriminate.
  intros E. apply String.eqb_eq in E. congruence.
Qed.

Lemma json_eqb_str_true (v : json) (s : string) :
  json_eqb_str v s = true -> v = JStr s.
Proof.
  destruct v; simpl; try discriminate.
  intros E. apply String.eqb_eq in E. congruence.
Qed.

Lemma has_id_get (i : string) (d : item) :
  has_id i d = true -> get d "id" (JStr "") = JStr i.
Proof.
  unfold has_id, get. destruct (lookup_key d "id") as [v|]; [|discriminate].
  apply json_eqb_str_true.
Qed.

Lemma doc_at_has_id (path i : string) (pk : json) (d : item) :
  doc_at path (JStr i) pk d = true -> has_id i d = true.
Proof.
  unfold doc_at, has_id.
  destruct (lookup_key d "id") as [v|]; [|discriminate].
  destruct (lookup_key d path); [|discriminate].
  intros E. apply andb_true_iff in E as [E _].
  apply json_eqb_str_eq in E. subst v. simpl. apply String.eqb_refl.
Qed.

Lemma required_parts_roundtrip (parts : list RequiredPart) :
  required_parts_of (map required_part_item parts) = Ok parts.
Proof.
  induction parts as [|p parts IH]; simpl; [reflexivity|].
  rewrite IH. destruct p. reflexivity.
Qed.

Lemma In_replace_or_append (p : item -> bool) (body : item) (ds : list item) :
  In body (replace_or_append p body ds).
Proof.
  induction ds as [|d ds IH]; simpl; [left; reflexivity|].
  destruct (p d); simpl; auto.
Qed.

Lemma replace_or_append_none (p : item -> bool) (body : item) (ds : list item) :
  List.filter p ds = [] -> replace_or_append p body ds = (ds ++ [body])%list.
Proof.
  induction ds as [|d ds IH]; simpl; [reflexivity|].
  destruct (p d); [discriminate|]. intros E. rewrite IH by exact E. reflexivity.
Qed.

Lemma filter_nil_weaken (p q : item -> bool) (ds : list item) :
  (forall d, p d = true -> q d = true) ->
  List.filter q ds = [] -> List.filter p ds = [].
Proof.
  intros Hpq. induction ds as [|d ds IH]; simpl; [reflexivity|].
  destruct (q d) eqn:Eq; [discriminate|].
  destruct (p d) eqn:Ep.
  - apply Hpq in Ep. congruence.
  - exact IH.
Qed.

Lemma remove_first_some_filter (p q : item -> bool) (ds r : list item) :
  (forall d, p d = true -> q d = true) ->
  remove_first p ds = Some r ->
  List.filter q ds <> [].
Proof.
  intros Hpq. revert r.
  induction ds as [|d ds IH]; simpl; intros r Hr; [discriminate|].
  destruct (p d) eqn:Ep.
  - rewrite (Hpq _ Ep). discriminate.
  - destruct (remove_first p ds) as [r'|] eqn:Er; [|discriminate].
    destruct (q d); [discriminate|]. eapply IH. reflexivity.
Qed.

(** Removing a document that the query selects, from a container in which
    the query selects exactly one, leaves none. *)
Lemma remove_first_only (p q : item -> bool) (ds r : list item) (x : item) :
  (forall d, p d = true -> q d = true) ->
  remove_first p ds = Some r ->
  List.filter q ds = [x] ->
  List.filter q r = [].
Proof.
  intros Hpq. revert r.
  induction ds as [|d ds IH]; simpl; intros r Hr Hf; [discriminate|].
  destruct (p d) eqn:Ep.
  - injection Hr as <-. rewrite (Hpq _ Ep) in Hf. congruence.
  - destruct (remove_first p ds) as [r'|] eqn:Er; [|discriminate].
    injection Hr as <-. simpl.
    destruct (q d) eqn:Eq.
    + exfalso. apply (remove_first_some_filter p q ds r' Hpq Er). congruence.
    + apply IH; auto.
Qed.

Lemma work_orders_inv (db db1 : Database) (r : result Container) :
  work_orders db = (r, db1) ->
  db1 = db /\
  (forall c, r = Ok c -> available db = true /\ WorkOrders db = Some c).
Proof.
  unfold work_orders. destruct (available db); simpl.
  - destruct (WorkOrders db); intros E; injection E as <- <-; split; auto;
      intros c' Hc; inversion Hc; auto.
  - intros E; injection E as <- <-; split; auto; discriminate.
Qed.

Lemma work_orders_ok (db : Database) (c : Container) :
  available db = true -> WorkOrders db = Some c -> work_orders db = (Ok c, db).
Proof. intros Ha Hc. unfold work_orders. rewrite Ha, Hc. reflexivity. Qed.

(** Reading a work order does not change the store. *)
Lemma get_work_order_state (i : string) (db db1 : Database) (r : result WorkOrder) :
  get_work_order i db = (r, db1) -> db1 = db.
Proof.
  unfold get_work_order, try_except_class, bind, query_items_by_id, bind, ret,
    raise, lift.
  destruct (work_orders db) as [[c|e] db2] eqn:Ew;
    apply work_orders_inv in Ew as [-> _].
  - destruct (List.filter _ (docs c)); simpl.
    + intros E; injection E as _ <-; reflexivity.
    + destruct (work_order_of_item i0); simpl.
      * intros E; injection E as _ <-; reflexivity.
      * destruct (is_CosmosHttpResponseError e); intros E; injection E as _ <-;
          reflexivity.
  - destruct (is_CosmosHttpResponseError e); intros E; injection E as _ <-;
      reflexivity.
Qed.

Lemma get_work_order_ok_inv (i : string) (db db1 : Database) (wo : WorkOrder) :
  get_work_order i db = (Ok wo, db1) ->
  available db = true /\
  exists c it rest,
    WorkOrders db = Some c /\
    List.filter (has_id i) (docs c) = it :: rest /\
    work_order_of_item it = Ok wo.
Proof.
  unfold get_work_order, try_except_class, bind, query_items_by_id, bind, ret,
    raise, lift.
  destruct (work_orders db) as [[c|e] db2] eqn:Ew.
  - apply work_orders_inv in Ew as [-> Hc].
    destruct (Hc c eq_refl) as [Ha Hw].
    change (fun d : item => match lookup_key d "id" with
                            | Some v => json_eqb_str v i
                            | None => false
                            end) with (has_id i).
    destruct (List.filter (has_id i) (docs c)) as [|it rest] eqn:Ef; simpl.
    + discriminate.
    + destruct (work_order_of_item it) as [w|e] eqn:Ep; simpl.
      * intros E; injection E as <- _. split; [exact Ha|].
        exists c, it, rest. auto.
      * destruct (is_CosmosHttpResponseError e); discriminate.
  - destruct (is_CosmosHttpResponseError e); discriminate.
Qed.

Lemma get_work_order_ok (i : string) (db : Database) (c : Container)
    (it : item) (rest : list item) (wo : WorkOrder) :
  available db = true ->
  WorkOrders db = Some c ->
  List.filter (has_id i) (docs c) = it :: rest ->
  work_order_of_item it = Ok wo ->
  get_work_order i db = (Ok wo, db).
Proof.
  intros Ha Hc Hf Hp.
  unfold get_work_order, try_except_class, bind, query_items_by_id, bind, ret,
    raise, lift.
  rewrite (work_orders_ok db c Ha Hc).
  change (fun d : item => match lookup_key d "id" with
                          | Some v => json_eqb_str v i
                          | None => false
                          end) with (has_id i).
  rewrite Hf. simpl. rewrite Hp. reflexivity.
Qed.

(** What [get_work_order] makes of the document that
    [update_work_order_status] writes. *)
Lemma work_order_item_roundtrip (wo : WorkOrder) (st : string) :
  (forall d, isoformat d <> "" /\ fromisoformat (replace_Z (isoformat d)) = Some d) ->
  work_order_of_item (work_order_item wo st) = Ok (with_status wo (JStr st)).
Proof.
  intros Hiso. unfold work_order_of_item, work_order_item, get. simpl.
  rewrite required_parts_roundtrip. unfold with_status. f_equal. f_equal.
  unfold _parse_datetime. destruct (created_at wo) as [d|]; simpl; [|reflexivity].
  destruct (Hiso d) as [Hne Hrt].
  destruct (isoformat d) eqn:Ei; [congruence|]. simpl. simpl in Hrt. exact Hrt.
Qed.

Lemma delete_item_ok_inv (i : string) (pk : json) (db db1 : Database) :
  delete_item i pk db = (Ok tt, db1) ->
  exists c ds,
    available db = true /\
    WorkOrders db = Some c /\
    remove_first (doc_at (pk_path c) (JStr i) pk) (docs c) = Some ds /\
    db1 = put_docs db (pk_path c) ds.
Proof.
  unfold delete_item, bind.
  destruct (work_orders db) as [[c|e] db2] eqn:Ew; [|discriminate].
  apply work_orders_inv in Ew as [-> Hc]. destruct (Hc c eq_refl) as [Ha Hw].
  destruct (remove_first _ (docs c)) as [ds|] eqn:Er; [|discriminate].
  unfold set_work_orders, modify. intros E. injection E as <-.
  exists c, ds. repeat split; auto.
Qed.

Lemma upsert_item_ok_inv (body : item) (db db1 : Database) :
  upsert_item body db = (Ok tt, db1) ->
  exists c iv pk,
    available db = true /\
    WorkOrders db = Some c /\
    lookup_key body "id" = Some iv /\
    lookup_key body (pk_path c) = Some pk /\
    db1 = put_docs db (pk_path c)
            (replace_or_append (doc_at (pk_path c) iv pk) body (docs c)).
Proof.
  unfold upsert_item, bind.
  destruct (work_orders db) as [[c|e] db2] eqn:Ew; [|discriminate].
  apply work_orders_inv in Ew as [-> Hc]. destruct (Hc c eq_refl) as [Ha Hw].
  destruct (lookup_key body "id") as [iv|] eqn:Ei; [|discriminate].
  destruct (lookup_key body (pk_path c)) as [pk|] eqn:Ek; [|discriminate].
  unfold set_work_orders, modify. intros E. injection E as <-.
  exists c, iv, pk. repeat split; auto.
Qed.

Lemma work_order_of_item_id (it : item) (wo : WorkOrder) :
  work_order_of_item it = Ok wo -> wo_id wo = get it "id" (JStr "").
Proof.
  unfold work_order_of_item.
  destruct (iterate _); [|discriminate].
  destruct (required_parts_of _); [|discriminate].
  intros E. injection E as <-. reflexivity.
Qed.

Lemma work_order_of_item_inv (it : item) (wo : WorkOrder) :
  work_order_of_item it = Ok wo ->
  exists ps parts,
    iterate (get it "requiredParts" (JArr [])) = Ok ps /\
    required_parts_of ps = Ok parts /\
    wo = {| wo_id := get it "id" (JStr "");
            machine_id := get it "machineId" (JStr "");
            fault_type := get it "faultType" (JStr "");
            priority := get it "priority" (JStr "");
            assigned_technician := get it "assignedTechnician" (JStr "");
            required_parts := parts;
            estimated_duration := get it "estimatedDuration" (JNum 0);
            created_at := _parse_datetime (get it "createdAt" JNull);
            status := get it "status" (JStr "Created") |}.
Proof.
  unfold work_order_of_item.
  destruct (iterate _) as [ps|]; [|discriminate].
  destruct (required_parts_of ps) as [parts|] eqn:Ep; [|discriminate].
  intros E. injection E as <-. exists ps, parts. auto.
Qed.

(** Every stored part is an object, and is written back as its four known
    keys. *)
Lemma required_parts_of_rebuilds (ps : list json) (parts : list RequiredPart) :
  required_parts_of ps = Ok parts ->
  Forall2 (fun p p' => exists d, p = JObj d /\ p' = four_keys_of d)
          ps (map required_part_item parts).
Proof.
  revert parts. induction ps as [|p ps IH]; simpl; intros parts E.
  - injection E as <-. constructor.
  - destruct (required_part_of p) as [r|] eqn:Ep; [|discriminate].
    destruct (required_parts_of ps) as [rs|]; [|discriminate].
    injection E as <-. simpl. constructor; [|apply IH; reflexivity].
    destruct p; simpl in Ep; try discriminate.
    injection Ep as <-. eexists. split; reflexivity.
Qed.

Lemma rebuilt_canonical (ps ps' : list json) :
  Forall canonical_part ps ->
  Forall2 (fun p p' => exists d, p = JObj d /\ p' = four_keys_of d) ps ps' ->
  ps' = ps.
Proof.
  intros Hc H2. induction H2 as [|p p' ps ps' (d & Hp & Hp') _ IH]; [reflexivity|].
  inversion Hc as [|? ? (number & name & qty & avail & Hcan) Hrest]; subst.
  injection Hcan as ->. rewrite (IH Hrest). reflexivity.
Qed.

Lemma find_filter_head (p : item -> bool) (ds : list item) (x : item)
    (rest : list item) :
  List.filter p ds = x :: rest -> List.find p ds = Some x.
Proof.
  induction ds as [|d ds IH]; simpl; [discriminate|].
  destruct (p d); [|exact IH]. intros E. injection E as -> _. reflexivity.
Qed.

Lemma has_id_lookup (i : string) (d : item) :
  has_id i d = true -> lookup_key d "id" = Some (JStr i).
Proof.
  unfold has_id. destruct (lookup_key d "id") as [v|]; [|discriminate].
  intros E. apply json_eqb_str_true in E. congruence.
Qed.

(** C10, as stated, fails: the stored [createdAt] of the order in
    [db_one_order] is the text with the suffix [Z]; the call parses it and
    writes the time back as [isoformat] prints it, with [+00:00], so a field
    other than the status has changed in the stored item. *)
Lemma update_work_order_status_rewrites_created_at :
  ~ only_status_changed db_one_order
      (snd (@update_work_order_status one_instant_runtime
              "wo-2024-468" "Ready" db_one_order))
      "wo-2024-468" "Ready".
Proof.
  intros (it & it' & Hit & Hit' & _ & Hkept).
  vm_compute in Hit. injection Hit as <-.
  vm_compute in Hit'. injection Hit' as <-.
  specialize (Hkept "createdAt").
  assert (Hin : In "createdAt" kept_fields) by (unfold kept_fields; simpl; tauto).
  specialize (Hkept Hin). vm_compute in Hkept. discriminate Hkept.
Qed.

(** What the call leaves of an item with a creation time that does not
    parse, an unknown key and a part with a fifth key: [createdAt] is
    [null], [notes] and [bin] are gone, and the keys the item lacked are
    there with their defaults. *)
Example update_work_order_status_drops_unknown :
  stored_item
    (snd (@update_work_order_status one_instant_runtime
            "wo-2024-468" "Ready" db_annotated_order)) "wo-2024-468"
  = Some [("id", JStr "wo-2024-468");
          ("machineId", JStr "machine-001");
          ("faultType", JStr "");
          ("priority", JStr "");
          ("assignedTechnician", JStr "");
          ("requiredParts",
           JArr [JObj [("partNumber", JStr "P-1"); ("partName", JStr "Bearing");
                       ("quantity", JNum 2); ("isAvailable", JBool true)]]);
          ("estimatedDuration", JNum 0);
          ("createdAt", JNull);
          ("status", JStr "Ready")].
Proof. reflexivity. Qed.

(** C10 (amended): a call of [update_work_order_status] that returns
    normally replaces the stored item [it0] of the id by a document [it'] of
    exactly nine keys, rebuilt from what [get_work_order] read.  Compared
    with the stored item: the status is the new one and the id is the same;
    machineId, faultType, priority, assignedTechnician and estimatedDuration
    have their stored values, or the default of the read where the stored
    item lacks them; requiredParts is written back part by part as the four
    known keys of each stored part, and is the stored list when every stored
    part has exactly those; createdAt is the stored value parsed, with every
    [Z] read as [+00:00], and printed again, and [null] when it is absent,
    falsy or does not parse; keys outside the nine are dropped.  When parsing
    inverts printing, the creation time read from the new item is the one
    read from the stored item, and the new item reads as the same work order
    with only the status replaced. *)
Theorem update_work_order_status_rewrites_item (i st : string)
    (db db' : Database) :
  update_work_order_status i st db = (Ok tt, db') ->
  exists c c' it0 rest it',
    WorkOrders db = Some c /\
    WorkOrders db' = Some c' /\
    List.filter (has_id i) (docs c) = it0 :: rest /\
    stored_item db i = Some it0 /\
    In it' (docs c') /\
    has_id i it' = true /\
    (rest = [] -> List.filter (has_id i) (docs c') = [it'] /\
                  stored_item db' i = Some it') /\
    map fst it' = work_order_keys /\
    lookup_key it' "status" = Some (JStr st) /\
    lookup_key it' "id" = lookup_key it0 "id" /\
    (forall k, In k scalar_fields ->
       lookup_key it' k = Some (get it0 k (field_default k))) /\
    (exists ps ps',
       iterate (get it0 "requiredParts" (JArr [])) = Ok ps /\
       lookup_key it' "requiredParts" = Some (JArr ps') /\
       Forall2 (fun p p' => exists d, p = JObj d /\ p' = four_keys_of d) ps ps') /\
    (forall ps, lookup_key it0 "requiredParts" = Some (JArr ps) ->
       Forall canonical_part ps ->
       lookup_key it' "requiredParts" = Some (JArr ps)) /\
    lookup_key it' "createdAt"
    = Some (match lookup_key it0 "createdAt" with
            | Some v =>
                if json_truthy v then
                  match fromisoformat (replace_Z (str v)) with
                  | Some d => JStr (isoformat d)
                  | None => JNull
                  end
                else JNull
            | None => JNull
            end) /\
    ((forall d, isoformat d <> "" /\
                fromisoformat (replace_Z (isoformat d)) = Some d) ->
     _parse_datetime (get it' "createdAt" JNull)
     = _parse_datetime (get it0 "createdAt" JNull) /\
     exists wo,
       get_work_order i db = (Ok wo, db) /\
       work_order_of_item it0 = Ok wo /\
       work_order_of_item it' = Ok (with_status wo (JStr st)) /\
       (rest = [] ->
        get_work_order i db' = (Ok (with_status wo (JStr st)), db'))).
Proof.
  intros Hup.
  unfold update_work_order_status, bind in Hup.
  destruct (get_work_order i db) as [[wo|e] db1] eqn:Eg; [|discriminate].
  pose proof (get_work_order_state _ _ _ _ Eg) as ->.
  destruct (get_work_order_ok_inv _ _ _ _ Eg) as (Ha & c & it0 & rest & Hc & Hf & Hp).
  destruct (delete_item i (status wo) db) as [[[]|e] db1] eqn:Ed; [|discriminate].
  apply delete_item_ok_inv in Ed as (c1 & ds & _ & Hc1 & Er & ->).
  assert (c1 = c) as -> by congruence.
  apply upsert_item_ok_inv in Hup as (c2 & iv & pk & _ & Hc2 & Hiv & Hpk & ->).
  simpl in Hc2. injection Hc2 as <-. simpl in Hpk.
  assert (Hid0 : has_id i it0 = true).
  { assert (Hin : In it0 (List.filter (has_id i) (docs c)))
      by (rewrite Hf; left; reflexivity).
    apply filter_In in Hin. tauto. }
  assert (Hwid : wo_id wo = JStr i).
  { rewrite (work_order_of_item_id _ _ Hp). apply has_id_get. exact Hid0. }
  assert (iv = JStr i) as ->.
  { unfold work_order_item in Hiv. simpl in Hiv. congruence. }
  assert (Hidit : has_id i (work_order_item wo st) = true).
  { unfold has_id, work_order_item. simpl. rewrite Hwid. simpl.
    apply String.eqb_refl. }
  destruct (work_order_of_item_inv _ _ Hp) as (ps & parts & Hiter & Hparts & Hwo).
  assert (Hfilter : rest = [] ->
    List.filter (has_id i)
      (replace_or_append (doc_at (pk_path c) (JStr i) pk)
         (work_order_item wo st) ds) = [work_order_item wo st]).
  { intros ->.
    assert (Hnone : List.filter (has_id i) ds = []).
    { eapply remove_first_only; [|exact Er|exact Hf].
      intros d. apply doc_at_has_id. }
    rewrite replace_or_append_none.
    - rewrite List.filter_app, Hnone. simpl. rewrite Hidit. reflexivity.
    - eapply filter_nil_weaken; [|exact Hnone].
      intros d. apply doc_at_has_id. }
  exists c. eexists. exists it0, rest, (work_order_item wo st).
  split; [exact Hc|]. split; [reflexivity|]. split; [exact Hf|].
  split; [unfold stored_item; rewrite Hc; apply (find_filter_head _ _ _ _ Hf)|].
  cbn [docs pk_path].
  split; [apply In_replace_or_append|].
  split; [exact Hidit|].
  split.
  { intros Hrest. split; [exact (Hfilter Hrest)|].
    unfold stored_item, put_docs. cbn [WorkOrders docs].
    apply (find_filter_head _ _ _ _ (Hfilter Hrest)). }
  split; [reflexivity|].
  split; [reflexivity|].
  split.
  { unfold work_order_item. cbn [lookup_key String.eqb Ascii.eqb Bool.eqb].
    rewrite Hwid. symmetry. apply has_id_lookup. exact Hid0. }
  split.
  { intros k Hk. rewrite Hwo. unfold scalar_fields in Hk. simpl in Hk.
    destruct Hk as [<-|[<-|[<-|[<-|[<-|[]]]]]]; reflexivity. }
  split.
  { exists ps, (map required_part_item parts).
    split; [exact Hiter|]. split; [rewrite Hwo; reflexivity|].
    apply required_parts_of_rebuilds. exact Hparts. }
  split.
  { intros ps0 Hps0 Hcan.
    assert (ps = ps0) as <-.
    { unfold get in Hiter. rewrite Hps0 in Hiter. simpl in Hiter. congruence. }
    rewrite Hwo. cbn [work_order_item lookup_key String.eqb Ascii.eqb Bool.eqb
                      required_parts].
    do 2 f_equal. apply rebuilt_canonical; [exact Hcan|].
    apply required_parts_of_rebuilds. exact Hparts. }
  split.
  { rewrite Hwo. cbn [work_order_item lookup_key String.eqb Ascii.eqb Bool.eqb
                      created_at].
    f_equal. unfold _parse_datetime, get.
    destruct (lookup_key it0 "createdAt") as [v|]; [|reflexivity].
    destruct (json_truthy v); [|reflexivity]. reflexivity. }
  intros Hiso. split.
  { rewrite Hwo. unfold get at 1.
    cbn [work_order_item lookup_key String.eqb Ascii.eqb Bool.eqb created_at].
    destruct (_parse_datetime (get it0 "createdAt" JNull)) as [d|]; [|reflexivity].
    destruct (Hiso d) as [Hne Hrt]. unfold _parse_datetime, str.
    destruct (isoformat d) eqn:Ei; [congruence|]. simpl. simpl in Hrt. exact Hrt. }
  exists wo. split; [reflexivity|]. split; [exact Hp|].
  split; [apply work_order_item_roundtrip; exact Hiso|].
  intros Hrest.
  eapply get_work_order_ok with (it := work_order_item wo st) (rest := []).
  - exact Ha.
  - reflexivity.
  - exact (Hfilter Hrest).
  - apply work_order_item_roundtrip. exact Hiso.
Qed.

End WorkOrderStore.

(** The amended statement on a container that holds one order, moved from
    [Created] to [Ready]. *)
Lemma update_work_order_status_rewrites_item_witness :
  let H := Cosmos.one_instant_runtime in
  let db := Cosmos.db_one_order in
  let db' := snd (Cosmos.update_work_order_status "wo-2024-468" "Ready" db) in
  exists it0 it',
    Cosmos.stored_item db "wo-2024-468" = Some it0 /\
    Cosmos.stored_item db' "wo-2024-468" = Some it' /\
    map fst it' = Cosmos.work_order_keys /\
    Cosmos.lookup_key it' "status" = Some (Cosmos.JStr "Ready") /\
    Cosmos.lookup_key it' "machineId" = Cosmos.lookup_key it0 "machineId" /\
    Cosmos.lookup_key it' "requiredParts" = Cosmos.lookup_key it0 "requiredParts" /\
    Cosmos.lookup_key it0 "createdAt" = Some (Cosmos.JStr "2024-03-01T08:00:00Z") /\
    Cosmos.lookup_key it' "createdAt"
    = Some (Cosmos.JStr "2024-03-01T08:00:00+00:00").
Proof.
  intros H db db'.
  destruct (@update_work_order_status_rewrites_item H "wo-2024-468" "Ready"
              db db' eq_refl)
    as (c & c' & it0 & rest & it' & Hc & Hc' & Hf & Hs0 & _ & _ & Huniq & Hkeys
        & Hst & _ & Hscalar & _ & Hparts & Hcreated & _).
  assert (Hit0 : Cosmos.stored_item db "wo-2024-468"
                 = Some (hd [] (default [] (option_map Cosmos.docs
                                              (Cosmos.WorkOrders db)))))
    by reflexivity.
  rewrite Hs0 in Hit0. injection Hit0 as Hit0.
  assert (Hrest : rest = []).
  { subst it0. vm_compute in Hc. injection Hc as <-.
    vm_compute in Hf. injection Hf as <-. reflexivity. }
  destruct (Huniq Hrest) as [_ Hs'].
  exists it0, it'. split; [exact Hs0|]. split; [exact Hs'|].
  split; [exact Hkeys|]. split; [exact Hst|].
  split.
  { rewrite (Hscalar "machineId" (or_introl eq_refl)). subst it0. reflexivity. }
  split.
  { subst it0. apply Hparts; [reflexivity|].
    constructor; [|constructor]. repeat eexists. }
  split; [subst it0; reflexivity|].
  rewrite Hcreated. subst it0. reflexivity.
Defined.

(** ** The A2A executors *)
Section ExecutorFacts.
Import Agents.
Context `{Cosmos.Runtime} {W : Type} `{!Collaborators W}.

Lemma keeps_queue_ret {A} (a : A) : keeps_queue (ret a : M (@ExecState W) A).
Proof. intros st r st1 E. injection E as _ <-. auto. Qed.

Lemma keeps_queue_lift {A} (r : result A) :
  keeps_queue (lift r : M (@ExecState W) A).
Proof. intros st r' st1 E. injection E as _ <-. auto. Qed.

Lemma keeps_queue_call {A} (m : M W A) : keeps_queue (call m).
Proof.
  intros st r st1. unfold call. destruct (m (world st)) as [r' w'].
  intros E. injection E as _ <-. auto.
Qed.

Lemma keeps_queue_bind {A B} (m : M (@ExecState W) A) (k : A -> M (@ExecState W) B) :
  keeps_queue m -> (forall a, keeps_queue (k a)) -> keeps_queue (bind m k).
Proof.
  intros Hm Hk st r st1. unfold bind.
  destruct (m st) as [[a|e] st2] eqn:Em.
  - intros Ek. destruct (Hm _ _ _ Em) as [Hq Hu].
    destruct (Hk a _ _ _ Ek) as [Hq' Hu']. split; congruence.
  - intros E. injection E as _ <-. exact (Hm _ _ _ Em).
Qed.

Ltac frame_steps :=
  repeat first
    [ apply keeps_queue_ret | apply keeps_queue_lift | apply keeps_queue_call
    | apply keeps_queue_bind; [|intros ?] ].

Lemma maintenance_try_keeps_queue (environ : gmap string string)
    (message : option Message) :
  keeps_queue (maintenance_try environ message).
Proof.
  unfold maintenance_try.
  destruct (negb (all _)); frame_steps.
Qed.

Lemma parts_try_keeps_queue (environ : gmap string string)
    (message : option Message) :
  keeps_queue (parts_try environ message).
Proof.
  unfold parts_try.
  destruct (negb (all _)); frame_steps.
  destruct (List.filter _ _); frame_steps.
  match goal with |- keeps_queue (match ?l with [] => _ | _ => _ end) =>
    destruct l
  end; frame_steps.
Qed.

Lemma try_body_keeps_queue (ex : executor) (environ : gmap string string)
    (message : option Message) :
  keeps_queue (try_body ex environ message).
Proof.
  destruct ex; [apply maintenance_try_keeps_queue|apply parts_try_keeps_queue].
Qed.

(** One invocation, whatever the [try] body does: its text, or the error
    text when it raised, is sent under the next uuid. *)
Lemma execute_run (ex : executor) (environ : gmap string string)
    (message : option Message) (st : @ExecState W) :
  execute ex environ message st
  = let (r, st1) := try_body ex environ message st in
    (Ok tt,
     {| world := world st1;
        event_queue := event_queue st ++
          [response_message (uuid4 (uuids_drawn st))
             match r with Ok t => t | Raise e => error_text ex e end];
        uuids_drawn := S (uuids_drawn st) |}).
Proof.
  pose proof (try_body_keeps_queue ex environ message st) as Hk.
  destruct ex; unfold execute, maintenance_execute, parts_execute, bind,
    try_except, send_response, bind, new_uuid, enqueue_event, modify, ret;
    simpl try_body in *; simpl error_text.
  - destruct (maintenance_try environ message st) as [[t|e] st1];
      destruct (Hk _ _ eq_refl) as [-> ->]; reflexivity.
  - destruct (parts_try environ message st) as [[t|e] st1];
      destruct (Hk _ _ eq_refl) as [-> ->]; reflexivity.
Qed.

Lemma execute_sends_one (ex : executor)
    (environ : gmap string string) (message : option Message) (st : @ExecState W) :
  exists text st',
    execute ex environ message st = (Ok tt, st') /\
    event_queue st' =
      (event_queue st ++
       [response_message (uuid4 (uuids_drawn st)) text])%list /\
    uuids_drawn st' = S (uuids_drawn st).
Proof.
  rewrite execute_run.
  destruct (try_body ex environ message st) as [r st1].
  eexists. eexists. split; [reflexivity|]. simpl. auto.
Qed.

(** C3: every invocation of either executor returns normally and adds
    exactly one message to the event queue, on the success path and on the
    error path alike; the message carries the next id drawn from
    [uuid.uuid4] (one draw per invocation), the role ["agent"] and exactly
    one text part. *)
Theorem execute_enqueues_exactly_one (ex : executor)
    (environ : gmap string string) (message : option Message) (st : @ExecState W) :
  exists text st',
    execute ex environ message st = (Ok tt, st') /\
    event_queue st' =
      (event_queue st ++
       [ {| messageId := uuid4 (uuids_drawn st);
            role := "agent";
            parts := [ {| root := TextPart text |} ] |} ])%list /\
    length (event_queue st') = S (length (event_queue st)) /\
    uuids_drawn st' = S (uuids_drawn st).
Proof.
  rewrite execute_run.
  destruct (try_body ex environ message st) as [r st1].
  eexists. eexists. split; [reflexivity|]. simpl.
  split; [reflexivity|]. split; [|reflexivity].
  rewrite length_app. simpl. lia.
Qed.

(** Two invocations in a row carry different message ids when [uuid.uuid4]
    does not repeat itself. *)
Lemma execute_fresh_ids (ex1 ex2 : executor) (environ : gmap string string)
    (m1 m2 : option Message) (st st1 st2 : @ExecState W) :
  (forall i j, uuid4 i = uuid4 j -> i = j) ->
  execute ex1 environ m1 st = (Ok tt, st1) ->
  execute ex2 environ m2 st1 = (Ok tt, st2) ->
  exists a b, event_queue st2 = (event_queue st ++ [a; b])%list /\
              messageId a <> messageId b.
Proof.
  intros Hinj E1 E2.
  destruct (execute_sends_one ex1 environ m1 st)
    as (t1 & s1 & F1 & Q1 & U1).
  destruct (execute_sends_one ex2 environ m2 st1)
    as (t2 & s2 & F2 & Q2 & U2).
  rewrite E1 in F1. injection F1 as <-. rewrite E2 in F2. injection F2 as <-.
  eexists. eexists. split.
  - rewrite Q2, Q1, <- app_assoc. reflexivity.
  - simpl. rewrite U1. intros E. apply Hinj in E. lia.
Qed.

(** C2: when the [try] body of an executor raises (the wrapped agent call
    or any other call in it), [execute] still returns normally, and the
    message it enqueues has as its text the prefix ["Error processing"], the
    name of the request, and the description [str(e)] of the failure. *)
Theorem execute_converts_failure (ex : executor)
    (environ : gmap string string) (message : option Message)
    (st st1 : @ExecState W) (e : exn) :
  try_body ex environ message st = (Raise e, st1) ->
  exists st' m what,
    execute ex environ message st = (Ok tt, st') /\
    event_queue st' = (event_queue st ++ [m])%list /\
    parts m = [ {| root := TextPart (error_text ex e) |} ] /\
    error_text ex e = "Error processing" ++ what ++ exc_str e /\
    String.prefix "Error processing" (error_text ex e) = true.
Proof.
  intros Hraise. rewrite execute_run, Hraise.
  eexists. eexists.
  exists (match ex with
          | MaintenanceSchedulerExecutor => " maintenance schedule request: "
          | PartsOrderingExecutor => " parts order request: "
          end).
  split; [reflexivity|]. simpl. split; [reflexivity|]. split; [reflexivity|].
  split.
  - destruct ex; reflexivity.
  - apply prefix_spec. destruct ex; eexists; reflexivity.
Qed.

(** A failing agent call is one way for the [try] body to raise. *)
Lemma maintenance_agent_failure (environ : gmap string string)
    (message : option Message) (st : @ExecState W) (e : exn)
    (w1 w2 w3 w4 w5 : W) (wo : Cosmos.WorkOrder) (h : History) (ws : Windows) :
  let database_name :=
    or_else (getenv environ "COSMOS_DATABASE_NAME") (getenv environ "COSMOS_DATABASE") in
  let project_endpoint :=
    or_else (getenv environ "AI_FOUNDRY_PROJECT_ENDPOINT")
            (getenv environ "AZURE_AI_PROJECT_ENDPOINT") in
  all [truthy_opt (getenv environ "COSMOS_ENDPOINT");
       truthy_opt (getenv environ "COSMOS_KEY");
       truthy_opt database_name; truthy_opt project_endpoint] = true ->
  CosmosDbService (default "" (getenv environ "COSMOS_ENDPOINT"))
    (default "" (getenv environ "COSMOS_KEY")) (default "" database_name) (world st)
    = (Ok tt, w1) ->
  get_work_order (resolve_work_order_id (extract_input_text message)) w1
    = (Ok wo, w2) ->
  get_maintenance_history (Cosmos.machine_id wo) w2 = (Ok h, w3) ->
  get_available_maintenance_windows 14 w3 = (Ok ws, w4) ->
  predict_schedule (default "" project_endpoint)
    (getenv_default environ "MODEL_DEPLOYMENT_NAME" "gpt-4o") wo h ws w4
    = (Raise e, w5) ->
  exists st1, maintenance_try environ message st = (Raise e, st1).
Proof.
  intros database_name project_endpoint Hall Hc Hg Hh Hw Hp.
  subst database_name project_endpoint.
  unfold maintenance_try. cbv zeta. rewrite Hall. cbn [negb].
  unfold bind, call. rewrite Hc. cbn [world]. rewrite Hg. cbn [world].
  rewrite Hh. cbn [world]. rewrite Hw. cbn [world]. rewrite Hp.
  eexists. reflexivity.
Qed.

Lemma parts_agent_failure (environ : gmap string string)
    (message : option Message) (st : @ExecState W) (e : exn)
    (w1 w2 w3 w4 w5 : W) (wo : Cosmos.WorkOrder) (inv : Inventory)
    (p : Cosmos.RequiredPart) (ps : list Cosmos.RequiredPart)
    (sup : Supplier) (sups : list Supplier) :
  let database_name :=
    or_else (getenv environ "COSMOS_DATABASE_NAME") (getenv environ "COSMOS_DATABASE") in
  let project_endpoint :=
    or_else (getenv environ "AI_FOUNDRY_PROJECT_ENDPOINT")
            (getenv environ "AZURE_AI_PROJECT_ENDPOINT") in
  all [truthy_opt (getenv environ "COSMOS_ENDPOINT");
       truthy_opt (getenv environ "COSMOS_KEY");
       truthy_opt database_name; truthy_opt project_endpoint] = true ->
  CosmosDbService (default "" (getenv environ "COSMOS_ENDPOINT"))
    (default "" (getenv environ "COSMOS_KEY")) (default "" database_name) (world st)
    = (Ok tt, w1) ->
  get_work_order (resolve_work_order_id (extract_input_text message)) w1
    = (Ok wo, w2) ->
  get_inventory_items (map Cosmos.part_number (Cosmos.required_parts wo)) w2
    = (Ok inv, w3) ->
  List.filter (fun p => negb (Cosmos.json_truthy (Cosmos.is_available p)))
    (Cosmos.required_parts wo) = p :: ps ->
  get_suppliers_for_parts (map Cosmos.part_number (p :: ps)) w3
    = (Ok (sup :: sups), w4) ->
  generate_order (default "" project_endpoint)
    (getenv_default environ "MODEL_DEPLOYMENT_NAME" "gpt-4o") wo inv (sup :: sups) w4
    = (Raise e, w5) ->
  exists st1, parts_try environ message st = (Raise e, st1).
Proof.
  intros database_name project_endpoint Hall Hc Hg Hi Hf Hs Ho.
  subst database_name project_endpoint.
  unfold parts_try. cbv zeta. rewrite Hall. cbn [negb].
  unfold bind, call. rewrite Hc. cbn [world]. rewrite Hg. cbn [world].
  rewrite Hi. cbn [world]. rewrite Hf. cbv beta iota. cbn [world]. rewrite Hs.
  cbn [world]. cbv beta iota. cbn [world]. rewrite Ho.
  eexists. reflexivity.
Qed.

Lemma first_text_none (ps : list Part) :
  Forall (fun p => forall t, root p <> TextPart t) ps -> first_text ps = None.
Proof.
  induction 1 as [|p ps Hp _ IH]; [reflexivity|].
  simpl. destruct (root p) as [t| |] eqn:Er; [|exact IH|exact IH].
  exfalso. exact (Hp t eq_refl).
Qed.

Lemma first_text_rev_app (l k : list Part) :
  first_text l = None -> first_text (rev l ++ k) = first_text k.
Proof.
  revert k. induction l as [|x l IH]; intros k Hl; [reflexivity|].
  simpl in Hl. destruct (root x) eqn:Ex; try discriminate;
    simpl; rewrite <- app_assoc, IH by exact Hl; simpl; rewrite Ex; reflexivity.
Qed.

(** C4: the input text of a request is the text of its last part that
    carries text: the parts after it, which carry none, are skipped, and the
    parts before it are never looked at, whatever they carry. *)
Theorem extract_input_text_last (message : Message) (before after : list Part)
    (t : string) :
  parts message = (before ++ {| root := TextPart t |} :: after)%list ->
  Forall (fun p => forall t', root p <> TextPart t') after ->
  extract_input_text (Some message) = t.
Proof.
  intros Hparts Hafter. apply first_text_none in Hafter.
  unfold extract_input_text. rewrite Hparts.
  destruct (before ++ {| root := TextPart t |} :: after)%list as [|p ps] eqn:E.
  - destruct before; discriminate.
  - rewrite <- E. rewrite rev_app_distr. simpl rev. rewrite <- app_assoc.
    rewrite first_text_rev_app by exact Hafter. reflexivity.
Qed.

Lemma try_body_resolve (ex : executor) (environ : gmap string string)
    (m m' : option Message) :
  resolve_work_order_id (extract_input_text m)
  = resolve_work_order_id (extract_input_text m') ->
  try_body ex environ m = try_body ex environ m'.
Proof.
  intros E. destruct ex; unfold try_body, maintenance_try, parts_try; cbv zeta;
    rewrite E; reflexivity.
Qed.

Lemma execute_resolve (ex : executor) (environ : gmap string string)
    (m m' : option Message) (st : @ExecState W) :
  resolve_work_order_id (extract_input_text m)
  = resolve_work_order_id (extract_input_text m') ->
  execute ex environ m st = execute ex environ m' st.
Proof.
  intros E. rewrite !execute_run, (try_body_resolve ex environ m m' E).
  reflexivity.
Qed.

(** C8: [extract_work_order_id] returns the leftmost substring of the shape
    wo-dddd-hex (either case), taken as long as possible, and [None] when
    the text holds none; when the input text is empty or holds no id, each
    executor goes on exactly as it does for the text ["wo-2024-468"]. *)
Theorem extract_work_order_id_and_fallback :
  (forall text,
     match extract_work_order_id text with
     | Some m =>
         exists pre suf,
           text = pre ++ m ++ suf /\ is_work_order_id m = true /\
           forall pre' m' suf',
             text = pre' ++ m' ++ suf' -> is_work_order_id m' = true ->
             String.length pre <= String.length pre' /\
             (String.length pre' = String.length pre ->
              String.length m' <= String.length m)
     | None =>
         forall pre m suf, text = pre ++ m ++ suf -> is_work_order_id m = false
     end) /\
  (forall (ex : executor) (environ : gmap string string)
          (message : option Message) (st : @ExecState W),
     extract_input_text message = "" \/
     extract_work_order_id (extract_input_text message) = None ->
     resolve_work_order_id (extract_input_text message) = "wo-2024-468" /\
     execute ex environ message st
     = execute ex environ (Some default_request) st).
Proof.
  split; [exact extract_work_order_id_spec|].
  intros ex environ message st Hno.
  assert (Hres : resolve_work_order_id (extract_input_text message) = "wo-2024-468").
  { unfold resolve_work_order_id. destruct Hno as [-> | ->].
    - reflexivity.
    - destruct (truthy (extract_input_text message)); reflexivity. }
  split; [exact Hres|].
  apply execute_resolve. rewrite Hres. reflexivity.
Qed.

End ExecutorFacts.

(** The failure theorem on a deployment whose agent times out. *)
Lemma execute_converts_failure_witness :
  let C := Agents.example_collaborators true in
  let st := Agents.example_state Cosmos.db_one_order in
  let e := Exn "TimeoutError" "model call timed out, critical section left" in
  exists st' m what,
    @Agents.execute _ _ C Agents.MaintenanceSchedulerExecutor
      Agents.example_environ (Some Agents.example_request) st = (Ok tt, st') /\
    Agents.event_queue st' = (Agents.event_queue st ++ [m])%list /\
    Agents.parts m =
      [ {| Agents.root := Agents.TextPart
             (Agents.error_text Agents.MaintenanceSchedulerExecutor e) |} ] /\
    Agents.error_text Agents.MaintenanceSchedulerExecutor e
      = "Error processing" ++ what ++ exc_str e /\
    String.prefix "Error processing"
      (Agents.error_text Agents.MaintenanceSchedulerExecutor e) = true.
Proof.
  intros C st e.
  apply (@execute_converts_failure Cosmos.one_instant_runtime Cosmos.Database C
           Agents.MaintenanceSchedulerExecutor Agents.example_environ
           (Some Agents.example_request) st
           (snd (@Agents.try_body _ _ C Agents.MaintenanceSchedulerExecutor
                   Agents.example_environ (Some Agents.example_request) st)) e).
  vm_compute. reflexivity.
Defined.

(** The last-text-part theorem on a request with text, file and data
    parts. *)
Lemma extract_input_text_last_witness :
  Agents.extract_input_text (Some Agents.example_request)
  = "planner: created wo-2024-468 for machine-001".
Proof.
  apply (extract_input_text_last Agents.example_request
           [ {| Agents.root := Agents.TextPart "user: check machine-001" |};
             {| Agents.root := Agents.FilePart "report.pdf" |} ]
           [ {| Agents.root := Agents.DataPart "{}" |} ]
           "planner: created wo-2024-468 for machine-001").
  - reflexivity.
  - repeat constructor; discriminate.
Defined.

(** The fallback on a request whose text holds no work-order id. *)
Lemma extract_work_order_id_and_fallback_witness :
  let C := Agents.example_collaborators false in
  let st := Agents.example_state Cosmos.db_one_order in
  let message :=
    Some {| Agents.messageId := "m-2"; Agents.role := "user";
            Agents.parts :=
              [ {| Agents.root := Agents.TextPart "order parts for wo-24-468" |} ] |} in
  Agents.resolve_work_order_id (Agents.extract_input_text message) = "wo-2024-468" /\
  @Agents.execute _ _ C Agents.PartsOrderingExecutor Agents.example_environ message st
  = @Agents.execute _ _ C Agents.PartsOrderingExecutor Agents.example_environ
      (Some Agents.default_request) st.
Proof.
  intros C st message.
  apply (proj2 (@extract_work_order_id_and_fallback Cosmos.one_instant_runtime
                  Cosmos.Database C)).
  right. vm_compute. reflexivity.
Defined.

(** ** The edge condition *)
Section EdgeCondition.
Import Agents.

Lemma keywords_lower (k : string) : In k keywords -> lower k = k.
Proof.
  unfold keywords. simpl.
  intros [<-|[<-|[<-|[<-|[]]]]]; reflexivity.
Qed.

Lemma diagnosis_condition_iff (msg : WorkflowMsg) :
  diagnosis_condition msg = true <->
  exists k, In k keywords /\
            occurs_ignoring_case k (extract_text_from_message msg).
Proof.
  unfold diagnosis_condition, any. rewrite existsb_exists. split.
  - intros (k & Hin & Hk). exists k. split; [exact Hin|].
    apply str_in_spec in Hk as (pre & suf & E).
    apply lower_app_inv in E as (t1 & t2 & Et & _ & E2).
    apply lower_app_inv in E2 as (mid & t3 & -> & Hmid & _).
    exists t1, mid, t3. split; [exact Et|].
    rewrite Hmid. symmetry. apply keywords_lower. exact Hin.
  - intros (k & Hin & pre & mid & suf & E & Hmid). exists k.
    split; [exact Hin|]. apply str_in_spec.
    exists (lower pre), (lower suf).
    rewrite E, !lower_app, Hmid, (keywords_lower k Hin). reflexivity.
Qed.

(** C1: the condition on the edge from the anomaly node to the diagnosis
    node holds exactly when the text extracted from the message contains one
    of "critical", "warning", "high", "alert" with case ignored; it is false
    on "status: ok", true on "CRITICAL failure", and true on every
    error-conversion text that contains a keyword. *)
Theorem diagnosis_condition_spec :
  (forall msg,
     diagnosis_condition msg = true <->
     exists k, In k keywords /\
               occurs_ignoring_case k (extract_text_from_message msg)) /\
  (forall msg, extract_text_from_message msg = "status: ok" ->
     diagnosis_condition msg = false) /\
  (forall msg, extract_text_from_message msg = "CRITICAL failure" ->
     diagnosis_condition msg = true) /\
  (forall msg ex e k,
     extract_text_from_message msg = error_text ex e ->
     In k keywords -> occurs_ignoring_case k (error_text ex e) ->
     diagnosis_condition msg = true).
Proof.
  split; [exact diagnosis_condition_iff|]. split; [|split].
  - intros msg E. unfold diagnosis_condition. rewrite E. reflexivity.
  - intros msg E. unfold diagnosis_condition. rewrite E. reflexivity.
  - intros msg ex e k E Hin Hocc. apply diagnosis_condition_iff.
    exists k. rewrite E. auto.
Qed.

Example diagnosis_on_response_object :
  diagnosis_condition (reply "Severity: HIGH, investigate" (Text "prompt")) = true.
Proof. reflexivity. Qed.

Example diagnosis_on_quiet_prompt :
  diagnosis_condition (Text "status: ok") = false.
Proof. reflexivity. Qed.

End EdgeCondition.

(** The condition on the message that carries the timeout error of the
    maintenance executor. *)
Lemma diagnosis_condition_spec_witness :
  Agents.diagnosis_condition
    (Agents.Text "Error processing maintenance schedule request: CRITICAL timeout")
  = true.
Proof.
  apply (proj2 (proj2 (proj2 diagnosis_condition_spec))
           (Agents.Text "Error processing maintenance schedule request: CRITICAL timeout")
           Agents.MaintenanceSchedulerExecutor
           (Exn "TimeoutError" "CRITICAL timeout") "critical").
  - reflexivity.
  - left. reflexivity.
  - exists "Error processing maintenance schedule request: ", "CRITICAL", " timeout".
    split; reflexivity.
Defined.


(** ** The workflow engine *)
Section EngineFacts.
Import Framework.
Context {Msg : Type}.

Lemma run_queue_nil (fuel : nat) (g : @Graph Msg) (outs : list (NodeId * Msg)) :
  run_queue (S fuel) g [] outs = Some outs.
Proof. reflexivity. Qed.

Lemma run_queue_cons (fuel : nat) (g : @Graph Msg) (n : NodeId) (m : Msg)
    (rest outs : list (NodeId * Msg)) (node : Node) :
  nodes g !! n = Some node ->
  run_queue (S fuel) g ((n, m) :: rest) outs
  = run_queue fuel g
      (rest ++ map (fun e => (edge_to e, invoke node m))
                   (List.filter (fun e => satisfied e (invoke node m)) (outgoing g n)))
      (outs ++ [(n, invoke node m)]).
Proof. intros Hn. simpl. rewrite Hn. reflexivity. Qed.

(** The outputs recorded so far stay in front. *)
Lemma run_queue_extends (fuel : nat) (g : @Graph Msg)
    (pending outs res : list (NodeId * Msg)) :
  run_queue fuel g pending outs = Some res -> exists tail, res = (outs ++ tail)%list.
Proof.
  revert pending outs. induction fuel as [|fuel IH]; intros pending outs; [discriminate|].
  destruct pending as [|[n m] rest].
  - intros E. injection E as <-. exists []. rewrite app_nil_r. reflexivity.
  - simpl. destruct (nodes g !! n) as [node|]; [|discriminate].
    intros E. apply IH in E as [tail ->]. rewrite <- app_assoc. eexists. reflexivity.
Qed.

(** The first output of a run is that of the start node on the initial
    message. *)
Lemma run_starts_at_start (fuel : nat) (g : @Graph Msg) (initial : Msg)
    (outs : list (NodeId * Msg)) :
  run fuel g initial = Some outs ->
  exists node tail,
    nodes g !! start g = Some node /\
    outs = (start g, invoke node initial) :: tail.
Proof.
  unfold run. destruct fuel as [|fuel]; [discriminate|]. simpl.
  destruct (nodes g !! start g) as [node|]; [|discriminate].
  intros E. apply run_queue_extends in E as [tail ->].
  exists node, tail. auto.
Qed.

(** Breadth order: the entries pending at one time are all invoked, in
    queue order, before any entry that they schedule. *)
Lemma run_queue_level (g : @Graph Msg) (level : list (NodeId * Msg)) :
  forall (extra acc outs kids : list (NodeId * Msg)) (fuel : nat),
    invoke_level g level = Some (outs, kids) ->
    run_queue (length level + fuel) g (level ++ extra) acc
    = run_queue fuel g (extra ++ kids) (acc ++ outs).
Proof.
  induction level as [|[n m] ps IH]; intros extra acc outs kids fuel Hl.
  - injection Hl as <- <-. simpl. rewrite !app_nil_r. reflexivity.
  - simpl in Hl. unfold invoke_entry in Hl. simpl in Hl.
    destruct (nodes g !! n) as [node|] eqn:En; [|discriminate].
    destruct (invoke_level g ps) as [[os kids']|] eqn:Eps; [|discriminate].
    injection Hl as <- <-.
    change (length ((n, m) :: ps) + fuel) with (S (length ps + fuel)).
    change (((n, m) :: ps) ++ extra)%list with ((n, m) :: (ps ++ extra))%list.
    rewrite (run_queue_cons _ _ _ _ _ _ _ En), <- app_assoc.
    rewrite (IH _ _ _ _ _ eq_refl), <- !app_assoc. reflexivity.
Qed.

(** A builder with a dangling edge has missing ids. *)
Lemma dangling_edge_missing (b : @Builder Msg) (e : Edge) :
  In e (added_edges b) ->
  is_registered b (edge_from e) = false \/ is_registered b (edge_to e) = false ->
  missing_ids b <> [].
Proof.
  intros Hin Hd Hnil. unfold missing_ids in Hnil.
  assert (Hall : forall id, In id (referenced b) -> is_registered b id = true).
  { intros id Hid. destruct (is_registered b id) eqn:E; [reflexivity|].
    assert (Hf : In id (List.filter (fun id => negb (is_registered b id)) (referenced b))).
    { apply filter_In. rewrite E. auto. }
    rewrite Hnil in Hf. destruct Hf. }
  assert (Hfrom : In (edge_from e) (referenced b)).
  { unfold referenced. apply in_or_app. left. apply in_flat_map.
    exists e. simpl. auto. }
  assert (Hto : In (edge_to e) (referenced b)).
  { unfold referenced. apply in_or_app. left. apply in_flat_map.
    exists e. simpl. auto. }
  destruct Hd as [Hd|Hd]; [rewrite (Hall _ Hfrom) in Hd|rewrite (Hall _ Hto) in Hd];
    discriminate.
Qed.

Lemma build_dangling_edge (b : @Builder Msg) (e : Edge) :
  In e (added_edges b) ->
  is_registered b (edge_from e) = false \/ is_registered b (edge_to e) = false ->
  exists msg, build b = Raise (GraphConstructionError msg).
Proof.
  intros Hin Hd. pose proof (dangling_edge_missing b e Hin Hd) as Hm.
  unfold build. destruct (missing_ids b) as [|x xs] eqn:E; [congruence|].
  eexists. reflexivity.
Qed.

End EngineFacts.

(** ** The factory workflow *)
Section FactoryWorkflow.
Import Framework Agents.

Lemma build_factory (d : Deployment) (repair : option A2AAgent) :
  build (factory_builder d repair) = Ok (factory_graph d repair).
Proof. destruct repair; reflexivity. Qed.

Lemma factory_node_rp (d : Deployment) (repair : option A2AAgent) :
  nodes (factory_graph d repair) !! "RequestProcessor"
  = Some (agent_node "init" Local request_processor tt).
Proof. destruct repair; reflexivity. Qed.

Lemma factory_node_aa (d : Deployment) (repair : option A2AAgent) :
  nodes (factory_graph d repair) !! "AnomalyAgent"
  = Some (agent_node "AnomalyClassificationAgent" RemoteAgent (anomaly_agent d) tt).
Proof. destruct repair; reflexivity. Qed.

Lemma factory_node_fa (d : Deployment) (repair : option A2AAgent) :
  nodes (factory_graph d repair) !! "FaultAgent"
  = Some (agent_node "FaultDiagnosisAgent" RemoteAgent (fault_agent d) tt).
Proof. destruct repair; reflexivity. Qed.

Lemma factory_node_rpa (d : Deployment) (agent : A2AAgent) :
  nodes (factory_graph d (Some agent)) !! "RepairPlannerAgent"
  = Some (agent_node "RepairPlannerAgent" RemoteAgent (remote_agent d agent) tt).
Proof. reflexivity. Qed.

Lemma factory_out_rp (d : Deployment) (repair : option A2AAgent) :
  outgoing (factory_graph d repair) "RequestProcessor"
  = [ {| edge_from := "RequestProcessor"; edge_to := "AnomalyAgent";
         condition := None |} ].
Proof. destruct repair; reflexivity. Qed.

Lemma factory_out_aa (d : Deployment) (repair : option A2AAgent) :
  outgoing (factory_graph d repair) "AnomalyAgent"
  = [ {| edge_from := "AnomalyAgent"; edge_to := "FaultAgent";
         condition := Some diagnosis_condition |} ].
Proof. destruct repair; reflexivity. Qed.

Lemma factory_out_fa (d : Deployment) (repair : option A2AAgent) :
  outgoing (factory_graph d repair) "FaultAgent"
  = match repair with
    | Some _ => [ {| edge_from := "FaultAgent"; edge_to := "RepairPlannerAgent";
                     condition := None |} ]
    | None => []
    end.
Proof. destruct repair; reflexivity. Qed.

Lemma factory_out_rpa (d : Deployment) (repair : option A2AAgent) :
  outgoing (factory_graph d repair) "RepairPlannerAgent" = [].
Proof. destruct repair; reflexivity. Qed.

(** A run of the factory graph ends within five steps with the outputs of
    the chain. *)
Lemma factory_run (d : Deployment) (repair : option A2AAgent) (fuel : nat)
    (initial : WorkflowMsg) :
  5 <= fuel ->
  run fuel (factory_graph d repair) initial = Some (factory_outputs d repair initial).
Proof.
  intros Hfuel. do 5 (destruct fuel as [|fuel]; [lia|]). clear Hfuel.
  unfold run, factory_outputs.
  change (start (factory_graph d repair)) with "RequestProcessor".
  rewrite (run_queue_cons _ _ _ _ _ _ _ (factory_node_rp d repair)), factory_out_rp.
  cbn [List.filter satisfied condition map app invoke agent_node edge_to].
  rewrite (run_queue_cons _ _ _ _ _ _ _ (factory_node_aa d repair)), factory_out_aa.
  cbn [List.filter satisfied condition map app invoke agent_node edge_to].
  destruct (diagnosis_condition (anomaly_agent d (request_processor initial)));
    cbn [List.filter satisfied condition map app invoke agent_node edge_to];
    [|reflexivity].
  rewrite (run_queue_cons _ _ _ _ _ _ _ (factory_node_fa d repair)), factory_out_fa.
  destruct repair as [agent|];
    cbn [List.filter satisfied condition map app invoke agent_node edge_to];
    [|reflexivity].
  rewrite (run_queue_cons _ _ _ _ _ _ _ (factory_node_rpa d agent)), factory_out_rpa.
  reflexivity.
Qed.

Lemma factory_orders (d : Deployment) (repair : option A2AAgent)
    (initial : WorkflowMsg) :
  let g := factory_graph d repair in
  let outs := factory_outputs d repair initial in
  in_edge_registration_order g outs = outs /\
  terminal_outputs g outs = in_edge_registration_order g (terminal_outputs g outs).
Proof.
  intros g outs. subst g outs. unfold factory_outputs.
  unfold terminal_outputs, is_terminal.
  destruct (diagnosis_condition (anomaly_agent d (request_processor initial))) eqn:Ec;
    destruct repair as [agent|];
    cbn [app List.filter fst snd];
    rewrite ?factory_out_rp, ?factory_out_aa, ?factory_out_fa, ?factory_out_rpa;
    cbn [forallb satisfied condition negb andb];
    rewrite ?Ec; cbn [negb andb];
    split; reflexivity.
Qed.

(** C5, as stated, fails on the engine of the specification: on a graph
    whose edges are registered as B->D, A->B, A->C the terminal outputs come
    back as C, D in the order of invocation and as D, C in the order of edge
    registration. *)
Lemma orders_differ_on_crossed_graph :
  exists g, build crossed_builder = Ok g /\ ~ orders_coincide 10 g "".
Proof.
  eexists. split; [reflexivity|].
  intros Hc.
  specialize (Hc [("A", "A"); ("B", "AB"); ("C", "AC"); ("D", "ABD")] eq_refl).
  vm_compute in Hc. discriminate Hc.
Qed.

(** C5 (amended): a run returns the outputs in the order in which the nodes
    were invoked, the output of the start node first and the entries pending
    at one time all before those they schedule.  On the workflow that
    [run_factory_workflow] builds, with or without repair planner, a run ends
    within five invocations, and this order is also the order of edge
    registration, for all outputs and for the terminal ones. *)
Theorem factory_workflow_output_order :
  (forall (g : @Graph WorkflowMsg) (fuel : nat) (initial : WorkflowMsg)
          (outs : list (NodeId * WorkflowMsg)),
     run fuel g initial = Some outs ->
     exists node tail,
       nodes g !! start g = Some node /\
       outs = (start g, invoke node initial) :: tail) /\
  (forall (g : @Graph WorkflowMsg) (level acc outs kids : list (NodeId * WorkflowMsg))
          (fuel : nat),
     invoke_level g level = Some (outs, kids) ->
     run_queue (length level + fuel) g level acc
     = run_queue fuel g kids (acc ++ outs)) /\
  (forall (d : Deployment) (repair : option A2AAgent) (fuel : nat)
          (initial : WorkflowMsg),
     5 <= fuel ->
     exists g outs,
       build (factory_builder d repair) = Ok g /\
       run fuel g initial = Some outs /\
       outs = factory_outputs d repair initial /\
       in_edge_registration_order g outs = outs /\
       terminal_outputs g outs
       = in_edge_registration_order g (terminal_outputs g outs)).
Proof.
  split; [|split].
  - intros g fuel initial outs. apply run_starts_at_start.
  - intros g level acc outs kids fuel Hl.
    pose proof (run_queue_level g level [] acc outs kids fuel Hl) as E.
    rewrite app_nil_r in E. exact E.
  - intros d repair fuel initial Hfuel.
    exists (factory_graph d repair), (factory_outputs d repair initial).
    split; [apply build_factory|].
    split; [apply factory_run; exact Hfuel|].
    split; [reflexivity|].
    apply factory_orders.
Qed.

(** Discovery leaves at most one event, the request for the card. *)
Lemma get_a2a_agent_log (imported : result A2APackage) (url : string)
    (r : result A2AAgent) (log : list Event) :
  get_a2a_agent imported url [] = (r, log) ->
  log = [] \/ log = [CardRequested url well_known_card_path].
Proof.
  unfold get_a2a_agent. destruct imported as [a2a|e].
  - destruct (A2ACardResolver a2a) as [resolver|].
    + unfold bind, emit, modify, lift, ret. simpl.
      destruct (resolver url well_known_card_path); simpl;
        [destruct (A2AAgent_new a2a _); simpl|]; intros E; injection E as _ <-;
        right; reflexivity.
    + unfold bind, lift, ret, raise.
      destruct (first_accepted a2a _) as [[agent|]|e]; intros E;
        injection E as _ <-; left; reflexivity.
  - destruct (String.eqb (exc_class e) "ModuleNotFoundError"); unfold raise;
      intros E; injection E as _ <-; left; reflexivity.
Qed.

Lemma require_env_missing (environ : gmap string string) (name : string) :
  truthy_opt (getenv environ name) = false ->
  exists e, _require_env environ name = Raise e /\ exc_class e = "RuntimeError".
Proof.
  intros Hm. unfold _require_env. rewrite Hm. eexists. split; reflexivity.
Qed.

(** Without the project endpoint the function raises at once. *)
Lemma run_factory_workflow_missing_env (d : Deployment) (fuel : nat)
    (machine_id telemetry : string) :
  truthy_opt (getenv (environ d) "AZURE_AI_PROJECT_ENDPOINT") = false ->
  exists e,
    run_factory_workflow d fuel machine_id telemetry [] = (Raise e, []) /\
    exc_class e = "RuntimeError".
Proof.
  intros Hm. destruct (require_env_missing _ _ Hm) as (e & He & Hc).
  exists e. split; [|exact Hc].
  unfold run_factory_workflow, bind, lift. rewrite He. reflexivity.
Qed.

(** What is left of the function once the project endpoint is there and the
    repair planner, if any, was constructed. *)
Lemma run_factory_workflow_tail (d : Deployment) (fuel : nat)
    (machine_id telemetry : string) (repair : option A2AAgent) (log : list Event) :
  (workflow <- lift (build (factory_builder d repair)) ;;
   emit GraphBuilt ;;;
   match run fuel workflow (payload machine_id telemetry) with
   | Some outputs =>
       emit_all (map (fun o => NodeInvoked (fst o)) outputs) ;;; ret outputs
   | None => raise (Exn "RuntimeError" "the run needs more invocations than the bound")
   end)%py log
  = match run fuel (factory_graph d repair) (payload machine_id telemetry) with
    | Some outputs =>
        (Ok outputs,
         (log ++ GraphBuilt :: map (fun o => NodeInvoked (fst o)) outputs)%list)
    | None =>
        (Raise (Exn "RuntimeError" "the run needs more invocations than the bound"),
         (log ++ [GraphBuilt])%list)
    end.
Proof.
  unfold bind at 1. unfold lift. rewrite build_factory.
  unfold bind, emit, emit_all, modify, ret, raise.
  destruct (run fuel (factory_graph d repair) (payload machine_id telemetry));
    [|reflexivity].
  rewrite <- app_assoc. reflexivity.
Qed.

(** The shape of every run of the function: it raises with a log that holds
    at most the card request, or it builds the graph after that and then
    invokes nodes. *)
Lemma run_factory_workflow_log (d : Deployment) (fuel : nat)
    (machine_id telemetry : string)
    (r : result (list (string * WorkflowMsg))) (log : list Event) :
  run_factory_workflow d fuel machine_id telemetry [] = (r, log) ->
  exists disc,
    (disc = [] \/
     disc = [CardRequested
               (default "" (getenv (environ d) "REPAIR_PLANNER_AGENT_URL"))
               well_known_card_path]) /\
    ((exists e, r = Raise e /\ log = disc) \/
     (exists e, r = Raise e /\ log = (disc ++ [GraphBuilt])%list) \/
     (exists outs, r = Ok outs /\
        log = (disc ++ GraphBuilt :: map (fun o => NodeInvoked (fst o)) outs)%list)).
Proof.
  unfold run_factory_workflow. unfold bind at 1. unfold lift at 1.
  destruct (_require_env (environ d) "AZURE_AI_PROJECT_ENDPOINT") as [pe|e].
  - unfold bind at 1.
    destruct (truthy_opt (getenv (environ d) "REPAIR_PLANNER_AGENT_URL")).
    + unfold bind at 1.
      destruct (get_a2a_agent (a2a_import d) _ []) as [[agent|e] disc] eqn:Eg;
        pose proof (get_a2a_agent_log _ _ _ _ Eg) as Hd.
      * unfold ret at 1. rewrite run_factory_workflow_tail.
        destruct (run fuel _ _) as [outs|]; intros E; injection E as <- <-;
          exists disc; (split; [exact Hd|]); eauto.
      * intros E. injection E as <- <-. exists disc. split; [exact Hd|]. eauto.
    + unfold ret at 1. rewrite run_factory_workflow_tail.
      destruct (run fuel _ _) as [outs|]; intros E; injection E as <- <-;
        exists []; (split; [left; reflexivity|]); eauto.
  - intros E. injection E as <- <-. exists []. split; [left; reflexivity|]. eauto.
Qed.

(** C6, as stated, fails: in a deployment without the project endpoint
    variable [run_factory_workflow] raises before it constructs anything, so
    the construction does depend on the credential configuration. *)
Lemma construction_depends_on_environment :
  ~ construction_is_pure (example_deployment []) 8 "machine-007" "[]".
Proof.
  intros [Hbuilt _]. vm_compute in Hbuilt. exact Hbuilt.
Qed.

(** With a repair planner url the card is requested over the network before
    the graph is built. *)
Lemma construction_requests_card :
  snd (run_factory_workflow
         (example_deployment [("AZURE_AI_PROJECT_ENDPOINT", "https://foundry.example");
                              ("REPAIR_PLANNER_AGENT_URL", "https://planner.example")])
         8 "machine-007" "[]" [])
  = [CardRequested "https://planner.example" ".well-known/agent-card.json";
     GraphBuilt; NodeInvoked "RequestProcessor"; NodeInvoked "AnomalyAgent";
     NodeInvoked "FaultAgent"; NodeInvoked "RepairPlannerAgent"].
Proof. vm_compute. reflexivity. Qed.

(** C6 (amended): [build] fails with a graph-construction error on every
    builder that has an edge from or to an unregistered node id, and in
    [run_factory_workflow] a node is invoked only after the graph was built,
    the events before that being card requests.  The construction is reached
    only with the project endpoint variable set: without it the function
    raises a [RuntimeError] and nothing else happens. *)
Theorem build_validation :
  (forall (Msg : Type) (b : @Builder Msg) (e : Edge),
     In e (added_edges b) ->
     is_registered b (edge_from e) = false \/ is_registered b (edge_to e) = false ->
     exists msg, build b = Raise (GraphConstructionError msg)) /\
  (forall (d : Deployment) (fuel : nat) (machine_id telemetry : string)
          (r : result (list (string * WorkflowMsg))) (log : list Event),
     run_factory_workflow d fuel machine_id telemetry [] = (r, log) ->
     (forall n, In (NodeInvoked n) log ->
        exists pre post,
          log = (pre ++ GraphBuilt :: post)%list /\
          forall ev, In ev pre -> exists base path, ev = CardRequested base path) /\
     (truthy_opt (getenv (environ d) "AZURE_AI_PROJECT_ENDPOINT") = false ->
      log = [] /\ exists e, r = Raise e /\ exc_class e = "RuntimeError")).
Proof.
  split.
  - intros Msg b e. apply build_dangling_edge.
  - intros d fuel machine_id telemetry r log Hrun. split.
    + intros n Hin.
      destruct (run_factory_workflow_log _ _ _ _ _ _ Hrun)
        as (disc & Hdisc & [(e & _ & ->)|[(e & _ & ->)|(outs & _ & ->)]]).
      * destruct Hdisc as [->| ->]; simpl in Hin; intuition discriminate.
      * exfalso. apply in_app_or in Hin as [Hin|Hin].
        -- destruct Hdisc as [->| ->]; simpl in Hin; intuition discriminate.
        -- simpl in Hin. intuition discriminate.
      * exists disc. eexists. split; [reflexivity|].
        intros ev Hev. destruct Hdisc as [->| ->]; simpl in Hev; [destruct Hev|].
        destruct Hev as [<-|[]]. eauto.
    + intros Hm.
      destruct (run_factory_workflow_missing_env d fuel machine_id telemetry Hm)
        as (e & He & Hc).
      rewrite He in Hrun. injection Hrun as <- <-. eauto.
Qed.

(** C7, as stated, fails: with an A2A package that ships no card resolver
    and whose constructor takes a bare url, the remote agent is constructed
    without any card being requested. *)
Lemma discovery_skipped_without_resolver :
  ~ discovery_resolves_card (Ok package_without_resolver) "https://planner.example".
Proof.
  unfold discovery_resolves_card. vm_compute. intros [Hin _]. exact Hin.
Qed.

(** C7 (amended): with a package that ships the card resolver, the card is
    requested at the well-known path under the server url; a card that
    comes back names the agent, and a failed request raises out of
    [get_a2a_agent].  A missing package raises a [RuntimeError].  In
    [run_factory_workflow] a failure of [get_a2a_agent] is the failure of the
    whole call, before the graph is built and before any node is invoked;
    after a success the graph is built next. *)
Theorem discovery_with_resolver :
  (forall (a2a : A2APackage) (resolver : string -> string -> result AgentCard)
          (url : string) (card : AgentCard),
     A2ACardResolver a2a = Some resolver ->
     resolver url well_known_card_path = Ok card ->
     A2AAgent_new a2a
       {| agent_name := Some (card_name card);
          agent_description := Some (default "" (card_description card));
          agent_card := Some card;
          agent_url := url |} = Ok tt ->
     exists agent,
       get_a2a_agent (Ok a2a) url []
       = (Ok agent, [CardRequested url well_known_card_path]) /\
       agent_name agent = Some (card_name card) /\
       agent_card agent = Some card /\
       agent_url agent = url) /\
  (forall (a2a : A2APackage) (resolver : string -> string -> result AgentCard)
          (url : string) (e : exn),
     A2ACardResolver a2a = Some resolver ->
     resolver url well_known_card_path = Raise e ->
     get_a2a_agent (Ok a2a) url []
     = (Raise e, [CardRequested url well_known_card_path])) /\
  (forall (e : exn) (url : string),
     exc_class e = "ModuleNotFoundError" ->
     exists msg, get_a2a_agent (Raise e) url [] = (Raise (Exn "RuntimeError" msg), [])) /\
  (forall (d : Deployment) (fuel : nat) (machine_id telemetry url : string)
          (log : list Event),
     truthy_opt (getenv (environ d) "AZURE_AI_PROJECT_ENDPOINT") = true ->
     getenv (environ d) "REPAIR_PLANNER_AGENT_URL" = Some url ->
     truthy url = true ->
     (forall e, get_a2a_agent (a2a_import d) url [] = (Raise e, log) ->
        run_factory_workflow d fuel machine_id telemetry [] = (Raise e, log) /\
        ~ In GraphBuilt log /\ forall n, ~ In (NodeInvoked n) log) /\
     (forall agent, get_a2a_agent (a2a_import d) url [] = (Ok agent, log) ->
        exists r rest,
          run_factory_workflow d fuel machine_id telemetry []
          = (r, (log ++ GraphBuilt :: rest)%list))).
Proof.
  split; [|split; [|split]].
  - intros a2a resolver url card Hres Hcard Hnew.
    eexists. unfold get_a2a_agent. rewrite Hres.
    unfold bind, emit, modify, lift, ret. simpl. rewrite Hcard. simpl.
    rewrite Hnew. split; [reflexivity|]. auto.
  - intros a2a resolver url e Hres Hcard.
    unfold get_a2a_agent. rewrite Hres.
    unfold bind, emit, modify, lift, ret. simpl. rewrite Hcard. reflexivity.
  - intros e url Hc. unfold get_a2a_agent. rewrite Hc. simpl.
    eexists. reflexivity.
  - intros d fuel machine_id telemetry url log Henv Hurl Htruthy.
    assert (Hreq : _require_env (environ d) "AZURE_AI_PROJECT_ENDPOINT"
                   = Ok (default "" (getenv (environ d) "AZURE_AI_PROJECT_ENDPOINT"))).
    { unfold _require_env. rewrite Henv. reflexivity. }
    split.
    + intros e Hg. split.
      * unfold run_factory_workflow. unfold bind at 1. unfold lift at 1.
        rewrite Hreq. unfold bind at 1. rewrite Hurl. cbn [truthy_opt].
        rewrite Htruthy. unfold bind at 1.
        change (default "" (Some url)) with url. rewrite Hg. reflexivity.
      * destruct (get_a2a_agent_log _ _ _ _ Hg) as [->| ->]; split;
          simpl; try intros n; intuition discriminate.
    + intros agent Hg.
      unfold run_factory_workflow. unfold bind at 1. unfold lift at 1.
      rewrite Hreq. unfold bind at 1. rewrite Hurl. cbn [truthy_opt].
      rewrite Htruthy. unfold bind at 1.
        change (default "" (Some url)) with url. rewrite Hg.
      unfold ret at 1. rewrite run_factory_workflow_tail.
      destruct (run fuel _ _) as [outs|]; eexists; eexists; reflexivity.
Qed.

End FactoryWorkflow.

(** The validation theorem on a builder with an edge to an unknown node. *)
Lemma build_validation_witness :
  exists msg,
    Framework.build Framework.dangling_builder
    = Raise (Framework.GraphConstructionError msg).
Proof.
  apply (proj1 build_validation string Framework.dangling_builder
           {| Framework.edge_from := "A"; Framework.edge_to := "Z";
              Framework.condition := None |}).
  - left. reflexivity.
  - right. reflexivity.
Defined.

(** The discovery theorem on a package whose resolver serves the planner's
    card. *)
Lemma discovery_with_resolver_witness :
  exists agent,
    Agents.get_a2a_agent (Ok Agents.package_with_resolver) "https://planner.example" []
    = (Ok agent,
       [Agents.CardRequested "https://planner.example" Agents.well_known_card_path]) /\
    Agents.agent_name agent = Some (Agents.card_name Agents.planner_card) /\
    Agents.agent_card agent = Some Agents.planner_card /\
    Agents.agent_url agent = "https://planner.example".
Proof.
  apply (proj1 discovery_with_resolver Agents.package_with_resolver
           (fun base path =>
              if String.eqb base "https://planner.example" &&
                 String.eqb path ".well-known/agent-card.json"
              then Ok Agents.planner_card
              else Raise (Exn "A2AClientHTTPError" "404 Not Found"))
           "https://planner.example" Agents.planner_card).
  - reflexivity.
  - reflexivity.
  - reflexivity.
Defined.

(** The order theorem on a deployment with a repair planner. *)
Lemma factory_workflow_output_order_witness :
  let d := Agents.example_deployment [] in
  let repair :=
    Some {| Agents.agent_name := Some "RepairPlannerAgent";
            Agents.agent_description := Some "Plans repairs";
            Agents.agent_card := Some Agents.planner_card;
            Agents.agent_url := "https://planner.example" |} in
  let initial := Agents.payload "machine-007" "[]" in
  exists g outs,
    Framework.build (Agents.factory_builder d repair) = Ok g /\
    Framework.run 8 g initial = Some outs /\
    outs = Agents.factory_outputs d repair initial /\
    Framework.in_edge_registration_order g outs = outs /\
    Framework.terminal_outputs g outs
    = Framework.in_edge_registration_order g (Framework.terminal_outputs g outs).
Proof.
  intros d repair initial.
  apply (proj2 (proj2 factory_workflow_output_order) d repair 8 initial).
  lia.
Defined.

(** ** Extracting the JSON of an agent response *)
Section ExtractJson.
Import PyText AgentResponse.

Lemma find_unfold (sub s : string) :
  find sub s
  = if String.prefix sub s then Some 0
    else match s with
         | "" => None
         | String _ r => option_map S (find sub r)
         end.
Proof. destruct s; reflexivity. Qed.

Lemma prefix_app (sub suf : string) : String.prefix sub (sub ++ suf) = true.
Proof. apply prefix_spec. exists suf. reflexivity. Qed.

Lemma prefix_head_ne (c x : ascii) (sub r : string) :
  x <> c -> String.prefix (String c sub) (String x r) = false.
Proof.
  intros Hne. simpl. destruct (ascii_dec c x) as [->|]; [congruence|reflexivity].
Qed.

Lemma lacks_cons (c x : ascii) (r : string) :
  lacks c (String x r) = true -> x <> c /\ lacks c r = true.
Proof.
  simpl. intros H. apply andb_true_iff in H as [Hx Hr]. split; [|exact Hr].
  intros ->. rewrite Ascii.eqb_refl in Hx. discriminate.
Qed.

(** The first occurrence of a text whose first character does not occur
    earlier. *)
Lemma find_after_lacks (c : ascii) (sub pre suf : string) :
  lacks c pre = true ->
  find (String c sub) (pre ++ String c sub ++ suf) = Some (String.length pre).
Proof.
  induction pre as [|x pre IH]; intros Hl.
  - rewrite sapp_nil_l, find_unfold, prefix_app. reflexivity.
  - apply lacks_cons in Hl as [Hx Hl]. rewrite sapp_cons, find_unfold.
    rewrite (prefix_head_ne c x sub _ Hx), (IH Hl). reflexivity.
Qed.

Lemma find_none_iff (sub s : string) :
  find sub s = None <-> str_in sub s = false.
Proof.
  induction s as [|x s IH].
  - rewrite find_unfold. unfold str_in. rewrite orb_false_r.
    destruct (String.prefix sub ""); split; congruence.
  - rewrite find_unfold.
    change (str_in sub (String x s))
      with (String.prefix sub (String x s) || str_in sub s).
    destruct (String.prefix sub (String x s)); simpl.
    + split; discriminate.
    + rewrite <- IH. destruct (find sub s); simpl; split; congruence.
Qed.

Lemma lacks_not_in (c : ascii) (sub s : string) :
  lacks c s = true -> str_in (String c sub) s = false.
Proof.
  intros Hl. destruct (str_in (String c sub) s) eqn:E; [|reflexivity].
  apply str_in_spec in E as (pre & suf & ->). exfalso.
  induction pre as [|x pre IH].
  - rewrite sapp_nil_l, sapp_cons in Hl. simpl in Hl.
    rewrite Ascii.eqb_refl in Hl. discriminate.
  - rewrite sapp_cons in Hl. apply lacks_cons in Hl as [_ Hl]. auto.
Qed.

Lemma lacks_find_none (c : ascii) (s : string) :
  lacks c s = true <-> find (String c "") s = None.
Proof.
  split.
  - intros Hl. apply find_none_iff. apply lacks_not_in. exact Hl.
  - induction s as [|x s IH]; [reflexivity|].
    rewrite find_unfold. simpl String.prefix.
    destruct (ascii_dec c x) as [->|Hne].
    + destruct s; discriminate.
    + destruct (find (String c "") s) eqn:Ef; [discriminate|].
      intros _. simpl. rewrite (IH eq_refl).
      destruct (Ascii.eqb_spec x c); [congruence|reflexivity].
Qed.

Lemma drop_chars_app (a b : string) : drop_chars (String.length a) (a ++ b) = b.
Proof. induction a as [|x a IH]; [reflexivity|]. rewrite sapp_cons. exact IH. Qed.

Lemma drop_chars_add (n : nat) (a b : string) :
  drop_chars (String.length a + n) (a ++ b) = drop_chars n b.
Proof. induction a as [|x a IH]; [reflexivity|]. rewrite sapp_cons. exact IH. Qed.

Lemma substring_skip (a b : string) (m : nat) :
  String.substring (String.length a) m (a ++ b) = String.substring 0 m b.
Proof. induction a as [|x a IH]; [reflexivity|]. rewrite sapp_cons. exact IH. Qed.

Lemma substring_take (b c : string) :
  String.substring 0 (String.length b) (b ++ c) = b.
Proof.
  induction b as [|x b IH].
  - rewrite sapp_nil_l. destruct c; reflexivity.
  - rewrite sapp_cons. simpl. rewrite IH. reflexivity.
Qed.

Lemma substring_empty (n : nat) (s : string) : String.substring n 0 s = "".
Proof.
  revert s. induction n as [|n IH]; intros [|x s]; simpl; auto.
Qed.

(** The slice between two positions of a text given in three pieces. *)
Lemma slice_middle (a b c : string) :
  slice (a ++ b ++ c) (String.length a) (String.length a + String.length b) = b.
Proof.
  unfold slice.
  replace (String.length a + String.length b - String.length a)
    with (String.length b) by lia.
  rewrite substring_skip. apply substring_take.
Qed.

Lemma rfind_unfold_cons (sub : string) (x : ascii) (r : string) :
  rfind sub (String x r)
  = match rfind sub r with
    | Some i => Some (S i)
    | None => if String.prefix sub (String x r) then Some 0 else None
    end.
Proof. reflexivity. Qed.

Lemma rfind_lacks (c : ascii) (s : string) :
  lacks c s = true -> rfind (String c "") s = None.
Proof.
  induction s as [|x s IH]; intros Hl; [reflexivity|].
  apply lacks_cons in Hl as [Hx Hl].
  rewrite rfind_unfold_cons, (IH Hl), (prefix_head_ne c x "" s Hx). reflexivity.
Qed.

(** The last occurrence of a character that does not occur later. *)
Lemma rfind_before_lacks (c : ascii) (pre post : string) :
  lacks c post = true ->
  rfind (String c "") (pre ++ String c post) = Some (String.length pre).
Proof.
  intros Hl. induction pre as [|x pre IH].
  - rewrite sapp_nil_l, rfind_unfold_cons, (rfind_lacks c post Hl).
    simpl. destruct (ascii_dec c c); [|congruence]. destruct post; reflexivity.
  - rewrite sapp_cons, rfind_unfold_cons, IH. reflexivity.
Qed.

Lemma lstrip_head (s : string) (c : ascii) (r : string) :
  lstrip s = String c r -> is_space c = false.
Proof.
  induction s as [|x s IH]; [discriminate|]. simpl.
  destruct (is_space x) eqn:Ex; [exact IH|].
  intros E. injection E as <- _. exact Ex.
Qed.

Lemma rstrip_head (c : ascii) (r : string) :
  is_space c = false -> exists r', rstrip (String c r) = String c r'.
Proof.
  intros Hc. simpl. destruct (rstrip r); [rewrite Hc|]; eexists; reflexivity.
Qed.

Lemma rstrip_last (s r : string) (c : ascii) :
  rstrip s = r ++ String c "" -> is_space c = false.
Proof.
  revert r. induction s as [|x s IH]; intros r.
  - simpl. destruct r; discriminate.
  - simpl. destruct (rstrip s) as [|y t] eqn:Es.
    + destruct (is_space x) eqn:Ex.
      * destruct r; discriminate.
      * destruct r as [|z r].
        -- rewrite sapp_nil_l. intros E. injection E as <-. exact Ex.
        -- rewrite sapp_cons. intros E. injection E as _ E. destruct r; discriminate.
    + destruct r as [|z r].
      * rewrite sapp_nil_l. discriminate.
      * rewrite sapp_cons. intros E. injection E as _ E. exact (IH r E).
Qed.

(** A stripped text begins and ends outside the whitespace. *)
Lemma strip_edges (s : string) :
  (forall c r, strip s = String c r -> is_space c = false) /\
  (forall r c, strip s = r ++ String c "" -> is_space c = false).
Proof.
  unfold strip. split.
  - intros c r E. destruct (lstrip s) as [|x t] eqn:El; [discriminate|].
    pose proof (lstrip_head s x t El) as Hx.
    destruct (rstrip_head x t Hx) as [r' Er]. rewrite Er in E.
    injection E as <- _. exact Hx.
  - intros r c. apply rstrip_last.
Qed.

Lemma fence_open_found (pre rest : string) :
  lacks "`" pre = true ->
  str_in fence_open (pre ++ fence_open ++ rest) = true /\
  index_from fence_open (pre ++ fence_open ++ rest) 0 = Ok (String.length pre).
Proof.
  intros Hpre. split.
  - apply str_in_spec. exists pre, rest. reflexivity.
  - unfold index_from, fence_open. simpl drop_chars.
    rewrite (find_after_lacks "`" "``json" pre rest Hpre). reflexivity.
Qed.

(** X1: a response that holds a json fence, with no backtick before it and
    none inside it, yields the text between the opening and the closing
    fence, stripped: the result neither begins nor ends with whitespace. *)
Theorem extract_json_fenced (pre body post : string) :
  lacks "`" pre = true ->
  lacks "`" body = true ->
  _extract_json (pre ++ fence_open ++ body ++ fence ++ post) = Ok (strip body) /\
  (forall c r, strip body = String c r -> is_space c = false) /\
  (forall r c, strip body = r ++ String c "" -> is_space c = false).
Proof.
  intros Hpre Hbody. split; [|apply strip_edges].
  unfold _extract_json.
  destruct (fence_open_found pre (body ++ fence ++ post) Hpre) as [Hin Hidx].
  rewrite Hin, Hidx. cbv zeta.
  assert (Hdrop : drop_chars (String.length pre + 7)
                    (pre ++ fence_open ++ body ++ fence ++ post)
                  = body ++ fence ++ post).
  { rewrite drop_chars_add. reflexivity. }
  unfold index_from. rewrite Hdrop.
  change (find fence (body ++ fence ++ post))
    with (find (String "`" "``") (body ++ String "`" "``" ++ post)).
  rewrite (find_after_lacks "`" "``" body post Hbody).
  f_equal. f_equal.
  replace (pre ++ fence_open ++ body ++ fence ++ post)
    with ((pre ++ fence_open) ++ body ++ fence ++ post)
    by (rewrite sapp_assoc; reflexivity).
  replace (String.length pre + 7) with (String.length (pre ++ fence_open))
    by (rewrite sapp_length; reflexivity).
  apply slice_middle.
Qed.

(** X2: a response without json fence yields the text from its first
    opening brace to its last closing brace, both included. *)
Theorem extract_json_braces (pre mid post : string) :
  str_in fence_open (pre ++ "{" ++ mid ++ "}" ++ post) = false ->
  lacks "{" pre = true ->
  lacks "}" post = true ->
  _extract_json (pre ++ "{" ++ mid ++ "}" ++ post) = Ok ("{" ++ mid ++ "}").
Proof.
  intros Hnf Hpre Hpost. unfold _extract_json. rewrite Hnf.
  rewrite (find_after_lacks "{" "" pre (mid ++ "}" ++ post) Hpre).
  replace (pre ++ "{" ++ mid ++ "}" ++ post)
    with ((pre ++ "{" ++ mid) ++ String "}" post)
    by (rewrite !sapp_assoc; reflexivity).
  rewrite (rfind_before_lacks "}" (pre ++ "{" ++ mid) post Hpost).
  f_equal.
  replace ((pre ++ "{" ++ mid) ++ String "}" post)
    with (pre ++ ("{" ++ mid ++ "}") ++ post)
    by (rewrite !sapp_assoc; reflexivity).
  replace (String.length (pre ++ "{" ++ mid) + 1)
    with (String.length pre + String.length ("{" ++ mid ++ "}")).
  - apply slice_middle.
  - rewrite !sapp_length. simpl. lia.
Qed.

(** X3: the documented failure, "Could not extract JSON from agent
    response", is raised exactly for a response that holds neither a json
    fence nor an opening brace. *)
Theorem extract_json_documented_failure (response : string) :
  _extract_json response = Raise could_not_extract <->
  str_in fence_open response = false /\ lacks "{" response = true.
Proof.
  unfold _extract_json. split.
  - destruct (str_in fence_open response) eqn:Hf.
    + unfold index_from.
      destruct (find fence_open (drop_chars 0 response)); [|discriminate].
      destruct (find fence _); discriminate.
    + destruct (find "{" response) eqn:Eb; [discriminate|].
      intros _. split; [reflexivity|]. apply lacks_find_none. exact Eb.
  - intros [Hf Hb]. rewrite Hf. apply lacks_find_none in Hb. rewrite Hb. reflexivity.
Qed.

(** X4: two failures the method does not announce.  A json fence with no
    backquote before it that is never closed raises [ValueError], whatever
    braces the response holds; and without fence, an opening brace with no
    closing brace anywhere yields the empty string instead of an error. *)
Theorem extract_json_unannounced_failures :
  (forall pre rest,
     lacks "`" pre = true ->
     str_in fence rest = false ->
     _extract_json (pre ++ fence_open ++ rest)
     = Raise (Exn "ValueError" "substring not found")) /\
  (forall response,
     str_in fence_open response = false ->
     lacks "{" response = false ->
     lacks "}" response = true ->
     _extract_json response = Ok "").
Proof.
  split.
  - intros pre rest Hpre Hrest. unfold _extract_json.
    destruct (fence_open_found pre rest Hpre) as [Hin Hidx].
    rewrite Hin, Hidx. cbv zeta. unfold index_from.
    rewrite drop_chars_add.
    change (drop_chars 7 (fence_open ++ rest)) with rest.
    apply find_none_iff in Hrest. rewrite Hrest. reflexivity.
  - intros response Hf Hopen Hclose. unfold _extract_json. rewrite Hf.
    destruct (find "{" response) as [start|] eqn:Eb.
    + rewrite (rfind_lacks "}" response Hclose). unfold slice.
      rewrite Nat.sub_0_l. f_equal. apply substring_empty.
    + apply lacks_find_none in Eb. congruence.
Qed.

End ExtractJson.

Lemma extract_json_fenced_witness :
  AgentResponse._extract_json
    ("Here is the plan: " ++ AgentResponse.fence_open ++ "
 {x: 1}
 " ++ AgentResponse.fence ++ " Good luck.")
  = Ok (PyText.strip "
 {x: 1}
 ").
Proof.
  apply (proj1 (extract_json_fenced "Here is the plan: " "
 {x: 1}
 " " Good luck." eq_refl eq_refl)).
Defined.

Lemma extract_json_braces_witness :
  AgentResponse._extract_json ("Plan: " ++ "{" ++ "a: {b: 2}" ++ "}" ++ " done")
  = Ok ("{" ++ "a: {b: 2}" ++ "}").
Proof.
  apply (extract_json_braces "Plan: " "a: {b: 2}" " done"); reflexivity.
Defined.

Lemma extract_json_unannounced_failures_witness :
  AgentResponse._extract_json ("note { x") = Ok "".
Proof.
  apply (proj2 extract_json_unannounced_failures "note { x"); reflexivity.
Defined.

(** ** Reading and rewriting work orders: every outcome *)
Section WorkOrderOutcomes.
Import Cosmos.
Context `{Runtime}.

Lemma required_parts_of_class (ps : list json) (e : exn) :
  required_parts_of ps = Raise e -> exc_class e = "AttributeError".
Proof.
  induction ps as [|p ps IH]; simpl; [discriminate|].
  destruct (required_part_of p) as [r|e'] eqn:Ep.
  - destruct (required_parts_of ps) as [rs|e'']; [discriminate|].
    intros E. injection E as <-. apply IH. reflexivity.
  - intros E. injection E as <-.
    destruct p; simpl in Ep; try discriminate; injection Ep as <-; reflexivity.
Qed.

(** A document that cannot be turned into a work order fails with an error
    of Python, not of the service. *)
Lemma work_order_of_item_class (it : item) (e : exn) :
  work_order_of_item it = Raise e -> is_CosmosHttpResponseError e = false.
Proof.
  unfold work_order_of_item.
  destruct (iterate _) as [ps|e'] eqn:Ei.
  - destruct (required_parts_of ps) as [parts|e''] eqn:Ep; [discriminate|].
    intros E. injection E as <-.
    apply required_parts_of_class in Ep.
    unfold is_CosmosHttpResponseError. rewrite Ep. reflexivity.
  - intros E. injection E as <-.
    destruct (get it "requiredParts" (JArr [])); simpl in Ei; try discriminate;
      injection Ei as <-; reflexivity.
Qed.

(** X5: [get_work_order] never changes the store.  An unreachable service
    and a missing container are both reported as [Exception] "Work order
    <id> not found: <cause>", an id that no document has as "Work order <id>
    not found"; otherwise the order is built from the first stored document
    with that id, and a document that cannot be converted lets its
    [TypeError] or [AttributeError] through unwrapped. *)
Theorem get_work_order_outcomes (i : string) (db : Database) :
  get_work_order i db
  = (if available db then
       match WorkOrders db with
       | None =>
           Raise (Exn "Exception"
                    ("Work order " ++ i ++ " not found: Resource Not Found"))
       | Some c =>
           match List.filter (has_id i) (docs c) with
           | [] => Raise (Exn "Exception" ("Work order " ++ i ++ " not found"))
           | it :: _ => work_order_of_item it
           end
       end
     else
       Raise (Exn "Exception"
                ("Work order " ++ i ++ " not found: Service Unavailable")),
     db).
Proof.
  unfold get_work_order, try_except_class, bind, query_items_by_id, bind,
    work_orders, ret, raise, lift.
  destruct (available db); simpl; [|reflexivity].
  destruct (WorkOrders db) as [c|]; simpl; [|reflexivity].
  change (fun d : item => match lookup_key d "id" with
                          | Some v => json_eqb_str v i
                          | None => false
                          end) with (has_id i).
  destruct (List.filter (has_id i) (docs c)) as [|it rest]; simpl; [reflexivity|].
  destruct (work_order_of_item it) as [wo|e] eqn:Ew; [reflexivity|].
  rewrite (work_order_of_item_class _ _ Ew). reflexivity.
Qed.

Lemma delete_item_inv (i : string) (pk : json) (db db1 : Database) (r : result unit) :
  delete_item i pk db = (r, db1) ->
  db1 = db \/
  exists c ds,
    WorkOrders db = Some c /\
    remove_first (doc_at (pk_path c) (JStr i) pk) (docs c) = Some ds /\
    db1 = put_docs db (pk_path c) ds.
Proof.
  unfold delete_item, bind.
  destruct (work_orders db) as [[c|e] db2] eqn:Ew;
    apply work_orders_inv in Ew as [-> Hc].
  - destruct (Hc c eq_refl) as [_ Hw].
    destruct (remove_first _ (docs c)) as [ds|] eqn:Er.
    + unfold set_work_orders, modify. intros E. injection E as _ <-.
      right. exists c, ds. auto.
    + unfold raise. intros E. injection E as _ <-. left. reflexivity.
  - intros E. injection E as _ <-. left. reflexivity.
Qed.

Lemma upsert_item_inv (body : item) (db db1 : Database) (r : result unit) :
  upsert_item body db = (r, db1) ->
  db1 = db \/
  exists c iv pk,
    WorkOrders db = Some c /\
    lookup_key body "id" = Some iv /\
    db1 = put_docs db (pk_path c)
            (replace_or_append (doc_at (pk_path c) iv pk) body (docs c)).
Proof.
  unfold upsert_item, bind.
  destruct (work_orders db) as [[c|e] db2] eqn:Ew;
    apply work_orders_inv in Ew as [-> Hc].
  - destruct (Hc c eq_refl) as [_ Hw].
    destruct (lookup_key body "id") as [iv|] eqn:Ei;
      [destruct (lookup_key body (pk_path c)) as [pk|] eqn:Ek|].
    + unfold set_work_orders, modify. intros E. injection E as _ <-.
      right. exists c, iv, pk. auto.
    + unfold raise. intros E. injection E as _ <-. left. reflexivity.
    + unfold raise. intros E. injection E as _ <-. left. reflexivity.
  - intros E. injection E as _ <-. left. reflexivity.
Qed.

(** The documents with another id, in their order. *)
Lemma remove_first_others (p q : item -> bool) (ds r : list item) :
  (forall d, p d = true -> q d = true) ->
  remove_first p ds = Some r ->
  List.filter (fun d => negb (q d)) r = List.filter (fun d => negb (q d)) ds.
Proof.
  intros Hpq. revert r.
  induction ds as [|d ds IH]; simpl; intros r Hr; [discriminate|].
  destruct (p d) eqn:Ep.
  - injection Hr as <-. rewrite (Hpq _ Ep). reflexivity.
  - destruct (remove_first p ds) as [r'|]; [|discriminate].
    injection Hr as <-. simpl. rewrite (IH r' eq_refl). reflexivity.
Qed.

Lemma replace_or_append_others (p q : item -> bool) (body : item) (ds : list item) :
  (forall d, p d = true -> q d = true) ->
  q body = true ->
  List.filter (fun d => negb (q d)) (replace_or_append p body ds)
  = List.filter (fun d => negb (q d)) ds.
Proof.
  intros Hpq Hb.
  induction ds as [|d ds IH]; simpl.
  - rewrite Hb. reflexivity.
  - destruct (p d) eqn:Ep; simpl.
    + rewrite Hb, (Hpq _ Ep). reflexivity.
    + rewrite IH. reflexivity.
Qed.

(** X6: whatever [update_work_order_status] does for the id [i], and
    however it ends (also when it raises half way, after the delete), the
    documents with any other id stay in the container, unchanged and in
    their order; the chat histories and the partition key path are not
    touched, and no container is created. *)
Theorem update_work_order_status_others (i st : string) (db db' : Database)
    (r : result unit) :
  update_work_order_status i st db = (r, db') ->
  available db' = available db /\
  ChatHistories db' = ChatHistories db /\
  match WorkOrders db, WorkOrders db' with
  | None, None => True
  | Some c, Some c' =>
      pk_path c' = pk_path c /\
      List.filter (fun d => negb (has_id i d)) (docs c')
      = List.filter (fun d => negb (has_id i d)) (docs c)
  | _, _ => False
  end.
Proof.
  assert (Hsame : forall d : Database,
            available d = available d /\ ChatHistories d = ChatHistories d /\
            match WorkOrders d, WorkOrders d with
            | None, None => True
            | Some c, Some c' =>
                pk_path c' = pk_path c /\
                List.filter (fun x => negb (has_id i x)) (docs c')
                = List.filter (fun x => negb (has_id i x)) (docs c)
            | _, _ => False
            end).
  { intros d. split; [reflexivity|]. split; [reflexivity|].
    destruct (WorkOrders d); auto. }
  unfold update_work_order_status, bind.
  destruct (get_work_order i db) as [[wo|e] db1] eqn:Eg;
    pose proof (get_work_order_state _ _ _ _ Eg) as ->;
    [|intros E; injection E as _ <-; apply Hsame].
  destruct (get_work_order_ok_inv _ _ _ _ Eg) as (Ha & c & it0 & rest & Hc & Hf & Hp).
  assert (Hwid : wo_id wo = JStr i).
  { rewrite (work_order_of_item_id _ _ Hp). apply has_id_get.
    assert (Hin : In it0 (List.filter (has_id i) (docs c)))
      by (rewrite Hf; left; reflexivity).
    apply filter_In in Hin. tauto. }
  destruct (delete_item i (status wo) db) as [[[]|e] db1] eqn:Ed;
    apply delete_item_inv in Ed as [->|(c1 & ds & Hc1 & Er & ->)].
  - (* the delete changed nothing *)
    intros Hup. apply upsert_item_inv in Hup as [->|(c2 & iv & pk & Hc2 & Hiv & ->)];
      [apply Hsame|].
    assert (c2 = c) as -> by congruence.
    assert (iv = JStr i) as ->.
    { unfold work_order_item in Hiv. simpl in Hiv. congruence. }
    split; [reflexivity|]. split; [reflexivity|].
    rewrite Hc. simpl. split; [reflexivity|].
    apply replace_or_append_others.
    + intros d. apply doc_at_has_id.
    + unfold has_id, work_order_item. simpl. rewrite Hwid. simpl.
      apply String.eqb_refl.
  - assert (c1 = c) as -> by congruence.
    assert (Hds : List.filter (fun d => negb (has_id i d)) ds
                  = List.filter (fun d => negb (has_id i d)) (docs c)).
    { eapply remove_first_others; [|exact Er]. intros d. apply doc_at_has_id. }
    intros Hup. apply upsert_item_inv in Hup as [->|(c2 & iv & pk & Hc2 & Hiv & ->)].
    + split; [reflexivity|]. split; [reflexivity|].
      rewrite Hc. simpl. split; [reflexivity|exact Hds].
    + simpl in Hc2. injection Hc2 as <-.
      assert (iv = JStr i) as ->.
      { unfold work_order_item in Hiv. simpl in Hiv. congruence. }
      split; [reflexivity|]. split; [reflexivity|].
      rewrite Hc. simpl. split; [reflexivity|].
      rewrite <- Hds. apply replace_or_append_others.
      * intros d. apply doc_at_has_id.
      * unfold has_id, work_order_item. simpl. rewrite Hwid. simpl.
        apply String.eqb_refl.
  - intros E. injection E as _ <-. apply Hsame.
  - assert (c1 = c) as -> by congruence.
    intros E. injection E as _ <-.
    split; [reflexivity|]. split; [reflexivity|].
    rewrite Hc. simpl. split; [reflexivity|].
    eapply remove_first_others; [|exact Er]. intros d. apply doc_at_has_id.
Qed.

Lemma replace_Z_app (a b : string) :
  replace_Z (a ++ b) = replace_Z a ++ replace_Z b.
Proof.
  induction a as [|c a IH]; [reflexivity|].
  rewrite sapp_cons. simpl. rewrite IH.
  destruct (Ascii.eqb c "Z").
  - rewrite sapp_assoc. reflexivity.
  - rewrite sapp_cons. reflexivity.
Qed.

Lemma lacks_app (c : ascii) (a b : string) :
  PyText.lacks c (a ++ b) = PyText.lacks c a && PyText.lacks c b.
Proof.
  induction a as [|x a IH]; [reflexivity|].
  rewrite sapp_cons. simpl. rewrite IH. apply andb_assoc.
Qed.

Lemma replace_Z_lacks (s : string) : PyText.lacks "Z" (replace_Z s) = true.
Proof.
  induction s as [|c s IH]; [reflexivity|].
  simpl. destruct (Ascii.eqb c "Z") eqn:E.
  - rewrite lacks_app, IH. reflexivity.
  - simpl. rewrite IH.
    destruct (Ascii.eqb_spec c "Z") as [->|Hne]; [discriminate|].
    destruct (Ascii.eqb_spec "Z"%char c) as [<-|_]; [congruence|].
    simpl. reflexivity.
Qed.

Lemma replace_Z_id (s : string) : PyText.lacks "Z" s = true -> replace_Z s = s.
Proof.
  induction s as [|c s IH]; [reflexivity|].
  simpl. intros E. apply andb_true_iff in E as [Ec Es].
  destruct (Ascii.eqb_spec c "Z") as [->|Hne]; [discriminate|].
  rewrite IH by exact Es. reflexivity.
Qed.

(** X7: [_parse_datetime] rewrites every [Z] of the text as [+00:00], not
    only a final one, before it calls the ISO parser: a text with a [Z]
    between [a] and [b] is parsed as [a], [+00:00] and [b] with their own
    [Z]s rewritten, so the parser never sees a [Z]; a part without [Z] is
    handed over as it is. *)
Theorem parse_datetime_replaces_every_Z (a b : string) :
  let text := replace_Z a ++ "+00:00" ++ replace_Z b in
  _parse_datetime (JStr (a ++ "Z" ++ b)) = fromisoformat text /\
  PyText.lacks "Z" text = true /\
  (PyText.lacks "Z" a = true -> PyText.lacks "Z" b = true ->
   text = a ++ "+00:00" ++ b).
Proof.
  intros text. subst text. split; [|split].
  - unfold _parse_datetime.
    assert (Ht : json_truthy (JStr (a ++ "Z" ++ b)) = true).
    { destruct a; reflexivity. }
    rewrite Ht. simpl negb. cbv iota. unfold str.
    rewrite replace_Z_app.
    change (replace_Z ("Z" ++ b)) with ("+00:00" ++ replace_Z b).
    reflexivity.
  - rewrite !lacks_app, !replace_Z_lacks. reflexivity.
  - intros Ha Hb. rewrite !replace_Z_id by assumption. reflexivity.
Qed.

End WorkOrderOutcomes.

Lemma update_work_order_status_others_witness :
  let H := Cosmos.one_instant_runtime in
  let db := Cosmos.db_one_order in
  let db' := snd (Cosmos.update_work_order_status "wo-2024-468" "Ready" db) in
  Cosmos.available db' = Cosmos.available db /\
  Cosmos.ChatHistories db' = Cosmos.ChatHistories db /\
  match Cosmos.WorkOrders db, Cosmos.WorkOrders db' with
  | None, None => True
  | Some c, Some c' =>
      Cosmos.pk_path c' = Cosmos.pk_path c /\
      List.filter (fun d => negb (Cosmos.has_id "wo-2024-468" d)) (Cosmos.docs c')
      = List.filter (fun d => negb (Cosmos.has_id "wo-2024-468" d)) (Cosmos.docs c)
  | _, _ => False
  end.
Proof.
  intros H db db'.
  apply (@update_work_order_status_others H "wo-2024-468" "Ready" db db' (Ok tt)).
  reflexivity.
Defined.

Lemma parse_datetime_replaces_every_Z_witness :
  let H := Cosmos.one_instant_runtime in
  Cosmos._parse_datetime (Cosmos.JStr ("2024-03-01T08:00:00" ++ "Z" ++ ""))
  = Some tt.
Proof.
  intros H.
  rewrite (proj1 (@parse_datetime_replaces_every_Z H "2024-03-01T08:00:00" "")).
  reflexivity.
Defined.

(** ** Chat histories: what is kept and what reaches the prompt *)
Section Histories.
Import Cosmos CosmosMore Scheduler Conversations.
Context `{Runtime}.

Lemma save_machine_chat_history_run (now m : string) (t : json_text) (db : Database) :
  available db = true ->
  save_machine_chat_history now m t db
  = (Ok tt, with_history db {| ch_id := m; entityId := m; entityType := "machine";
                               historyJson := Some t;
                               purpose := "predictive_maintenance";
                               updatedAt := now |}).
Proof.
  intros Hav.
  unfold save_machine_chat_history, bind, _ensure_chat_histories,
    try_except_class, set_chat_histories, modify, ret, with_history.
  rewrite Hav. simpl.
  destruct (ChatHistories db) as [ds|]; simpl; rewrite ?Hav; reflexivity.
Qed.

Lemma save_work_order_chat_history_run (now k : string) (t : json_text)
    (db : Database) :
  available db = true ->
  save_work_order_chat_history now k t db
  = (Ok tt, with_history db {| ch_id := k; entityId := k; entityType := "workorder";
                               historyJson := Some t;
                               purpose := "parts_ordering";
                               updatedAt := now |}).
Proof.
  intros Hav.
  unfold save_work_order_chat_history, bind, _ensure_chat_histories,
    try_except_class, set_chat_histories, modify, ret, with_history.
  rewrite Hav. simpl.
  destruct (ChatHistories db) as [ds|]; simpl; rewrite ?Hav; reflexivity.
Qed.

Lemma find_upsert_chat_other (d : ChatHistoryDoc) (ds : list ChatHistoryDoc)
    (k : string) :
  k <> ch_id d ->
  List.find (fun x => String.eqb (ch_id x) k && String.eqb (entityId x) k)
            (upsert_chat d ds)
  = List.find (fun x => String.eqb (ch_id x) k && String.eqb (entityId x) k) ds.
Proof.
  intros Hne.
  assert (Hd : String.eqb (ch_id d) k = false).
  { apply String.eqb_neq. congruence. }
  induction ds as [|d' ds IH]; simpl.
  - rewrite Hd. reflexivity.
  - destruct (String.eqb (ch_id d') (ch_id d) &&
              String.eqb (entityId d') (entityId d)) eqn:E; simpl.
    + rewrite Hd. simpl.
      apply andb_true_iff in E as [E _]. apply String.eqb_eq in E.
      rewrite E, Hd. reflexivity.
    + rewrite IH. reflexivity.
Qed.

(** What a read finds after a write under the key [k]. *)
Lemma stored_history_with_history (db : Database) (d : ChatHistoryDoc) (k : string) :
  ch_id d = entityId d ->
  stored_history (with_history db d) k
  = if String.eqb k (ch_id d) then historyJson d else stored_history db k.
Proof.
  intros Hk. unfold stored_history, with_history. simpl.
  destruct (String.eqb_spec k (ch_id d)) as [->|Hne].
  - pose proof (find_upsert_chat d (default [] (ChatHistories db))) as Hf.
    rewrite <- Hk in Hf. rewrite Hf. reflexivity.
  - rewrite find_upsert_chat_other by exact Hne.
    destruct (ChatHistories db); reflexivity.
Qed.

Lemma get_work_order_chat_history_available (db : Database) (k : string) :
  available db = true ->
  get_work_order_chat_history k db = (Ok (stored_history db k), db).
Proof. exact (get_machine_chat_history_available db k). Qed.

(** X8: a history text saved for a machine is what the next read for that
    machine returns, also when the container had to be created; the reads
    for every other id, and the work orders, are as before. *)
Theorem machine_chat_history_roundtrip (now m : string) (t : json_text)
    (db : Database) :
  available db = true ->
  exists db',
    save_machine_chat_history now m t db = (Ok tt, db') /\
    get_machine_chat_history m db' = (Ok (Some t), db') /\
    (forall m', m' <> m ->
       fst (get_machine_chat_history m' db') = fst (get_machine_chat_history m' db)) /\
    WorkOrders db' = WorkOrders db.
Proof.
  intros Hav. eexists. split; [apply save_machine_chat_history_run; exact Hav|].
  split; [|split; [|reflexivity]].
  - rewrite get_machine_chat_history_available by exact Hav.
    rewrite stored_history_with_history by reflexivity.
    simpl. rewrite String.eqb_refl. reflexivity.
  - intros m' Hne.
    rewrite !get_machine_chat_history_available by exact Hav.
    rewrite stored_history_with_history by reflexivity.
    simpl. destruct (String.eqb_spec m' m); [contradiction|reflexivity].
Qed.

(** Both reads end normally, with the same answer and the store as it
    was. *)
Lemma chat_history_reads_total_aux (k : string) (db : Database) :
  exists o,
    get_machine_chat_history k db = (Ok o, db) /\
    get_work_order_chat_history k db = (Ok o, db).
Proof.
  unfold get_work_order_chat_history, get_machine_chat_history, try_except, bind,
    read_chat_item, ret.
  destruct (available db); simpl; [|eauto].
  destruct (ChatHistories db) as [ds|]; [|eauto].
  destruct (List.find _ ds); eauto.
Qed.

(** X9: the two reads of a history never raise and never write.  With the
    service unreachable, with no [ChatHistories] container, and with no
    document under the id, the answer is the same [None]. *)
Theorem chat_history_reads_total (k : string) (db : Database) :
  exists o,
    get_machine_chat_history k db = (Ok o, db) /\
    get_work_order_chat_history k db = (Ok o, db) /\
    (available db = false \/ ChatHistories db = None \/
     (exists ds, ChatHistories db = Some ds /\
                 forall d, In d ds -> ch_id d <> k) ->
     o = None).
Proof.
  unfold get_work_order_chat_history, get_machine_chat_history, try_except, bind,
    read_chat_item, ret.
  destruct (available db) eqn:Hav; simpl.
  - destruct (ChatHistories db) as [ds|] eqn:Hds.
    + destruct (List.find _ ds) as [d|] eqn:Hf.
      * exists (historyJson d). split; [reflexivity|]. split; [reflexivity|].
        intros [Hx|[Hx|(ds' & Hx & Hno)]]; try discriminate.
        injection Hx as <-. apply find_some in Hf as [Hin Hk].
        apply andb_true_iff in Hk as [Hk _]. apply String.eqb_eq in Hk.
        exfalso. exact (Hno d Hin Hk).
      * exists None. auto.
    + exists None. auto.
  - exists None. auto.
Qed.

(** X10: machine and work-order histories share one container and are
    keyed by the bare id.  A history saved for the work order [k] is what
    the read of the machine history under [k] returns afterwards: an id used
    for both has one history, the one written last. *)
Theorem work_order_history_shares_container (now k : string) (t : json_text)
    (db : Database) :
  available db = true ->
  exists db',
    save_work_order_chat_history now k t db = (Ok tt, db') /\
    get_work_order_chat_history k db' = (Ok (Some t), db') /\
    get_machine_chat_history k db' = (Ok (Some t), db').
Proof.
  intros Hav. eexists.
  split; [apply save_work_order_chat_history_run; exact Hav|].
  rewrite get_work_order_chat_history_available,
    get_machine_chat_history_available by exact Hav.
  rewrite stored_history_with_history by reflexivity.
  simpl. rewrite String.eqb_refl. split; reflexivity.
Qed.

(** The scheduler's save, when it goes through. *)
Lemma save_interaction_history_step (now m u a : string) (db : Database)
    (old : list json) :
  available db = true ->
  prior_messages db m = Some old ->
  exists db',
    _save_interaction_history now m u a db = (Ok tt, db') /\
    available db' = true /\
    stored_history db' m
    = Some (Encoded (JArr (last_n 10 (old ++ [chat_message "user" u;
                                              chat_message "assistant" a])))).
Proof.
  intros Hav Hprior.
  set (new := [chat_message "user" u; chat_message "assistant" a]).
  pose proof (save_machine_chat_history_run now m
                (json_dumps (JArr (last_n 10 (old ++ new)))) db Hav) as Hsave.
  eexists. split; [|split].
  - unfold _save_interaction_history, try_except, bind.
    rewrite (get_machine_chat_history_available db m Hav).
    unfold prior_messages in Hprior.
    assert (Hload :
      (match stored_history db m with
       | Some t => if text_truthy t then json_loads t else Ok (JArr [])
       | None => Ok (JArr [])
       end) = Ok (JArr old)).
    { destruct (stored_history db m) as [t|].
      - destruct (text_truthy t) eqn:Et.
        + destruct t as [v|raw]; [|discriminate].
          destruct v; try discriminate. injection Hprior as <-. reflexivity.
        + injection Hprior as <-. reflexivity.
      - injection Hprior as <-. reflexivity. }
    unfold lift. rewrite Hload. simpl.
    subst new. rewrite <- ?app_assoc. cbn [app] in Hsave |- *.
    rewrite Hsave. reflexivity.
  - exact Hav.
  - rewrite stored_history_with_history by reflexivity.
    simpl. rewrite String.eqb_refl. reflexivity.
Qed.

(** A stored history text that is not the encoding of a list, whether it
    does not decode or decodes to something else, makes the save a no-op:
    the handler swallows the error and the store is left as it was. *)
Lemma save_interaction_history_swallows (now m u a : string) (db : Database) :
  prior_messages db m = None ->
  _save_interaction_history now m u a db = (Ok tt, db).
Proof.
  intros Hprior.
  destruct (available db) eqn:Hav;
    [|apply save_interaction_history_unavailable; exact Hav].
  unfold _save_interaction_history, try_except, bind.
  rewrite (get_machine_chat_history_available db m Hav).
  unfold prior_messages in Hprior. unfold lift.
  destruct (stored_history db m) as [t|]; [|discriminate].
  destruct (text_truthy t); [|discriminate].
  destruct t as [v|raw]; [|reflexivity].
  destruct v; try discriminate; reflexivity.
Qed.

(** Keeping the last [n] twice is keeping the last [n]. *)
Lemma last_n_app_last_n {A} (n : nat) (xs ys : list A) :
  last_n n (last_n n xs ++ ys) = last_n n (xs ++ ys).
Proof.
  unfold last_n. rewrite !length_app, length_drop.
  destruct (le_lt_dec (length xs) n) as [Hle|Hlt].
  - replace (length xs - n) with 0 by lia. rewrite drop_0.
    replace (length xs - 0) with (length xs) by lia. reflexivity.
  - replace (length xs - (length xs - n) + length ys - n) with (length ys) by lia.
    replace (length xs + length ys - n) with ((length xs - n) + length ys) by lia.
    rewrite <- drop_drop.
    rewrite (drop_app_le xs ys (length xs - n)) by lia. reflexivity.
Qed.

Lemma save_interactions_run (now m : string) (ias : list (string * string)) :
  forall (db : Database) (old : list json),
    available db = true ->
    prior_messages db m = Some old ->
    exists db',
      save_interactions now m ias db = (Ok tt, db') /\
      available db' = true /\
      prior_messages db' m
      = Some (match ias with
              | [] => old
              | _ => last_n 10 (old ++ interaction_messages ias)
              end) /\
      (ias <> [] ->
       persisted_messages db' m
       = Some (last_n 10 (old ++ interaction_messages ias))).
Proof.
  induction ias as [|[u a] rest IH]; intros db old Hav Hprior.
  - exists db. split; [reflexivity|]. split; [exact Hav|].
    split; [exact Hprior|]. congruence.
  - destruct (save_interaction_history_step now m u a db old Hav Hprior)
      as (db1 & Hstep & Hav1 & Hst1).
    assert (Hprior1 : prior_messages db1 m
                      = Some (last_n 10 (old ++ [chat_message "user" u;
                                                 chat_message "assistant" a]))).
    { unfold prior_messages. rewrite Hst1. reflexivity. }
    destruct (IH db1 _ Hav1 Hprior1) as (db2 & Hrun & Hav2 & Hprior2 & Hpers2).
    exists db2. split.
    { cbn [save_interactions]. unfold bind. rewrite Hstep. exact Hrun. }
    split; [exact Hav2|].
    assert (Hmsgs : interaction_messages ((u, a) :: rest)
                    = ([chat_message "user" u; chat_message "assistant" a]
                       ++ interaction_messages rest)%list) by reflexivity.
    destruct rest as [|ia rest].
    + simpl in Hrun. injection Hrun as <-.
      split; [exact Hprior1|]. intros _.
      unfold persisted_messages. rewrite Hst1. reflexivity.
    + rewrite last_n_app_last_n, <- app_assoc, <- Hmsgs in Hprior2.
      split; [exact Hprior2|]. intros _.
      rewrite Hpers2 by discriminate.
      rewrite last_n_app_last_n, <- app_assoc, <- Hmsgs. reflexivity.
Qed.

(** X11: saving one interaction after another keeps, for the machine, the
    last ten of all messages: those the store began with followed by the
    user and assistant message of every interaction, in order. *)
Theorem save_interactions_accumulate (now m : string)
    (ias : list (string * string)) (db : Database) (old : list json) :
  available db = true ->
  prior_messages db m = Some old ->
  ias <> [] ->
  exists db',
    save_interactions now m ias db = (Ok tt, db') /\
    persisted_messages db' m
    = Some (last_n 10 (old ++ interaction_messages ias)).
Proof.
  intros Hav Hprior Hne.
  destruct (save_interactions_run now m ias db old Hav Hprior)
    as (db' & Hrun & _ & _ & Hpers).
  exists db'. split; [exact Hrun|]. apply Hpers. exact Hne.
Qed.

(** X12: the parts agent keeps only the last exchange.  Whatever the store
    held for the work order, after a save that goes through its history is
    exactly the two new messages; with the service unreachable the call
    still returns normally, and nothing is written. *)
Theorem parts_history_is_last_exchange (now k u a : string) (db : Database) :
  (available db = true ->
   exists db',
     parts_save_interaction_history now k u a db = (Ok tt, db') /\
     get_work_order_chat_history k db'
     = (Ok (Some (Encoded (JArr [chat_message "user" u;
                                 chat_message "assistant" a]))), db')) /\
  (available db = false ->
   parts_save_interaction_history now k u a db = (Ok tt, db)).
Proof.
  split; intros Hav.
  - eexists. split.
    + unfold parts_save_interaction_history, try_except.
      rewrite save_work_order_chat_history_run by exact Hav. reflexivity.
    + rewrite get_work_order_chat_history_available by exact Hav.
      rewrite stored_history_with_history by reflexivity.
      simpl. rewrite String.eqb_refl. reflexivity.
  - unfold parts_save_interaction_history, try_except,
      save_work_order_chat_history, bind, _ensure_chat_histories,
      try_except_class, ret.
    rewrite Hav. reflexivity.
Qed.

End Histories.

Lemma machine_chat_history_roundtrip_witness :
  exists db',
    Cosmos.save_machine_chat_history "2025-01-02T00:00:00" "machine-001"
      (Cosmos.Encoded (Cosmos.JArr [])) Cosmos.db_one_order = (Ok tt, db') /\
    Cosmos.get_machine_chat_history "machine-001" db'
    = (Ok (Some (Cosmos.Encoded (Cosmos.JArr []))), db') /\
    (forall m', m' <> "machine-001" ->
       fst (Cosmos.get_machine_chat_history m' db')
       = fst (Cosmos.get_machine_chat_history m' Cosmos.db_one_order)) /\
    Cosmos.WorkOrders db' = Cosmos.WorkOrders Cosmos.db_one_order.
Proof.
  apply (machine_chat_history_roundtrip "2025-01-02T00:00:00" "machine-001"
           (Cosmos.Encoded (Cosmos.JArr [])) Cosmos.db_one_order).
  reflexivity.
Defined.

Lemma chat_history_reads_total_witness :
  exists o,
    Cosmos.get_machine_chat_history "machine-001" Cosmos.db_one_order
    = (Ok o, Cosmos.db_one_order) /\
    o = None.
Proof.
  destruct (chat_history_reads_total "machine-001" Cosmos.db_one_order)
    as (o & Hm & _ & Hnone).
  exists o. split; [exact Hm|].
  apply Hnone. right. left. reflexivity.
Defined.

Lemma work_order_history_shares_container_witness :
  exists db',
    CosmosMore.save_work_order_chat_history "2025-01-02T00:00:00" "machine-001"
      (Cosmos.Encoded (Cosmos.JArr [])) Scheduler.db_full_history = (Ok tt, db') /\
    CosmosMore.get_work_order_chat_history "machine-001" db'
    = (Ok (Some (Cosmos.Encoded (Cosmos.JArr []))), db') /\
    Cosmos.get_machine_chat_history "machine-001" db'
    = (Ok (Some (Cosmos.Encoded (Cosmos.JArr []))), db').
Proof.
  apply (work_order_history_shares_container "2025-01-02T00:00:00" "machine-001"
           (Cosmos.Encoded (Cosmos.JArr [])) Scheduler.db_full_history).
  reflexivity.
Defined.

Lemma save_interactions_accumulate_witness :
  exists db',
    Conversations.save_interactions "2025-01-02T00:00:00" "machine-001"
      [("p1", "r1"); ("p2", "r2")] Scheduler.db_full_history = (Ok tt, db') /\
    Scheduler.persisted_messages db' "machine-001"
    = Some (Scheduler.last_n 10
              (Scheduler.ten_messages ++
               Conversations.interaction_messages [("p1", "r1"); ("p2", "r2")])).
Proof.
  apply (save_interactions_accumulate "2025-01-02T00:00:00" "machine-001"
           [("p1", "r1"); ("p2", "r2")] Scheduler.db_full_history
           Scheduler.ten_messages).
  - reflexivity.
  - reflexivity.
  - discriminate.
Defined.

Lemma parts_history_is_last_exchange_witness :
  exists db',
    Conversations.parts_save_interaction_history "2025-01-02T00:00:00"
      "wo-2024-468" "order two bearings" "done" Conversations.db_one_exchange
    = (Ok tt, db') /\
    CosmosMore.get_work_order_chat_history "wo-2024-468" db'
    = (Ok (Some (Cosmos.Encoded
                   (Cosmos.JArr [Scheduler.chat_message "user" "order two bearings";
                                 Scheduler.chat_message "assistant" "done"]))), db').
Proof.
  apply (proj1 (parts_history_is_last_exchange "2025-01-02T00:00:00"
                  "wo-2024-468" "order two bearings" "done"
                  Conversations.db_one_exchange)).
  reflexivity.
Defined.

(** ** The conversation with the hosted model *)
Section PromptFacts.
Import Cosmos CosmosMore Scheduler Conversations.
Context `{Runtime}.

Lemma history_lines_malformed (msgs : list json) (m : json) (e : exn) :
  In m msgs -> history_line m = Raise e ->
  exists e', history_lines msgs = Raise e'.
Proof.
  induction msgs as [|x msgs IH]; intros Hin Hm; [destruct Hin|].
  simpl. destruct Hin as [->|Hin].
  - rewrite Hm. eauto.
  - destruct (history_line x) as [line|e1]; [|eauto].
    destruct (IH Hin Hm) as (e' & ->). eauto.
Qed.

(** A message without a role or a content, or that is no object at all. *)
Lemma history_line_malformed (m : json) :
  match m with
  | JObj d => lookup_key d "role" = None \/ lookup_key d "content" = None
  | _ => True
  end ->
  exists e, history_line m = Raise e.
Proof.
  unfold history_line, subscript.
  destruct m as [| | | | |d]; try (intros _; eexists; reflexivity).
  intros [Hr|Hc].
  - rewrite Hr. eauto.
  - rewrite Hc. destruct (lookup_key d "role"); eauto.
Qed.

(** X13: the parts agent stores the whole prompt as the user message, and
    the next prompt quotes the stored exchange in full.  With the exchange
    [u0], [a0] stored for the work order, the model is asked the prompt
    below, and what is stored afterwards is that prompt, with [u0] and [a0]
    inside it, and the new answer: the stored user message grows with every
    round. *)
Theorem parts_history_nests (agent_run : string -> result string)
    (now k context u0 a0 a1 : string) (db : Database) :
  let prompt := "Previous conversation:" ++ nl ++
                ("user: " ++ u0 ++ nl ++ "assistant: " ++ a0) ++
                nl ++ nl ++ context in
  available db = true ->
  stored_history db k
  = Some (Encoded (JArr [chat_message "user" u0; chat_message "assistant" a0])) ->
  agent_run prompt = Ok a1 ->
  exists db',
    parts_converse agent_run now k context db = (Ok a1, db') /\
    stored_history db' k
    = Some (Encoded (JArr [chat_message "user" prompt;
                           chat_message "assistant" a1])) /\
    String.length u0 + String.length a0 + String.length context
    < String.length prompt.
Proof.
  intros prompt Hav Hst Hrun.
  assert (Hprompt : parts_full_context context (stored_history db k) = prompt).
  { rewrite Hst. reflexivity. }
  eexists. split; [|split].
  - unfold parts_converse, bind.
    rewrite get_work_order_chat_history_available by exact Hav.
    rewrite Hprompt. unfold lift. rewrite Hrun.
    unfold parts_save_interaction_history, try_except.
    rewrite save_work_order_chat_history_run by exact Hav.
    reflexivity.
  - rewrite stored_history_with_history by reflexivity.
    simpl. rewrite String.eqb_refl. reflexivity.
  - subst prompt. rewrite !sapp_length. simpl. lia.
Qed.

(** X14: the scheduler stores the bare context, not the prompt it sent.
    The model is asked the context preceded by the recent history, and what
    is kept afterwards is the last ten of the earlier messages, the context
    and the answer. *)
Theorem scheduler_keeps_bare_context (agent_run : string -> result string)
    (now m context a1 : string) (db : Database) (old : list json) :
  available db = true ->
  prior_messages db m = Some old ->
  agent_run (scheduler_full_prompt context (stored_history db m)) = Ok a1 ->
  exists db',
    scheduler_converse agent_run now m context db = (Ok a1, db') /\
    persisted_messages db' m
    = Some (last_n 10 (old ++ [chat_message "user" context;
                               chat_message "assistant" a1])).
Proof.
  intros Hav Hprior Hrun.
  destruct (save_interaction_history_step now m context a1 db old Hav Hprior)
    as (db' & Hstep & _ & Hst).
  exists db'. split.
  - unfold scheduler_converse, bind.
    rewrite get_machine_chat_history_available by exact Hav.
    unfold lift. rewrite Hrun, Hstep. reflexivity.
  - unfold persisted_messages. rewrite Hst. reflexivity.
Qed.

(** X15: a failure of the model call is not caught by either agent: the
    exception leaves the conversation as it is, and nothing is written to
    the store. *)
Theorem model_failure_propagates (agent_run : string -> result string)
    (now k context : string) (db : Database) (e : exn) :
  (forall prompt, agent_run prompt = Raise e) ->
  scheduler_converse agent_run now k context db = (Raise e, db) /\
  parts_converse agent_run now k context db = (Raise e, db).
Proof.
  intros Hfail.
  destruct (chat_history_reads_total_aux k db) as (o & Hm & Hw).
  unfold scheduler_converse, parts_converse, bind, lift.
  rewrite Hm, Hw, !Hfail. split; reflexivity.
Qed.

Lemma last_n_app_ge {A} (n : nat) (front recent : list A) :
  n <= length recent -> last_n n (front ++ recent) = last_n n recent.
Proof.
  intros Hn. unfold last_n. rewrite length_app.
  replace (length front + length recent - n)
    with (length front + (length recent - n)) by lia.
  rewrite drop_app_add. reflexivity.
Qed.

(** X16: only the five most recent stored messages reach the scheduler's
    prompt.  Whatever precedes them in the stored list, entries that are not
    messages included, changes nothing. *)
Theorem scheduler_prompt_window (context : string) (front recent : list json) :
  5 <= length recent ->
  scheduler_full_prompt context (Some (Encoded (JArr (front ++ recent))))
  = scheduler_full_prompt context (Some (Encoded (JArr recent))).
Proof.
  intros Hn. unfold scheduler_full_prompt. simpl.
  rewrite last_n_app_ge by exact Hn. reflexivity.
Qed.

(** X17: one entry that is not a message with a role and a content costs
    the whole history.  The parts agent then sends the bare context when the
    entry is anywhere in the stored list, the scheduler when it is among the
    last five. *)
Theorem malformed_message_drops_history (context : string) (msgs : list json)
    (m : json) :
  match m with
  | JObj d => lookup_key d "role" = None \/ lookup_key d "content" = None
  | _ => True
  end ->
  (In m msgs ->
   parts_full_context context (Some (Encoded (JArr msgs))) = context) /\
  (In m (last_n 5 msgs) ->
   scheduler_full_prompt context (Some (Encoded (JArr msgs))) = context).
Proof.
  intros Hbad. destruct (history_line_malformed m Hbad) as (e & He).
  split; intros Hin.
  - destruct (history_lines_malformed msgs m e Hin He) as (e' & Hl).
    unfold parts_full_context. simpl. rewrite Hl. reflexivity.
  - destruct (history_lines_malformed _ m e Hin He) as (e' & Hl).
    unfold scheduler_full_prompt. simpl. rewrite Hl. reflexivity.
Qed.

End PromptFacts.

Lemma parts_history_nests_witness :
  let H := Cosmos.one_instant_runtime in
  let prompt := "Previous conversation:" ++ Conversations.nl ++
                ("user: " ++ "order a bearing" ++ Conversations.nl ++
                 "assistant: " ++ "ordered") ++
                Conversations.nl ++ Conversations.nl ++ "order a seal" in
  exists db',
    Conversations.parts_converse (fun _ => Ok "ordered too")
      "2025-01-02T00:00:00" "wo-2024-468" "order a seal"
      Conversations.db_one_exchange = (Ok "ordered too", db') /\
    Scheduler.stored_history db' "wo-2024-468"
    = Some (Cosmos.Encoded
              (Cosmos.JArr [Scheduler.chat_message "user" prompt;
                            Scheduler.chat_message "assistant" "ordered too"])) /\
    String.length "order a bearing" + String.length "ordered" +
    String.length "order a seal" < String.length prompt.
Proof.
  intros H prompt.
  apply (@parts_history_nests H (fun _ => Ok "ordered too")
           "2025-01-02T00:00:00" "wo-2024-468" "order a seal"
           "order a bearing" "ordered" "ordered too"
           Conversations.db_one_exchange).
  - reflexivity.
  - reflexivity.
  - reflexivity.
Defined.

Lemma scheduler_keeps_bare_context_witness :
  let H := Cosmos.one_instant_runtime in
  exists db',
    Conversations.scheduler_converse (fun _ => Ok "schedule it on Monday")
      "2025-01-02T00:00:00" "machine-001" "work order wo-2024-468"
      Scheduler.db_full_history = (Ok "schedule it on Monday", db') /\
    Scheduler.persisted_messages db' "machine-001"
    = Some (Scheduler.last_n 10
              (Scheduler.ten_messages ++
               [Scheduler.chat_message "user" "work order wo-2024-468";
                Scheduler.chat_message "assistant" "schedule it on Monday"])).
Proof.
  intros H.
  apply (@scheduler_keeps_bare_context H (fun _ => Ok "schedule it on Monday")
           "2025-01-02T00:00:00" "machine-001" "work order wo-2024-468"
           "schedule it on Monday" Scheduler.db_full_history
           Scheduler.ten_messages).
  - reflexivity.
  - reflexivity.
  - reflexivity.
Defined.

Lemma model_failure_propagates_witness :
  let H := Cosmos.one_instant_runtime in
  let e := Exn "TimeoutError" "model call timed out" in
  Conversations.scheduler_converse (fun _ => Raise e) "2025-01-02T00:00:00"
    "machine-001" "work order wo-2024-468" Scheduler.db_full_history
  = (Raise e, Scheduler.db_full_history) /\
  Conversations.parts_converse (fun _ => Raise e) "2025-01-02T00:00:00"
    "machine-001" "work order wo-2024-468" Scheduler.db_full_history
  = (Raise e, Scheduler.db_full_history).
Proof.
  intros H e.
  apply (@model_failure_propagates H (fun _ => Raise e) "2025-01-02T00:00:00"
           "machine-001" "work order wo-2024-468" Scheduler.db_full_history e).
  intros prompt. reflexivity.
Defined.

Lemma scheduler_prompt_window_witness :
  let H := Cosmos.one_instant_runtime in
  Conversations.scheduler_full_prompt "context"
    (Some (Cosmos.Encoded
             (Cosmos.JArr ([Cosmos.JNull; Cosmos.JNum 7] ++ Scheduler.ten_messages))))
  = Conversations.scheduler_full_prompt "context"
      (Some (Cosmos.Encoded (Cosmos.JArr Scheduler.ten_messages))).
Proof.
  intros H.
  apply (@scheduler_prompt_window H "context" [Cosmos.JNull; Cosmos.JNum 7]
           Scheduler.ten_messages).
  simpl. lia.
Defined.

Lemma malformed_message_drops_history_witness :
  let H := Cosmos.one_instant_runtime in
  Conversations.parts_full_context "context"
    (Some (Cosmos.Encoded
             (Cosmos.JArr [Scheduler.chat_message "user" "hello";
                           Cosmos.JObj [("role", Cosmos.JStr "assistant")]])))
  = "context".
Proof.
  intros H.
  apply (proj1 (@malformed_message_drops_history H "context"
                  [Scheduler.chat_message "user" "hello";
                   Cosmos.JObj [("role", Cosmos.JStr "assistant")]]
                  (Cosmos.JObj [("role", Cosmos.JStr "assistant")])
                  (or_intror eq_refl))).
  right. left. reflexivity.
Defined.

(** ** Inventory, suppliers and parts orders *)
Section Warehouse.
Import Cosmos CosmosMore.

(** The items one query per requested part returns, in the order of the
    requests. *)
Lemma inventory_loop_run (part_numbers : list json) (acct : Account) (ds : list item) :
  available (core acct) = true ->
  PartsInventory acct = Some ds ->
  inventory_loop part_numbers acct
  = (Ok (flat_map (fun part_number =>
                     map inventory_item_of
                         (List.filter (inventory_match part_number) ds))
                  part_numbers), acct).
Proof.
  intros Hav Hds.
  induction part_numbers as [|p ps IH]; [reflexivity|].
  cbn [inventory_loop flat_map]. unfold bind at 1. unfold container_docs at 1.
  rewrite Hav, Hds. simpl negb. cbv iota.
  unfold bind. rewrite IH. reflexivity.
Qed.

(** X18: [get_inventory_items] never raises and never writes.  With the
    service unreachable or the container missing the answer is the empty
    list, the same as for parts that are not stocked; otherwise it is, for
    each requested part in turn, the items whose part number or id equals
    it, so that a part asked for twice is listed twice. *)
Theorem get_inventory_items_outcomes (part_numbers : list json) (acct : Account) :
  get_inventory_items part_numbers acct
  = (Ok (if available (core acct) then
           match PartsInventory acct with
           | Some ds =>
               flat_map (fun part_number =>
                           map inventory_item_of
                               (List.filter (inventory_match part_number) ds))
                        part_numbers
           | None => []
           end
         else []), acct).
Proof.
  unfold get_inventory_items, try_except.
  destruct (available (core acct)) eqn:Hav.
  - destruct (PartsInventory acct) as [ds|] eqn:Hds.
    + rewrite (inventory_loop_run _ _ ds Hav Hds). reflexivity.
    + destruct part_numbers as [|p ps]; [reflexivity|].
      cbn [inventory_loop]. unfold bind, container_docs.
      rewrite Hav, Hds. reflexivity.
  - destruct part_numbers as [|p ps]; [reflexivity|].
    cbn [inventory_loop]. unfold bind, container_docs.
    rewrite Hav. reflexivity.
Qed.

Lemma suppliers_loop_sound (part_numbers : list json) (items : list item)
    (results : list Supplier) :
  suppliers_loop part_numbers items = Ok results ->
  forall s, In s results ->
    exists it, In it items /\ s = supplier_of it /\
               any_part_in (sup_parts s) part_numbers = Ok true.
Proof.
  revert results.
  induction items as [|it items IH]; simpl; intros results Hr s Hin.
  - injection Hr as <-. destruct Hin.
  - destruct (any_part_in (get it "parts" (JArr [])) part_numbers) as [hit|e] eqn:Ea;
      [|discriminate].
    destruct (suppliers_loop part_numbers items) as [more|e]; [|discriminate].
    injection Hr as <-.
    assert (Hmore : In s more ->
              exists it0, (it = it0 \/ In it0 items) /\ s = supplier_of it0 /\
                          any_part_in (sup_parts s) part_numbers = Ok true).
    { intros Hm. destruct (IH more eq_refl s Hm) as (it0 & Hi & Hs & Ha).
      exists it0. auto. }
    destruct hit; [|exact (Hmore Hin)].
    destruct Hin as [<-|Hin]; [|exact (Hmore Hin)].
    exists it. split; [left; reflexivity|]. split; [reflexivity|]. exact Ea.
Qed.

Lemma get_suppliers_for_parts_run (part_numbers : list json) (acct : Account) :
  get_suppliers_for_parts part_numbers acct
  = (Ok (if available (core acct) then
           match Suppliers acct with
           | Some ds =>
               match suppliers_loop part_numbers ds with
               | Ok (s :: results) => s :: results
               | _ => _generate_mock_suppliers
               end
           | None => _generate_mock_suppliers
           end
         else _generate_mock_suppliers), acct).
Proof.
  unfold get_suppliers_for_parts, try_except, bind, container_docs, lift, ret.
  destruct (available (core acct)); simpl; [|reflexivity].
  destruct (Suppliers acct) as [ds|]; [|reflexivity].
  destruct (suppliers_loop part_numbers ds) as [[|s results]|e]; reflexivity.
Qed.

(** X19: [get_suppliers_for_parts] never raises, never writes and never
    answers with an empty list.  The answer is either the two mock
    suppliers, or suppliers read from stored documents each of which lists
    one of the requested parts. *)
Theorem get_suppliers_for_parts_never_empty (part_numbers : list json)
    (acct : Account) :
  exists suppliers,
    get_suppliers_for_parts part_numbers acct = (Ok suppliers, acct) /\
    suppliers <> [] /\
    (suppliers = _generate_mock_suppliers \/
     exists ds, Suppliers acct = Some ds /\
       forall s, In s suppliers ->
         exists it, In it ds /\ s = supplier_of it /\
                    any_part_in (sup_parts s) part_numbers = Ok true).
Proof.
  eexists. split; [apply get_suppliers_for_parts_run|].
  destruct (available (core acct));
    [|split; [discriminate|left; reflexivity]].
  destruct (Suppliers acct) as [ds|];
    [|split; [discriminate|left; reflexivity]].
  destruct (suppliers_loop part_numbers ds) as [[|s results]|e] eqn:El;
    try (split; [discriminate|left; reflexivity]).
  split; [discriminate|]. right. exists ds. split; [reflexivity|].
  apply (suppliers_loop_sound _ _ _ El).
Qed.

Lemma any_part_in_list (xs : list json) (part_numbers : list json) :
  any_part_in (JArr xs) part_numbers
  = Ok (existsb (fun part => existsb (py_equal part) xs) part_numbers).
Proof.
  induction part_numbers as [|p ps IH]; [reflexivity|].
  simpl. destruct (existsb (py_equal p) xs); [reflexivity|exact IH].
Qed.

Lemma suppliers_loop_lists (part_numbers : list json) (items : list item) :
  (forall it, In it items -> exists xs, get it "parts" (JArr []) = JArr xs) ->
  suppliers_loop part_numbers items
  = Ok (map supplier_of (List.filter (lists_requested_part part_numbers) items)).
Proof.
  induction items as [|it items IH]; intros Hl; [reflexivity|].
  simpl. destruct (Hl it (or_introl eq_refl)) as (xs & Hxs).
  unfold lists_requested_part at 1. rewrite Hxs, any_part_in_list.
  rewrite IH by (intros it0 Hin; apply Hl; right; exact Hin).
  destruct (existsb _ part_numbers); reflexivity.
Qed.

(** X20: when the service answers and the [parts] field of every stored
    supplier is a list (or absent), the suppliers returned are exactly the
    stored ones that list a requested part, in stored order; when there is
    none, the two mock suppliers stand in, which list no part at all. *)
Theorem get_suppliers_for_parts_complete (part_numbers : list json)
    (acct : Account) (ds : list item) :
  available (core acct) = true ->
  Suppliers acct = Some ds ->
  (forall it, In it ds -> exists xs, get it "parts" (JArr []) = JArr xs) ->
  get_suppliers_for_parts part_numbers acct
  = (Ok (match List.filter (lists_requested_part part_numbers) ds with
         | [] => _generate_mock_suppliers
         | matching => map supplier_of matching
         end), acct) /\
  forall s, In s _generate_mock_suppliers -> sup_parts s = JArr [].
Proof.
  intros Hav Hds Hl. split.
  - rewrite get_suppliers_for_parts_run, Hav, Hds, (suppliers_loop_lists _ _ Hl).
    destruct (List.filter _ ds); reflexivity.
  - intros s [<-|[<-|[]]]; reflexivity.
Qed.

Lemma suppliers_loop_malformed (part_numbers : list json) (items : list item)
    (it : item) :
  part_numbers <> [] ->
  In it items ->
  match get it "parts" (JArr []) with
  | JNull | JBool _ | JNum _ => True
  | _ => False
  end ->
  exists e, suppliers_loop part_numbers items = Raise e.
Proof.
  intros Hne Hin Hbad.
  induction items as [|x items IH]; [destruct Hin|].
  simpl. destruct Hin as [->|Hin].
  - destruct part_numbers as [|p ps]; [congruence|].
    destruct (get it "parts" (JArr [])); try contradiction; simpl; eauto.
  - destruct (any_part_in _ part_numbers); [|eauto].
    destruct (IH Hin) as (e & ->). eauto.
Qed.

(** X21: one stored supplier whose [parts] field is [null], a number or a
    boolean hides every supplier.  The membership test on it raises, the
    handler answers, and the caller gets the two mock suppliers even when
    other stored suppliers list the requested parts. *)
Theorem get_suppliers_for_parts_malformed (part_numbers : list json)
    (acct : Account) (ds : list item) (it : item) :
  Suppliers acct = Some ds ->
  In it ds ->
  match get it "parts" (JArr []) with
  | JNull | JBool _ | JNum _ => True
  | _ => False
  end ->
  part_numbers <> [] ->
  get_suppliers_for_parts part_numbers acct = (Ok _generate_mock_suppliers, acct).
Proof.
  intros Hds Hin Hbad Hne.
  rewrite get_suppliers_for_parts_run, Hds.
  destruct (suppliers_loop_malformed part_numbers ds it Hne Hin Hbad) as (e & ->).
  destruct (available (core acct)); reflexivity.
Qed.

Context `{Runtime}.

Lemma find_replace_or_append (p : item -> bool) (body : item) (ds : list item) :
  p body = true ->
  List.find p (replace_or_append p body ds) = Some body.
Proof.
  intros Hb. induction ds as [|d ds IH]; simpl.
  - rewrite Hb. reflexivity.
  - destruct (p d) eqn:Ep; simpl.
    + rewrite Hb. reflexivity.
    + rewrite Ep. exact IH.
Qed.

Lemma replace_or_append_twice (p : item -> bool) (body : item) (ds : list item) :
  p body = true ->
  replace_or_append p body (replace_or_append p body ds)
  = replace_or_append p body ds.
Proof.
  intros Hb. induction ds as [|d ds IH]; simpl.
  - rewrite Hb. reflexivity.
  - destruct (p d) eqn:Ep; simpl.
    + rewrite Hb. reflexivity.
    + rewrite Ep, IH. reflexivity.
Qed.

Lemma save_parts_order_run (order : PartsOrder) (i : string) (acct : Account) :
  available (core acct) = true ->
  order_id order = JStr i ->
  save_parts_order order acct
  = (Ok order,
     {| core := core acct;
        PartsInventory := PartsInventory acct;
        Suppliers := Suppliers acct;
        PartsOrders :=
          Some (replace_or_append (order_doc_has_id i) (parts_order_item order)
                  (default [] (PartsOrders acct))) |}).
Proof.
  intros Hav Hid.
  unfold save_parts_order, bind, _ensure_parts_orders, try_except_class,
    container_docs, upsert_parts_order, set_parts_orders, modify, ret.
  rewrite Hav. simpl negb. cbv iota.
  destruct (PartsOrders acct) as [ds|]; simpl; rewrite Hid; reflexivity.
Qed.

(** X22: saving a parts order whose id is a string stores the order's
    document under that id, creating the container when it is missing:
    looking the id up afterwards finds the document just written, the
    documents with other ids are as before, inventory, suppliers and work
    orders are untouched, and saving the same order again changes
    nothing. *)
Theorem save_parts_order_roundtrip (order : PartsOrder) (i : string)
    (acct : Account) :
  available (core acct) = true ->
  order_id order = JStr i ->
  exists acct' ds',
    save_parts_order order acct = (Ok order, acct') /\
    PartsOrders acct' = Some ds' /\
    List.find (order_doc_has_id i) ds' = Some (parts_order_item order) /\
    List.filter (fun d => negb (order_doc_has_id i d)) ds'
    = List.filter (fun d => negb (order_doc_has_id i d))
        (default [] (PartsOrders acct)) /\
    core acct' = core acct /\
    PartsInventory acct' = PartsInventory acct /\
    Suppliers acct' = Suppliers acct /\
    save_parts_order order acct' = (Ok order, acct').
Proof.
  intros Hav Hid.
  assert (Hbody : order_doc_has_id i (parts_order_item order) = true).
  { unfold order_doc_has_id, parts_order_item. simpl. rewrite Hid. simpl.
    apply String.eqb_refl. }
  eexists. eexists. split; [apply (save_parts_order_run order i acct Hav Hid)|].
  simpl. split; [reflexivity|].
  split; [apply find_replace_or_append; exact Hbody|].
  split; [apply replace_or_append_others; auto|].
  do 3 (split; [reflexivity|]).
  rewrite (save_parts_order_run order i) by assumption.
  simpl. rewrite replace_or_append_twice by exact Hbody. reflexivity.
Qed.

End Warehouse.

Lemma get_suppliers_for_parts_complete_witness :
  CosmosMore.get_suppliers_for_parts [Cosmos.JStr "P-1"]
    (CosmosMore.acct_two_suppliers (Cosmos.JArr [Cosmos.JStr "P-2"]))
  = (Ok [CosmosMore.supplier_of
           [("id", Cosmos.JStr "sup-1"); ("name", Cosmos.JStr "Bearings Inc.");
            ("parts", Cosmos.JArr [Cosmos.JStr "P-1"; Cosmos.JStr "P-7"])]],
     CosmosMore.acct_two_suppliers (Cosmos.JArr [Cosmos.JStr "P-2"])).
Proof.
  apply (proj1 (get_suppliers_for_parts_complete [Cosmos.JStr "P-1"]
                  (CosmosMore.acct_two_suppliers (Cosmos.JArr [Cosmos.JStr "P-2"]))
                  _ eq_refl eq_refl
                  ltac:(intros it [<-|[<-|[]]]; eexists; reflexivity))).
Defined.

Lemma get_suppliers_for_parts_malformed_witness :
  CosmosMore.get_suppliers_for_parts [Cosmos.JStr "P-1"]
    (CosmosMore.acct_two_suppliers Cosmos.JNull)
  = (Ok CosmosMore._generate_mock_suppliers,
     CosmosMore.acct_two_suppliers Cosmos.JNull).
Proof.
  apply (get_suppliers_for_parts_malformed [Cosmos.JStr "P-1"]
           (CosmosMore.acct_two_suppliers Cosmos.JNull) _
           [("id", Cosmos.JStr "sup-2"); ("name", Cosmos.JStr "Seals Ltd.");
            ("parts", Cosmos.JNull)] eq_refl).
  - right. left. reflexivity.
  - exact I.
  - discriminate.
Defined.

Lemma save_parts_order_roundtrip_witness :
  let H := Cosmos.one_instant_runtime in
  let acct := CosmosMore.acct_two_suppliers Cosmos.JNull in
  exists acct' ds',
    CosmosMore.save_parts_order CosmosMore.example_order acct
    = (Ok CosmosMore.example_order, acct') /\
    CosmosMore.PartsOrders acct' = Some ds' /\
    List.find (CosmosMore.order_doc_has_id "PO-1a2b3c4d") ds'
    = Some (CosmosMore.parts_order_item CosmosMore.example_order) /\
    List.filter (fun d => negb (CosmosMore.order_doc_has_id "PO-1a2b3c4d" d)) ds'
    = List.filter (fun d => negb (CosmosMore.order_doc_has_id "PO-1a2b3c4d" d))
        (default [] (CosmosMore.PartsOrders acct)) /\
    CosmosMore.core acct' = CosmosMore.core acct /\
    CosmosMore.PartsInventory acct' = CosmosMore.PartsInventory acct /\
    CosmosMore.Suppliers acct' = CosmosMore.Suppliers acct /\
    CosmosMore.save_parts_order CosmosMore.example_order acct'
    = (Ok CosmosMore.example_order, acct').
Proof.
  intros H acct.
  apply (@save_parts_order_roundtrip H CosmosMore.example_order "PO-1a2b3c4d" acct).
  - reflexivity.
  - reflexivity.
Defined.

(** ** The executors: configuration, ids, and orders that are not needed *)
Section ExecutorOutcomes.
Import Agents.
Context `{Cosmos.Runtime} {W : Type} `{!Collaborators W}.

Lemma truthy_or_else (a b : option string) :
  truthy_opt (or_else a b) = truthy_opt a || truthy_opt b.
Proof. unfold or_else. destruct (truthy_opt a) eqn:E; [exact E|reflexivity]. Qed.

(** X23: with the Cosmos endpoint or key unset or empty, or both names of
    the database, or both names of the project endpoint, either executor
    answers "Error: Missing required environment variables for" its agent,
    in one message with a fresh id, and calls none of its collaborators: the
    world is left as it was. *)
Theorem execute_missing_configuration (ex : executor)
    (environ : gmap string string) (message : option Message)
    (st : @ExecState W) :
  truthy_opt (getenv environ "COSMOS_ENDPOINT") = false \/
  truthy_opt (getenv environ "COSMOS_KEY") = false \/
  (truthy_opt (getenv environ "COSMOS_DATABASE_NAME") = false /\
   truthy_opt (getenv environ "COSMOS_DATABASE") = false) \/
  (truthy_opt (getenv environ "AI_FOUNDRY_PROJECT_ENDPOINT") = false /\
   truthy_opt (getenv environ "AZURE_AI_PROJECT_ENDPOINT") = false) ->
  execute ex environ message st
  = (Ok tt,
     {| world := world st;
        event_queue := event_queue st ++
          [response_message (uuid4 (uuids_drawn st))
             ("Error: Missing required environment variables for " ++
              match ex with
              | MaintenanceSchedulerExecutor => "MaintenanceSchedulerAgent"
              | PartsOrderingExecutor => "PartsOrderingAgent"
              end)];
        uuids_drawn := S (uuids_drawn st) |}).
Proof.
  intros Hmiss.
  assert (Hall :
    all [truthy_opt (getenv environ "COSMOS_ENDPOINT");
         truthy_opt (getenv environ "COSMOS_KEY");
         truthy_opt (or_else (getenv environ "COSMOS_DATABASE_NAME")
                             (getenv environ "COSMOS_DATABASE"));
         truthy_opt (or_else (getenv environ "AI_FOUNDRY_PROJECT_ENDPOINT")
                             (getenv environ "AZURE_AI_PROJECT_ENDPOINT"))]
    = false).
  { unfold all. cbn [forallb]. rewrite !truthy_or_else.
    destruct Hmiss as [-> | [-> | [[-> ->] | [-> ->]]]];
      rewrite ?andb_false_r; reflexivity. }
  rewrite execute_run.
  destruct ex; cbn [try_body]; unfold maintenance_try, parts_try; cbv zeta;
    rewrite Hall; reflexivity.
Qed.

(** X24: whether the parts executor orders anything is decided by the
    [isAvailable] marks of the work order alone.  When every required part
    is marked available (or none is required), it sets the order to [Ready]
    and answers that no parts order is needed, whatever the inventory read
    returned; suppliers and the model are not consulted. *)
Theorem parts_execute_nothing_to_order (environ : gmap string string)
    (message : option Message) (st : @ExecState W)
    (w1 w2 w3 w4 : W) (wo : Cosmos.WorkOrder) (inv : Inventory) :
  let database_name :=
    or_else (getenv environ "COSMOS_DATABASE_NAME") (getenv environ "COSMOS_DATABASE") in
  let project_endpoint :=
    or_else (getenv environ "AI_FOUNDRY_PROJECT_ENDPOINT")
            (getenv environ "AZURE_AI_PROJECT_ENDPOINT") in
  all [truthy_opt (getenv environ "COSMOS_ENDPOINT");
       truthy_opt (getenv environ "COSMOS_KEY");
       truthy_opt database_name; truthy_opt project_endpoint] = true ->
  CosmosDbService (default "" (getenv environ "COSMOS_ENDPOINT"))
    (default "" (getenv environ "COSMOS_KEY")) (default "" database_name) (world st)
    = (Ok tt, w1) ->
  get_work_order (resolve_work_order_id (extract_input_text message)) w1
    = (Ok wo, w2) ->
  get_inventory_items (map Cosmos.part_number (Cosmos.required_parts wo)) w2
    = (Ok inv, w3) ->
  (forall p, In p (Cosmos.required_parts wo) ->
     Cosmos.json_truthy (Cosmos.is_available p) = true) ->
  update_work_order_status (Cosmos.wo_id wo) "Ready" w3 = (Ok tt, w4) ->
  parts_execute environ message st
  = (Ok tt,
     {| world := w4;
        event_queue := event_queue st ++
          [response_message (uuid4 (uuids_drawn st))
             "All required parts are available in stock. No parts order needed."];
        uuids_drawn := S (uuids_drawn st) |}).
Proof.
  intros database_name project_endpoint Hall Hc Hg Hi Hav Hu.
  subst database_name project_endpoint.
  assert (Hnone :
    List.filter (fun p => negb (Cosmos.json_truthy (Cosmos.is_available p)))
      (Cosmos.required_parts wo) = []).
  { revert Hav. generalize (Cosmos.required_parts wo).
    induction l as [|p ps IH]; intros Hl; [reflexivity|].
    simpl. rewrite (Hl p (or_introl eq_refl)). simpl.
    apply IH. intros q Hq. apply Hl. right. exact Hq. }
  change (parts_execute environ message st)
    with (execute PartsOrderingExecutor environ message st).
  rewrite execute_run. cbn [try_body].
  assert (Htry : parts_try environ message st
                 = (Ok "All required parts are available in stock. No parts order needed.",
                    {| world := w4; event_queue := event_queue st;
                       uuids_drawn := uuids_drawn st |})).
  { unfold parts_try. cbv zeta. rewrite Hall. cbn [negb].
    unfold bind, call. rewrite Hc. cbn [world]. rewrite Hg. cbn [world].
    rewrite Hi. cbn [world]. rewrite Hnone. cbv beta iota. cbn [world].
    rewrite Hu. reflexivity. }
  rewrite Htry. reflexivity.
Qed.

Lemma extract_well_formed_id (m : string) :
  is_work_order_id m = true -> extract_work_order_id m = Some m.
Proof.
  intros Hid. unfold extract_work_order_id. rewrite re_search_unfold.
  assert (Hm : match_items work_order_pattern m = Some m).
  { apply match_pattern_spec. exists "". rewrite sapp_nil_r.
    split; [reflexivity|]. split; [exact Hid|exact I]. }
  rewrite Hm. reflexivity.
Qed.

(** X25: the id an executor looks up is always well formed: [wo-], four
    digits, [-] and hexadecimal digits, in the case the text had them.
    Parsing that id again gives it back, so a reply that quotes the id
    resolves to the same work order. *)
Theorem resolve_work_order_id_well_formed (input_text : string) :
  let work_order_id := resolve_work_order_id input_text in
  is_work_order_id work_order_id = true /\
  extract_work_order_id work_order_id = Some work_order_id /\
  resolve_work_order_id work_order_id = work_order_id.
Proof.
  intros work_order_id.
  assert (Hid : is_work_order_id work_order_id = true).
  { subst work_order_id. unfold resolve_work_order_id.
    destruct (truthy input_text); [|reflexivity].
    pose proof (extract_work_order_id_spec input_text) as Hs.
    destruct (extract_work_order_id input_text) as [m|]; [|reflexivity].
    destruct Hs as (pre & suf & _ & Hm & _).
    cbn [truthy_opt]. destruct m as [|c m]; [discriminate Hm|]. exact Hm. }
  split; [exact Hid|].
  pose proof (extract_well_formed_id _ Hid) as He.
  split; [exact He|].
  unfold resolve_work_order_id at 1. rewrite He.
  destruct work_order_id as [|c m]; [discriminate Hid|]. reflexivity.
Qed.

End ExecutorOutcomes.

Lemma execute_missing_configuration_witness :
  let C := Agents.example_collaborators false in
  let st := Agents.example_state Cosmos.db_one_order in
  @Agents.execute _ _ C Agents.PartsOrderingExecutor
    (list_to_map [("COSMOS_ENDPOINT", "https://cosmos.example");
                  ("COSMOS_KEY", "");
                  ("COSMOS_DATABASE", "factory");
                  ("AZURE_AI_PROJECT_ENDPOINT", "https://foundry.example")])
    (Some Agents.example_request) st
  = (Ok tt,
     {| Agents.world := Cosmos.db_one_order;
        Agents.event_queue :=
          [Agents.response_message "a-uuid"
             "Error: Missing required environment variables for PartsOrderingAgent"];
        Agents.uuids_drawn := 1 |}).
Proof.
  intros C st.
  apply (@execute_missing_configuration Cosmos.one_instant_runtime Cosmos.Database C
           Agents.PartsOrderingExecutor _ (Some Agents.example_request) st).
  right. left. reflexivity.
Defined.

Lemma parts_execute_nothing_to_order_witness :
  let C := Agents.example_collaborators false in
  let st := Agents.example_state Cosmos.db_one_order in
  exists db',
    @Agents.parts_execute _ _ C Agents.example_environ
      (Some Agents.example_request) st
    = (Ok tt,
       {| Agents.world := db';
          Agents.event_queue :=
            [Agents.response_message "a-uuid"
               "All required parts are available in stock. No parts order needed."];
          Agents.uuids_drawn := 1 |}).
Proof.
  intros C st.
  exists (snd (@Cosmos.update_work_order_status Cosmos.one_instant_runtime
                 "wo-2024-468" "Ready" Cosmos.db_one_order)).
  apply (@parts_execute_nothing_to_order Cosmos.one_instant_runtime
           Cosmos.Database C Agents.example_environ
           (Some Agents.example_request) st
           Cosmos.db_one_order Cosmos.db_one_order Cosmos.db_one_order
           (snd (@Cosmos.update_work_order_status Cosmos.one_instant_runtime
                   "wo-2024-468" "Ready" Cosmos.db_one_order))
           (@Cosmos.Build_WorkOrder Cosmos.one_instant_runtime
              (Cosmos.JStr "wo-2024-468") (Cosmos.JStr "machine-001")
              (Cosmos.JStr "bearing_wear") (Cosmos.JStr "high")
              (Cosmos.JStr "tech-7")
              [ {| Cosmos.part_number := Cosmos.JStr "P-1";
                   Cosmos.part_name := Cosmos.JStr "Bearing";
                   Cosmos.quantity := Cosmos.JNum 2;
                   Cosmos.is_available := Cosmos.JBool true |} ]
              (Cosmos.JNum 90)
              (Some (tt : @Cosmos.datetime Cosmos.one_instant_runtime))
              (Cosmos.JStr "Created"))
           tt).
  - reflexivity.
  - reflexivity.
  - reflexivity.
  - reflexivity.
  - intros p [<-|[]]. reflexivity.
  - reflexivity.
Defined.

(** ** Discovery without a card resolver *)
Section DiscoveryFallback.
Import Agents.

(** X26: with a package that ships no card resolver, [get_a2a_agent] asks
    nothing of the network and tries the constructor with the url alone
    first.  An agent that comes back was accepted by the constructor,
    points at the given url and has no card; it has the name
    "RepairPlannerAgent" only when the url alone was refused with a
    [TypeError].  Any other exception of the constructor leaves the function
    as it is, and two [TypeError]s end in the [RuntimeError] "Unable to
    construct A2A agent". *)
Theorem get_a2a_agent_fallback (a2a : A2APackage) (url : string) (log : list Event) :
  A2ACardResolver a2a = None ->
  let bare := {| agent_name := None; agent_description := None;
                 agent_card := None; agent_url := url |} in
  let named := {| agent_name := Some "RepairPlannerAgent";
                  agent_description := Some "A2A agent";
                  agent_card := None; agent_url := url |} in
  snd (get_a2a_agent (Ok a2a) url log) = log /\
  (forall agent, fst (get_a2a_agent (Ok a2a) url log) = Ok agent ->
     A2AAgent_new a2a agent = Ok tt /\
     agent_card agent = None /\ agent_url agent = url /\
     (agent = bare \/
      agent = named /\
      exists e, A2AAgent_new a2a bare = Raise e /\ is_TypeError e = true)) /\
  (A2AAgent_new a2a bare = Ok tt ->
   fst (get_a2a_agent (Ok a2a) url log) = Ok bare) /\
  (forall e, A2AAgent_new a2a bare = Raise e -> is_TypeError e = false ->
     fst (get_a2a_agent (Ok a2a) url log) = Raise e) /\
  (forall e1 e2,
     A2AAgent_new a2a bare = Raise e1 -> is_TypeError e1 = true ->
     A2AAgent_new a2a named = Raise e2 -> is_TypeError e2 = true ->
     exists msg,
       fst (get_a2a_agent (Ok a2a) url log) = Raise (Exn "RuntimeError" msg) /\
       String.prefix "Unable to construct A2A agent" msg = true).
Proof.
  intros Hres bare named.
  unfold get_a2a_agent. rewrite Hres.
  unfold bind, lift, ret, raise. cbn [first_accepted].
  fold bare. fold named.
  destruct (A2AAgent_new a2a bare) as [[]|e1] eqn:Eb.
  - simpl. split; [reflexivity|]. split.
    + intros agent E. injection E as <-. auto.
    + split; [reflexivity|]. split; intros; discriminate.
  - destruct (is_TypeError e1) eqn:Et1.
    + destruct (A2AAgent_new a2a named) as [[]|e2] eqn:En.
      * simpl. split; [reflexivity|]. split.
        { intros agent E. injection E as <-.
          split; [exact En|]. split; [reflexivity|]. split; [reflexivity|].
          right. split; [reflexivity|]. exists e1. auto. }
        split; [discriminate|]. split.
        { intros e E. injection E as <-. congruence. }
        intros e1' e2' _ _ E. discriminate E.
      * destruct (is_TypeError e2) eqn:Et2; simpl.
        { split; [reflexivity|]. split; [discriminate|].
          split; [discriminate|]. split.
          - intros e E. injection E as <-. congruence.
          - intros e1' e2' _ _ _ _. eexists. split; reflexivity. }
        { split; [reflexivity|]. split; [discriminate|].
          split; [discriminate|]. split.
          - intros e E. injection E as <-. congruence.
          - intros e1' e2' _ _ E Ht. injection E as <-. congruence. }
    + simpl. split; [reflexivity|]. split; [discriminate|].
      split; [discriminate|]. split.
      * intros e E _. injection E as <-. reflexivity.
      * intros e1' e2' E Ht. injection E as <-. congruence.
Qed.

End DiscoveryFallback.

Lemma get_a2a_agent_fallback_witness :
  fst (Agents.get_a2a_agent (Ok Agents.package_without_resolver)
         "https://planner.example" [])
  = Ok {| Agents.agent_name := None;
          Agents.agent_description := None;
          Agents.agent_card := None;
          Agents.agent_url := "https://planner.example" |}.
Proof.
  apply (proj1 (proj2 (proj2
           (get_a2a_agent_fallback Agents.package_without_resolver
              "https://planner.example" [] eq_refl)))).
  reflexivity.
Defined.

(** ** From the model's answer to the stored order *)
Section Answers.
Import Cosmos CosmosMore Conversations.
Context `{Runtime}.

Lemma and_then_ok {A B} (r : result A) (k : A -> result B) (b : B) :
  and_then r k = Ok b -> exists a, r = Ok a /\ k a = Ok b.
Proof. destruct r as [a|e]; simpl; [eauto|discriminate]. Qed.

Lemma order_item_of_keeps (it : json) (oi : OrderItem) :
  order_item_of it = Ok oi ->
  forall k, In k order_item_keys ->
    subscript (order_item_json oi) k = subscript it k.
Proof.
  unfold order_item_of. intros E.
  repeat (apply and_then_ok in E as (? & ? & E)).
  injection E as <-. intros k Hk. unfold order_item_keys in Hk. simpl in Hk.
  repeat (destruct Hk as [<-|Hk]; [symmetry; assumption|]). destruct Hk.
Qed.

Lemma order_items_of_keep (its : list json) (ois : list OrderItem) :
  order_items_of its = Ok ois ->
  Forall2 (fun it oi =>
             forall k, In k order_item_keys ->
               subscript (order_item_json oi) k = subscript it k)
          its ois.
Proof.
  revert ois. induction its as [|it its IH]; simpl; intros ois E.
  - injection E as <-. constructor.
  - apply and_then_ok in E as (oi & Hoi & E).
    apply and_then_ok in E as (rest & Hrest & E).
    injection E as <-. constructor.
    + apply order_item_of_keeps. exact Hoi.
    + apply IH. exact Hrest.
Qed.

(** X27: the document saved for an order carries the model's answer as it
    was given.  The supplier, the total cost and, item by item, the five
    fields of every order item are the values of the answer, neither checked
    nor recomputed; other keys of the answer are dropped.  The id is [PO-]
    and the first eight characters of a fresh uuid, the status is
    [Pending]. *)
Theorem order_document_keeps_answer (uuid : string) (utcnow : datetime)
    (work_order_id data : json) (order : PartsOrder) :
  order_of_answer uuid utcnow work_order_id data = Ok order ->
  let doc := parts_order_item order in
  lookup_key doc "id" = Some (JStr ("PO-" ++ String.substring 0 8 uuid)) /\
  lookup_key doc "workOrderId" = Some work_order_id /\
  lookup_key doc "orderStatus" = Some (JStr "Pending") /\
  (forall k, In k ["supplierId"; "supplierName"; "totalCost"] ->
     subscript (JObj doc) k = subscript data k) /\
  exists items its,
    subscript data "orderItems" = Ok items /\
    iterate items = Ok its /\
    lookup_key doc "orderItems"
    = Some (JArr (map order_item_json (order_items order))) /\
    Forall2 (fun it oi =>
               forall k, In k order_item_keys ->
                 subscript (order_item_json oi) k = subscript it k)
            its (order_items order).
Proof.
  unfold order_of_answer. intros E.
  apply and_then_ok in E as (items & Hitems & E).
  apply and_then_ok in E as (its & Hits & E).
  apply and_then_ok in E as (ois & Hois & E).
  apply and_then_ok in E as (sid & Hsid & E).
  apply and_then_ok in E as (sname & Hsname & E).
  apply and_then_ok in E as (total & Htotal & E).
  apply and_then_ok in E as (expected & Hexp & E).
  apply and_then_ok in E as (text & Htext & E).
  apply and_then_ok in E as (delivery & Hdel & E).
  injection E as <-. cbv zeta.
  split; [reflexivity|]. split; [reflexivity|]. split; [reflexivity|].
  split.
  - intros k Hk. simpl in Hk.
    destruct Hk as [<-|[<-|[<-|[]]]]; symmetry; assumption.
  - exists items, its. split; [exact Hitems|]. split; [exact Hits|].
    split; [reflexivity|]. apply order_items_of_keep. exact Hois.
Qed.

End Answers.

Lemma order_document_keeps_answer_witness :
  let H := Cosmos.one_instant_runtime in
  exists order,
    Conversations.order_of_answer "1a2b3c4d-0000-4000-8000-000000000000" tt
      (Cosmos.JStr "wo-2024-468") Conversations.example_answer = Ok order /\
    Cosmos.lookup_key (CosmosMore.parts_order_item order) "id"
    = Some (Cosmos.JStr "PO-1a2b3c4d") /\
    Conversations.subscript (Cosmos.JObj (CosmosMore.parts_order_item order))
      "totalCost" = Ok (Cosmos.JNum 80).
Proof.
  intros H. eexists. split; [reflexivity|].
  pose proof (@order_document_keeps_answer H
                "1a2b3c4d-0000-4000-8000-000000000000" tt
                (Cosmos.JStr "wo-2024-468") Conversations.example_answer _ eq_refl)
    as (Hid & _ & _ & Hk & _).
  split; [exact Hid|].
  exact (Hk "totalCost" (or_intror (or_intror (or_introl eq_refl)))).
Defined.

(** ** A request for a work order the store does not hold *)
Section UnknownWorkOrder.
Import Agents.
Context `{Cosmos.Runtime} (C : Collaborators Cosmos.Database).

Lemma get_work_order_absent (i : string) (db : Cosmos.Database)
    (c : Cosmos.Container) :
  Cosmos.available db = true ->
  Cosmos.WorkOrders db = Some c ->
  List.filter (Cosmos.has_id i) (Cosmos.docs c) = [] ->
  Cosmos.get_work_order i db
  = (Raise (Exn "Exception" ("Work order " ++ i ++ " not found")), db).
Proof.
  intros Hav Hw Hf.
  unfold Cosmos.get_work_order, Cosmos.try_except_class, bind,
    Cosmos.query_items_by_id, bind, ret, raise.
  rewrite (work_orders_ok db c Hav Hw).
  change (fun d : Cosmos.item =>
            match Cosmos.lookup_key d "id" with
            | Some v => Cosmos.json_eqb_str v i
            | None => false
            end) with (Cosmos.has_id i).
  rewrite Hf. reflexivity.
Qed.

(** X28: over the Cosmos service of challenge-3, a request whose work
    order is not in the container is answered, by either executor, with
    "Error processing ... request: Work order <id> not found", where <id> is
    the id parsed from the last text part, or [wo-2024-468] when the request
    names none; the store is left as it was. *)
Theorem execute_unknown_work_order (ex : executor)
    (environ : gmap string string) (message : option Message)
    (st : @ExecState Cosmos.Database) (w1 : Cosmos.Database)
    (c : Cosmos.Container) :
  let database_name :=
    or_else (getenv environ "COSMOS_DATABASE_NAME") (getenv environ "COSMOS_DATABASE") in
  let project_endpoint :=
    or_else (getenv environ "AI_FOUNDRY_PROJECT_ENDPOINT")
            (getenv environ "AZURE_AI_PROJECT_ENDPOINT") in
  let work_order_id := resolve_work_order_id (extract_input_text message) in
  get_work_order = Cosmos.get_work_order ->
  all [truthy_opt (getenv environ "COSMOS_ENDPOINT");
       truthy_opt (getenv environ "COSMOS_KEY");
       truthy_opt database_name; truthy_opt project_endpoint] = true ->
  CosmosDbService (default "" (getenv environ "COSMOS_ENDPOINT"))
    (default "" (getenv environ "COSMOS_KEY")) (default "" database_name) (world st)
    = (Ok tt, w1) ->
  Cosmos.available w1 = true ->
  Cosmos.WorkOrders w1 = Some c ->
  List.filter (Cosmos.has_id work_order_id) (Cosmos.docs c) = [] ->
  execute ex environ message st
  = (Ok tt,
     {| world := w1;
        event_queue := event_queue st ++
          [response_message (uuid4 (uuids_drawn st))
             (match ex with
              | MaintenanceSchedulerExecutor =>
                  "Error processing maintenance schedule request: "
              | PartsOrderingExecutor => "Error processing parts order request: "
              end ++ "Work order " ++ work_order_id ++ " not found")];
        uuids_drawn := S (uuids_drawn st) |}).
Proof.
  intros database_name project_endpoint work_order_id Hget Hall Hc Hav Hw Hf.
  subst database_name project_endpoint work_order_id.
  pose proof (get_work_order_absent _ _ _ Hav Hw Hf) as Hnf.
  rewrite execute_run.
  destruct ex; cbn [try_body error_text]; unfold maintenance_try, parts_try;
    cbv zeta; rewrite Hall; cbn [negb]; unfold bind, call; rewrite Hc;
    cbn [world]; rewrite Hget, Hnf; reflexivity.
Qed.

End UnknownWorkOrder.

(** The store holds [wo-2024-468]; the request writes the id in upper case,
    and the lookup keeps the case of the request. *)
Lemma execute_unknown_work_order_witness :
  let C := Agents.example_collaborators false in
  let st := Agents.example_state Cosmos.db_one_order in
  let request :=
    {| Agents.messageId := "m-2"; Agents.role := "user";
       Agents.parts := [ {| Agents.root := Agents.TextPart "schedule WO-2024-468 now" |} ] |} in
  @Agents.execute _ _ C Agents.MaintenanceSchedulerExecutor Agents.example_environ
    (Some request) st
  = (Ok tt,
     {| Agents.world := Cosmos.db_one_order;
        Agents.event_queue :=
          [Agents.response_message "a-uuid"
             ("Error processing maintenance schedule request: " ++
              "Work order " ++ "WO-2024-468" ++ " not found")];
        Agents.uuids_drawn := 1 |}).
Proof.
  intros C st request.
  apply (@execute_unknown_work_order Cosmos.one_instant_runtime C
           Agents.MaintenanceSchedulerExecutor Agents.example_environ
           (Some request) st Cosmos.db_one_order
           {| Cosmos.pk_path := "status";
              Cosmos.docs := default [] (option_map Cosmos.docs
                                           (Cosmos.WorkOrders Cosmos.db_one_order)) |});
    reflexivity.
Defined.
